(* ===== verification/_CoqProject ===== *)
-Q . S2P
Prelude.v
JsNum.v
JsValue.v
Json.v
Uri.v
Schema.v
Wire.v
Client.v
Page.v
Forms.v
LogSession.v
Metrics.v
Profile.v
Dashboard.v
Analytics.v
Shell.v
