(* ===== verification/Prelude.v ===== *)
(** * Gymyo web front end: a verification development

    The program is the browser front end of an adaptive strength-training
    coach, [src/web/src] of the repository.  It has four parts:

    - the schema ([api/types.ts]): the records exchanged with the backend;
    - the API client ([api/client.ts]): one [request] function that calls
      [fetch] on [/api + path], turns a non-2xx response into an
      [ApiError] carrying the body's [detail] (or the status text), and
      otherwise returns the parsed JSON body unchecked; plus one method per
      backend operation;
    - five page controllers ([pages/*.tsx]), each a React component whose
      state is held in [useState] hooks and changed by handlers and by the
      continuations of the API calls it issues;
    - the shell ([App.tsx], [components/Layout.tsx]): routes and navigation.

    The pages call the client; the client calls [fetch] and [JSON.parse]
    / [JSON.stringify]; nothing is shared between pages.

    ** Files, in dependency order

    - [Prelude] (this file): the [gymyo_scope] notations, the [gymyo] hint
      database, the Ltac of the development, and the generic lemmas on
      lists and association lists the components share (the list map with
      an index test that the pages use to edit one row is stdpp's [alter]).
    - [JsNum]: JavaScript numbers as normalised decimals, with the
      language's [Number(string)] conversion (StringToNumber) and
      [Number.prototype.toString] (radix 10).
    - [JsValue]: JavaScript values, property access (with the TypeError of
      [null.x]), object spread, [Object.entries], [??], and [String(v)] as
      used by template literals.
    - [Json]: [JSON.stringify] and [JSON.parse] on those values.
    - [Uri]: [encodeURIComponent], used by [getAnalytics].
    - [Schema]: the records of [types.ts] and their encoding as the
      JavaScript objects the pages build.
    - [Wire]: which records survive [JSON.stringify] then [JSON.parse]
      and the schema check: those whose numbers are finite and canonical.
    - [Client]: [request] split into its synchronous part (the [fetch]
      arguments) and its continuation (the handling of the response), the
      [ApiError] class, and the seven operations of [api].
    - [Page]: the event-loop model shared by the pages: a page is a state,
      user actions and API continuations; requests in flight are explicit
      and may settle in any order.
    - [Forms]: the generic field-driven metrics form and the exercise-row
      editing of the log-session page.
    - [LogSession], [Metrics], [Profile], [Dashboard], [Analytics]: one
      file per page, each a Module named after the component
      ([LogSessionPage], ...): its [state] record (the [useState] hooks),
      its [action]s (the controls' handlers), the [tag]s of the calls it
      issues, [handle] (the handler of an action: new state and calls),
      [continuation] (the [.then]/[.catch] or the code after [await]) and
      [page], the [PageSpec] the runtime of [Page] executes; the two
      read-then-display pages also have [render], the view they compute.
    - [Shell]: [App]'s route table with its catch-all redirect, [Layout]'s
      links and active-link test, and the application state (location and
      mounted page): opening a URL mounts the routed page afresh, and a
      navigation inside the application keeps the page shown when the
      matched route is unchanged and mounts the routed page afresh
      otherwise.

    ** Theorems (claim ids in brackets)

    - Client: a non-2xx response is rejected with the body's [detail]
      [C1]; the URL of [getAnalytics], read the way the server reads a
      query, gives exactly the user id and the exercise name, whatever the
      name holds [C24] ([encodeURIComponent] is undone by
      [decodeURIComponent] and leaves no query delimiter).
    - Forms: a row edit changes that row only [C2]; "Add Exercise" appends
      the default row [C3]; the generic edit refines the typed record
      update [C5].
    - Pages, as state machines run by [Page]: the invariants of the drafts
      in every reachable state (rule induction with [reachable_invariant])
      [C4, C6, C13]; the call each submit issues and its body [C7, C11]; the
      message after every kind of outcome, errors included [C8, C12, C15];
      the interleavings the pages do not guard against: two submits or two
      refreshes answered in reverse order [C9, C22], a load that discards
      edits made before it settles [C14]; the read-then-display machines,
      their rendered text and their error views [C16-C20, C23].
    - Shell: the location always routes to the page shown, and the
      highlighted link is that page's exactly when the location is spelled
      as its [href] [C25]; every page mounted in the application is in a
      configuration its own runtime reaches, so the page invariants hold
      in the whole application [C26].
    - Round trips: [Number(String(x)) = x] for every canonical number
      ([JsNum.Number_to_string], over the four printing cases of
      Number::toString); [JSON.parse(JSON.stringify(v)) = v] for every
      JSON value ([Json.parse_stringify]: finite canonical numbers,
      distinct keys, no [undefined]), and [nullify v] for a value whose
      non-finite numbers are the only obstacle ([Json.parse_stringify_nullify]);
      on these, typing back a displayed metric is a no-op [C27], every
      write body and 2xx response carries its JSON value unchanged [C28],
      the log-session and metrics bodies are read back by the schema as
      exactly the drafts on screen [C29, C30], and a draft with a NaN is
      sent with [null] in its place and refused by the schema [C10].

    ** Fuel

    [JSON.parse] ([Json.parse]) is a recursive-descent parser given
    [1 + length text] fuel: every nested call is made after at least one
    character is consumed, so the fuel is never the limit.  That this
    fuel suffices is proved for every text [JSON.stringify] prints
    ([Json.json_reads_back]: the parser reads a printed value followed by
    any delimiter with any fuel above the printed length).
    [JsNum.strip_seqs] strips white space with [length l] fuel, enough
    since each white space sequence is non-empty.

    ** Not modelled

    The rendering library (recharts) and the markup of the views beyond
    the text and controls the pages compute; React's scheduling beyond the
    order in which state updates and continuations run; rounding of
    decimals to binary64 (see [JsNum]); the backend, reached only through
    [fetch], whose responses are arbitrary, except for its reading of
    what it receives: [Wire.read_body] ([JSON.parse] then the schema of
    [types.ts]) and [Uri.query_params] (the query string).
 *)

From stdpp Require Export base list strings decidable sets.
From Stdlib Require Export ZArith Lia.
Export ListNotations.

Declare Scope gymyo_scope.
Delimit Scope gymyo_scope with gy.
Open Scope gymyo_scope.

Create HintDb gymyo discriminated.
Create Rewrite HintDb gymyo.

(** ** Tactics *)

Ltac invc H := inversion H; subst; clear H.

(** Case analysis on every [decide] and [match] of the goal, then close what
    [simplify_eq] and [lia] can. *)
Ltac case_all :=
  repeat (simplify_eq/=; (case_decide || case_match)); simplify_eq/=; try done; try lia.

(** Settle every [decide] whose condition [done] proves or refutes (as
    on constant characters, which [cbn] leaves alone). *)
Ltac simpl_decide := repeat first [rewrite decide_True by done | rewrite decide_False by done].

(** Rewrite with an equation on [l !! i] or [delete i l] where the goal's
    list is the same up to conversion (a page's calls are built at the
    page's own tag type and stored at the runtime's [Tag P]). *)
Ltac rewrite_list H :=
  lazymatch type of H with
  | ?l !! ?i = ?r =>
      match goal with |- context [?l' !! i] => replace (l' !! i) with r by (symmetry; exact H) end
  | delete ?i ?l = ?r =>
      match goal with |- context [delete i ?l'] => replace (delete i l') with r by (symmetry; exact H) end
  end.

(** ** Association lists

    A JavaScript object with string keys, as the pages build and read them,
    is an ordered list of properties: [Object.entries] lists them in
    insertion order, reading takes the (unique) property of that name, and
    [{ ...o, [k]: v }] replaces a property in place or appends a new one. *)

Section Assoc.
Context {K V : Type} `{EqDecision K}.

Fixpoint assoc_get (k : K) (ps : list (K * V)) : option V :=
  match ps with
  | [] => None
  | (k', v) :: ps' => if decide (k = k') then Some v else assoc_get k ps'
  end.

Fixpoint assoc_set (k : K) (v : V) (ps : list (K * V)) : list (K * V) :=
  match ps with
  | [] => [(k, v)]
  | (k', v') :: ps' =>
      if decide (k = k') then (k, v) :: ps' else (k', v') :: assoc_set k v ps'
  end.

Lemma assoc_get_set_eq k v ps : assoc_get k (assoc_set k v ps) = Some v.
Proof. induction ps as [|[k' v'] ps IH]; simpl; case_all. Qed.

Lemma assoc_get_set_ne k k' v ps :
  k ≠ k' → assoc_get k' (assoc_set k v ps) = assoc_get k' ps.
Proof. intros Hne. induction ps as [|[k0 v0] ps IH]; simpl; case_all. Qed.

Lemma assoc_set_keys k v ps :
  k ∈ ps.*1 → (assoc_set k v ps).*1 = ps.*1.
Proof.
  induction ps as [|[k0 v0] ps IH]; simpl; intros Hin; [set_solver|].
  case_decide; simpl; [congruence|].
  f_equal. apply IH. set_solver.
Qed.

Lemma assoc_set_keys_new k v ps :
  k ∉ ps.*1 → (assoc_set k v ps).*1 = ps.*1 ++ [k].
Proof.
  induction ps as [|[k0 v0] ps IH]; simpl; intros Hin; [done|].
  case_decide; subst; simpl; [set_solver|]. f_equal. apply IH. set_solver.
Qed.

Lemma assoc_set_new k v ps : k ∉ ps.*1 → assoc_set k v ps = ps ++ [(k, v)].
Proof.
  induction ps as [|[k0 v0] ps IH]; simpl; intros Hk; [done|].
  rewrite decide_False by set_solver. f_equal. apply IH. set_solver.
Qed.

(** Writing back the value a key already has changes nothing. *)
Lemma assoc_set_get_id k v ps : assoc_get k ps = Some v → assoc_set k v ps = ps.
Proof. induction ps as [|[k0 v0] ps IH]; simpl; intros Hget; case_all; by rewrite IH. Qed.

(** [{ ...ps, ...qs }]: the properties of [qs] written over [ps] in turn. *)
Definition spread (ps qs : list (K * V)) : list (K * V) :=
  foldl (λ acc kv, assoc_set kv.1 kv.2 acc) ps qs.

Lemma assoc_get_In k v ps : assoc_get k ps = Some v → (k, v) ∈ ps.
Proof.
  induction ps as [|[k0 v0] ps IH]; simpl; intros Hget; [done|].
  case_decide; simplify_eq; [left|right; auto].
Qed.
End Assoc.

#[export] Hint Rewrite @assoc_get_set_eq : gymyo.

(** ** Lists updated by index

    The pages edit one row with [prev.map((row, i) => i === index ? g(row) :
    row)]: a map with the index, which is stdpp's [alter] (and, like
    [alter], does nothing when [index] is out of range). *)

Definition map_at {A} (index : nat) (g : A → A) (l : list A) : list A :=
  imap (λ i row, if decide (i = index) then g row else row) l.

Lemma map_at_alter {A} (index : nat) (g : A → A) (l : list A) :
  map_at index g l = alter g index l.
Proof.
  unfold map_at. revert index.
  induction l as [|x l IH]; intros [|index]; simpl; [done|done|..].
  - f_equal.
    rewrite (imap_ext _ (λ _ r, r)) by (intros; simpl; repeat case_decide; lia || done).
    rewrite (imap_const id). apply list_fmap_id.
  - f_equal. etransitivity; [|exact (IH index)].
    apply imap_ext. intros k z _. simpl. repeat case_decide; lia || done.
Qed.

Lemma lookup_snoc_length {A} (l : list A) (x : A) : (l ++ [x]) !! length l = Some x.
Proof. rewrite lookup_app_r by lia. by rewrite Nat.sub_diag. Qed.

Lemma delete_snoc {A} (l : list A) (x : A) : delete (length l) (l ++ [x]) = l.
Proof. rewrite delete_middle. apply app_nil_r. Qed.

#[export] Hint Rewrite @map_at_alter @length_alter @length_app : gymyo.

(** Two calls issued in a row, at the end of the calls in flight. *)
Lemma lookup_snoc2 {A} (l : list A) (x y : A) :
  ((l ++ [x]) ++ [y]) !! length l = Some x ∧
  ((l ++ [x]) ++ [y]) !! S (length l) = Some y ∧
  delete (S (length l)) ((l ++ [x]) ++ [y]) = l ++ [x].
Proof.
  assert (S (length l) = length (l ++ [x])) as -> by (rewrite length_app; simpl; lia).
  split_and!; [|apply lookup_snoc_length|apply delete_snoc].
  rewrite lookup_app_l by (rewrite length_app; simpl; lia). apply lookup_snoc_length.
Qed.

#[export] Hint Resolve lookup_snoc_length assoc_get_set_eq : gymyo.

(** ** Strings as lists of characters *)

Lemma list_ascii_of_string_app s1 s2 :
  String.list_ascii_of_string (s1 +:+ s2) =
  String.list_ascii_of_string s1 ++ String.list_ascii_of_string s2.
Proof. induction s1 as [|c s1 IH]; simpl; [done|by rewrite IH]. Qed.
#[export] Hint Rewrite list_ascii_of_string_app : gymyo.
