(* ===== verification/JsNum.v ===== *)
(** * JavaScript numbers

    The pages turn the text of an input into a number with [Number(raw)]
    ([MetricsPage.tsx:42], [LogSessionPage.tsx:56] and [:67-70],
    [ProfilePage.tsx:47-63]) and print numbers with template literals and
    JSX text ([LogSessionPage.tsx:38], [DashboardPage.tsx:36]).  Both are
    language operations: the ECMAScript abstract operations StringToNumber
    and Number::toString (radix 10), which this file translates.

    A number is NaN, an infinity, zero, or a finite non-zero decimal
    [0.d1...dk * 10^n] with [d1] and [dk] non-zero (the form in which
    Number::toString is specified).  The value of a literal is kept exactly:
    rounding to binary64 is not modelled, so the model agrees with
    JavaScript on decimals of at most 15 significant digits whose exponent
    lies within the normal range, the inputs of the forms.  Negative zero
    is identified with zero (it prints as ["0"] either way). *)

From S2P Require Import Prelude.
From Stdlib Require Import Ascii DecimalN.
Open Scope char_scope.

Inductive digit := d0 | d1 | d2 | d3 | d4 | d5 | d6 | d7 | d8 | d9.

#[export] Instance digit_eq_dec : EqDecision digit.
Proof. solve_decision. Defined.

Definition digit_char (d : digit) : ascii :=
  match d with
  | d0 => "0" | d1 => "1" | d2 => "2" | d3 => "3" | d4 => "4"
  | d5 => "5" | d6 => "6" | d7 => "7" | d8 => "8" | d9 => "9"
  end.

Definition char_digit (c : ascii) : option digit :=
  match c with
  | "0" => Some d0 | "1" => Some d1 | "2" => Some d2 | "3" => Some d3
  | "4" => Some d4 | "5" => Some d5 | "6" => Some d6 | "7" => Some d7
  | "8" => Some d8 | "9" => Some d9 | _ => None
  end.

(** Digit lists and [Decimal.uint] (the Standard Library's decimal
    numerals) are the same thing; the conversion lets [N] be printed and
    read with [N.to_uint] and [N.of_uint]. *)
Fixpoint digits_of_uint (u : Decimal.uint) : list digit :=
  match u with
  | Decimal.Nil => []
  | Decimal.D0 u => d0 :: digits_of_uint u | Decimal.D1 u => d1 :: digits_of_uint u
  | Decimal.D2 u => d2 :: digits_of_uint u | Decimal.D3 u => d3 :: digits_of_uint u
  | Decimal.D4 u => d4 :: digits_of_uint u | Decimal.D5 u => d5 :: digits_of_uint u
  | Decimal.D6 u => d6 :: digits_of_uint u | Decimal.D7 u => d7 :: digits_of_uint u
  | Decimal.D8 u => d8 :: digits_of_uint u | Decimal.D9 u => d9 :: digits_of_uint u
  end.

Fixpoint uint_of_digits (ds : list digit) : Decimal.uint :=
  match ds with
  | [] => Decimal.Nil
  | d :: ds =>
      let u := uint_of_digits ds in
      match d with
      | d0 => Decimal.D0 u | d1 => Decimal.D1 u | d2 => Decimal.D2 u
      | d3 => Decimal.D3 u | d4 => Decimal.D4 u | d5 => Decimal.D5 u
      | d6 => Decimal.D6 u | d7 => Decimal.D7 u | d8 => Decimal.D8 u
      | d9 => Decimal.D9 u
      end
  end.

Definition N_digits (v : N) : list digit := digits_of_uint (N.to_uint v).
Definition digits_N (ds : list digit) : N := N.of_uint (uint_of_digits ds).

(** ** Numbers *)

Inductive number :=
  | NaN
  | Infinity (neg : bool)
  | Zero
  | Finite (neg : bool) (ds : list digit) (n : Z).

#[export] Instance number_eq_dec : EqDecision number.
Proof. solve_decision. Defined.

(** The canonical form: a finite number has a digit list that neither
    starts nor ends with a zero. *)
Definition canonical (x : number) : Prop :=
  match x with
  | Finite _ ds _ => head ds ≠ Some d0 ∧ last ds ≠ Some d0 ∧ ds ≠ []
  | _ => True
  end.

Fixpoint drop_zeros (ds : list digit) : list digit :=
  match ds with
  | d0 :: ds' => drop_zeros ds'
  | _ => ds
  end.

(** Leading zeros of [0.ds * 10^n] move the point; trailing ones vanish. *)
Fixpoint drop_leading (ds : list digit) (n : Z) : list digit * Z :=
  match ds with
  | d0 :: ds' => drop_leading ds' (n - 1)
  | _ => (ds, n)
  end.

Definition mk_finite (neg : bool) (ds : list digit) (n : Z) : number :=
  let '(ds1, n1) := drop_leading ds n in
  match reverse (drop_zeros (reverse ds1)) with
  | [] => Zero
  | ds2 => Finite neg ds2 n1
  end.

Definition of_N (v : N) : number :=
  let ds := N_digits v in mk_finite false ds (Z.of_nat (length ds)).

Definition of_Z (z : Z) : number :=
  let ds := N_digits (Z.abs_N z) in mk_finite (bool_decide (z < 0)%Z) ds (Z.of_nat (length ds)).

(** ** Number::toString, radix 10 (ECMA-262, 6.1.6.1.20) *)

Definition chars (ds : list digit) : list ascii := digit_char <$> ds.

Definition Z_chars (z : Z) : list ascii := chars (N_digits (Z.abs_N z)).

Definition finite_chars (ds : list digit) (n : Z) : list ascii :=
  let k := Z.of_nat (length ds) in
  if decide (k ≤ n ≤ 21)%Z then chars ds ++ replicate (Z.to_nat (n - k)) "0"
  else if decide (0 < n ≤ 21)%Z then
    chars (take (Z.to_nat n) ds) ++ ["."] ++ chars (drop (Z.to_nat n) ds)
  else if decide (-6 < n ≤ 0)%Z then
    ["0"; "."] ++ replicate (Z.to_nat (- n)) "0" ++ chars ds
  else
    let e := (n - 1)%Z in
    let sgn := if decide (e < 0)%Z then "-" else "+" in
    match ds with
    | [d] => [digit_char d; "e"; sgn] ++ Z_chars e
    | d :: rest => [digit_char d; "."] ++ chars rest ++ ["e"; sgn] ++ Z_chars e
    | [] => []
    end.

Definition to_chars (x : number) : list ascii :=
  match x with
  | NaN => String.list_ascii_of_string "NaN"%string
  | Infinity false => String.list_ascii_of_string "Infinity"%string
  | Infinity true => String.list_ascii_of_string "-Infinity"%string
  | Zero => ["0"]
  | Finite neg ds n => (if neg then ["-"] else []) ++ finite_chars ds n
  end.

Definition to_string (x : number) : string := String.string_of_list_ascii (to_chars x).

(** ** StringToNumber (ECMA-262, 7.1.4.1.1)

    The text is trimmed of StrWhiteSpaceChar (the ASCII white space and
    line terminators and the Unicode ones, as their UTF-8 byte sequences);
    the empty text is [+0]; a non-decimal literal ([0x], [0o], [0b]) is
    read in its base; otherwise an optional sign is followed by
    [Infinity] or a decimal literal with optional fraction and exponent.
    Anything else is NaN. *)

Definition ws_seqs : list (list nat) :=
  [[9]; [10]; [11]; [12]; [13]; [32]; [194; 160]; [239; 187; 191];
   [225; 154; 128]; [226; 128; 168]; [226; 128; 169]; [226; 128; 175];
   [226; 129; 159]; [227; 128; 128]]
  ++ ((λ b, [226; 128; b]) <$> seq 128 11).

Fixpoint is_prefix (p l : list nat) : bool :=
  match p, l with
  | [], _ => true
  | b :: p', c :: l' => (b =? c)%nat && is_prefix p' l'
  | _ :: _, [] => false
  end.

(** Strip leading occurrences of the byte sequences [seqs]; [fuel] bounds
    the number removed, and [length l] is enough since each is non-empty. *)
Fixpoint strip_seqs (seqs : list (list nat)) (fuel : nat) (l : list ascii) : list ascii :=
  match fuel with
  | O => l
  | S f =>
      match List.find (λ w, is_prefix w (nat_of_ascii <$> l)) seqs with
      | Some w => strip_seqs seqs f (drop (length w) l)
      | None => l
      end
  end.

Definition trim_start (l : list ascii) : list ascii := strip_seqs ws_seqs (length l) l.

(** The end is trimmed by stripping the reversed sequences from the
    reversed text. *)
Definition trim_end (l : list ascii) : list ascii :=
  reverse (strip_seqs (reverse <$> ws_seqs) (length l) (reverse l)).

Definition trim (l : list ascii) : list ascii := trim_end (trim_start l).

Fixpoint span_digits (l : list ascii) : list digit * list ascii :=
  match l with
  | c :: l' =>
      match char_digit c with
      | Some d => let '(ds, r) := span_digits l' in (d :: ds, r)
      | None => ([], l)
      end
  | [] => ([], [])
  end.

Definition digits_Z (ds : list digit) : Z := Z.of_N (digits_N ds).

Definition parse_exponent (l : list ascii) : option Z :=
  match l with
  | [] => Some 0%Z
  | c :: r =>
      if decide (c = "e" ∨ c = "E") then
        let '(neg, r') :=
          match r with
          | "+" :: r' => (false, r')
          | "-" :: r' => (true, r')
          | _ => (false, r)
          end in
        match span_digits r' with
        | (d :: ds, []) => Some (if neg then - digits_Z (d :: ds) else digits_Z (d :: ds))%Z
        | _ => None
        end
      else None
  end.

(** [ip.fp e exp] is [0.(ip ++ fp) * 10^(|ip| + exp)]. *)
Definition parse_unsigned_decimal (l : list ascii) : option (list digit * Z) :=
  let '(ip, r1) := span_digits l in
  let '(fp, r2) := match r1 with
                   | "." :: r => span_digits r
                   | _ => ([], r1)
                   end in
  if decide (ip = [] ∧ fp = []) then None
  else (λ e, (ip ++ fp, Z.of_nat (length ip) + e)%Z) <$> parse_exponent r2.

Definition hex_val (c : ascii) : option N :=
  let b := nat_of_ascii c in
  if decide (48 ≤ b ≤ 57)%nat then Some (N.of_nat (b - 48))
  else if decide (97 ≤ b ≤ 102)%nat then Some (N.of_nat (b - 87))
  else if decide (65 ≤ b ≤ 70)%nat then Some (N.of_nat (b - 55))
  else None.

Fixpoint digits_in_base (base acc : N) (l : list ascii) : option N :=
  match l with
  | [] => Some acc
  | c :: l' =>
      match hex_val c with
      | Some v => if decide (v < base)%N then digits_in_base base (acc * base + v)%N l' else None
      | None => None
      end
  end.

Definition parse_nondecimal (l : list ascii) : option N :=
  match l with
  | "0" :: p :: (_ :: _) as r =>
      if decide (p = "x" ∨ p = "X") then digits_in_base 16 0 r
      else if decide (p = "o" ∨ p = "O") then digits_in_base 8 0 r
      else if decide (p = "b" ∨ p = "B") then digits_in_base 2 0 r
      else None
  | _ => None
  end.

(** The optional sign of a decimal literal. *)
Definition split_sign (l : list ascii) : bool * list ascii :=
  match l with
  | "+" :: r => (false, r)
  | "-" :: r => (true, r)
  | _ => (false, l)
  end.

Definition string_to_number_chars (raw : list ascii) : number :=
  match trim raw with
  | [] => Zero
  | l =>
      match parse_nondecimal l with
      | Some v => of_N v
      | None =>
          let '(neg, r) := split_sign l in
          if decide (r = String.list_ascii_of_string "Infinity"%string) then Infinity neg
          else match parse_unsigned_decimal r with
               | Some (ds, n) => mk_finite neg ds n
               | None => NaN
               end
      end
  end.

(** [Number(raw)] on a string. *)
Definition Number (raw : string) : number :=
  string_to_number_chars (String.list_ascii_of_string raw).

(** ** Lemmas: normalisation *)

Lemma drop_leading_zeros k l m :
  drop_leading (replicate k d0 ++ l) m = drop_leading l (m - Z.of_nat k)%Z.
Proof.
  revert m. induction k as [|k IH]; intros m; simpl; [by rewrite Z.sub_0_r|].
  rewrite IH. f_equal. lia.
Qed.

Lemma drop_leading_nonzero l m : head l ≠ Some d0 → drop_leading l m = (l, m).
Proof. destruct l as [|[] l]; simpl; congruence. Qed.

Lemma drop_zeros_replicate k l : drop_zeros (replicate k d0 ++ l) = drop_zeros l.
Proof. by induction k. Qed.

Lemma drop_zeros_nonzero l : head l ≠ Some d0 → drop_zeros l = l.
Proof. destruct l as [|[] l]; simpl; congruence. Qed.

(** A canonical digit list padded with zeros on both sides, its point
    moved accordingly, normalises back to itself. *)
Lemma mk_finite_padded neg k ds j n :
  canonical (Finite neg ds n) →
  mk_finite neg (replicate k d0 ++ ds ++ replicate j d0) (n + Z.of_nat k) = Finite neg ds n.
Proof.
  intros (Hh & Hl & Hne). unfold mk_finite.
  rewrite drop_leading_zeros, drop_leading_nonzero.
  2: { destruct ds; [done|]. simpl in *. done. }
  rewrite reverse_app, reverse_replicate, drop_zeros_replicate, drop_zeros_nonzero
    by (by rewrite head_reverse).
  rewrite reverse_involutive. replace (n + Z.of_nat k - Z.of_nat k)%Z with n by lia.
  by destruct ds.
Qed.

(** ** Lemmas: digits *)

Lemma char_digit_char d : char_digit (digit_char d) = Some d.
Proof. by destruct d. Qed.

Lemma chars_app ds ds' : chars (ds ++ ds') = chars ds ++ chars ds'.
Proof. apply fmap_app. Qed.

Lemma chars_replicate k : chars (replicate k d0) = replicate k "0".
Proof. unfold chars. by rewrite fmap_replicate. Qed.

Lemma span_digits_chars ds r :
  span_digits (chars ds ++ r) = (ds ++ (span_digits r).1, (span_digits r).2).
Proof.
  induction ds as [|d ds IH]; simpl; [by destruct (span_digits r)|].
  rewrite char_digit_char. change (digit_char <$> ds) with (chars ds). by rewrite IH.
Qed.

Lemma span_digits_stop c r : char_digit c = None → span_digits (c :: r) = ([], c :: r).
Proof. simpl. by intros ->. Qed.

Lemma span_digits_chars_end ds : span_digits (chars ds) = (ds, []).
Proof. pose proof (span_digits_chars ds []) as H. rewrite !app_nil_r in H. by rewrite H. Qed.

Lemma span_digits_chars_stop ds c r :
  char_digit c = None → span_digits (chars ds ++ c :: r) = (ds, c :: r).
Proof. intros Hc. rewrite span_digits_chars, span_digits_stop by done. simpl. by rewrite app_nil_r. Qed.

Lemma N_digits_nonempty v : N_digits v ≠ [].
Proof.
  unfold N_digits. destruct v as [|p]; [done|]. simpl.
  destruct (Pos.to_uint p) eqn:E; simpl; try done.
  exfalso. pose proof (DecimalPos.Unsigned.to_uint_nonnil p). congruence.
Qed.

Lemma digits_N_of v : digits_N (N_digits v) = v.
Proof.
  unfold digits_N, N_digits.
  assert (∀ u, uint_of_digits (digits_of_uint u) = u) as ->.
  { induction u; simpl; by rewrite ?IHu. }
  apply DecimalN.Unsigned.of_to.
Qed.

(** ** Lemmas: reading back a printed number *)

Definition sign_chars (neg : bool) : list ascii := if neg then ["-"] else [].

Lemma trim_start_digit d r : trim_start (digit_char d :: r) = digit_char d :: r.
Proof. by destruct d. Qed.

Lemma trim_start_minus r : trim_start ("-" :: r) = "-" :: r.
Proof. reflexivity. Qed.

Lemma trim_end_digit l d : trim_end (l ++ [digit_char d]) = l ++ [digit_char d].
Proof.
  unfold trim_end. rewrite reverse_snoc.
  replace (length (l ++ [digit_char d])) with (S (length l)) by (rewrite length_app; simpl; lia).
  assert (strip_seqs (reverse <$> ws_seqs) (S (length l)) (digit_char d :: reverse l)
          = digit_char d :: reverse l) as -> by (destruct d; reflexivity).
  by rewrite reverse_cons, reverse_involutive.
Qed.

Lemma trim_end_chars l ds : ds ≠ [] → trim_end (l ++ chars ds) = l ++ chars ds.
Proof.
  intros Hds. destruct ds as [|d ds _] using rev_ind; [done|].
  rewrite chars_app, app_assoc. apply trim_end_digit.
Qed.

(** A printed number: an optional minus sign, digits [ip] (not starting
    with 0 unless it is the 0 of [0.xxx]), an optional fraction [fp], and
    the text [etxt] of the exponent, ending with a digit. *)
Definition decimal_text (neg : bool) (ip fp : list digit) (etxt : list ascii) : list ascii :=
  sign_chars neg ++ chars ip ++ match fp with [] => [] | _ => "." :: chars fp end ++ etxt.

Lemma trim_decimal_text neg d ip fp etxt :
  (∃ l ds, ds ≠ [] ∧ decimal_text neg (d :: ip) fp etxt = l ++ chars ds) →
  trim (decimal_text neg (d :: ip) fp etxt) = decimal_text neg (d :: ip) fp etxt.
Proof.
  intros (l & ds & Hds & He). unfold trim.
  assert (trim_start (decimal_text neg (d :: ip) fp etxt) = decimal_text neg (d :: ip) fp etxt) as ->
    by (destruct neg; [apply trim_start_minus|apply trim_start_digit]).
  rewrite He. by apply trim_end_chars.
Qed.

(** What follows the digits of a number: nothing, or a character that is
    not a digit. *)
Definition digits_end (X : list ascii) : Prop :=
  match X with [] => True | c :: _ => char_digit c = None end.

Lemma span_digits_prefix ds X : digits_end X → span_digits (chars ds ++ X) = (ds, X).
Proof.
  intros HX. rewrite span_digits_chars. destruct X as [|c X]; simpl in *; [by rewrite app_nil_r|].
  rewrite HX. simpl. by rewrite app_nil_r.
Qed.

Lemma string_to_number_chars_eq raw l :
  trim raw = l → l ≠ [] → parse_nondecimal l = None →
  string_to_number_chars raw =
    let '(neg, r) := split_sign l in
    if decide (r = String.list_ascii_of_string "Infinity"%string) then Infinity neg
    else match parse_unsigned_decimal r with
         | Some (ds, n) => mk_finite neg ds n
         | None => NaN
         end.
Proof. intros Ht Hl Hp. unfold string_to_number_chars. rewrite Ht. destruct l; [done|]. by rewrite Hp. Qed.

(** The exponent texts a printed number may end with. *)
Definition exponent_text (etxt : list ascii) : Prop :=
  match etxt with [] => True | c :: _ => c = "e" end.

Lemma string_to_number_decimal neg d ip fp etxt e :
  (d = d0 → ip = [] ∧ fp ≠ []) →
  exponent_text etxt →
  parse_exponent etxt = Some e →
  (∃ l ds, ds ≠ [] ∧ decimal_text neg (d :: ip) fp etxt = l ++ chars ds) →
  string_to_number_chars (decimal_text neg (d :: ip) fp etxt)
  = mk_finite neg ((d :: ip) ++ fp) (Z.of_nat (length (d :: ip)) + e).
Proof.
  intros Hd0 He Hexp Hend.
  assert (Hetxt : digits_end etxt) by (destruct etxt; simpl in *; subst; done).
  rewrite (string_to_number_chars_eq _ (decimal_text neg (d :: ip) fp etxt)).
  4: { destruct neg; [reflexivity|]. destruct (decide (d = d0)) as [->|Hne].
       - destruct (Hd0 eq_refl) as [-> Hfp]. destruct fp as [|f fp]; [done|]. reflexivity.
       - destruct d; try done; reflexivity. }
  3: { destruct neg; [done|]. done. }
  2: { by apply trim_decimal_text. }
  assert (split_sign (decimal_text neg (d :: ip) fp etxt) = (neg, decimal_text false (d :: ip) fp etxt))
    as -> by (destruct neg; [reflexivity|by destruct d]).
  rewrite decide_False by (intros H; destruct d; discriminate H).
  unfold parse_unsigned_decimal, decimal_text, sign_chars. rewrite app_nil_l.
  rewrite span_digits_prefix.
  2: { destruct fp; [done|]. reflexivity. }
  destruct fp as [|f fp'].
  - destruct etxt as [|c r]; simpl in He; [|subst c].
    + simpl in Hexp. injection Hexp as <-. simpl. by rewrite app_nil_r.
    + cbn -[parse_exponent]. rewrite Hexp. simpl. by rewrite app_nil_r.
  - cbn -[chars span_digits parse_exponent]. rewrite span_digits_prefix by done.
    rewrite decide_False by naive_solver. by rewrite Hexp.
Qed.

Lemma parse_exponent_Z_chars e :
  parse_exponent ("e" :: (if decide (e < 0)%Z then "-" else "+") :: Z_chars e) = Some e.
Proof.
  unfold Z_chars. pose proof (N_digits_nonempty (Z.abs_N e)) as Hne.
  assert (digits_Z (N_digits (Z.abs_N e)) = Z.abs e) as Hv
    by (unfold digits_Z; rewrite digits_N_of; apply N2Z.inj_abs_N).
  destruct (N_digits (Z.abs_N e)) as [|x xs] eqn:E; [done|].
  case_decide; cbn -[span_digits chars digits_Z]; rewrite span_digits_chars_end;
    rewrite decide_True by (by left); f_equal; lia.
Qed.

Lemma frac_text (fp : list digit) :
  fp ≠ [] → match fp with [] => [] | _ => "." :: chars fp end = "." :: chars fp.
Proof. by destruct fp. Qed.

(** The exponent part of a printed number, if it has one. *)
Definition exp_text (oe : option Z) : list ascii :=
  match oe with
  | None => []
  | Some e => "e" :: (if decide (e < 0)%Z then "-" else "+") :: Z_chars e
  end.

Lemma exp_text_exponent oe : exponent_text (exp_text oe).
Proof. by destruct oe. Qed.

Lemma parse_exp_text oe : parse_exponent (exp_text oe) = Some (default 0%Z oe).
Proof. destruct oe as [e|]; [apply parse_exponent_Z_chars|done]. Qed.

(** Number::toString prints a canonical finite number as a decimal text
    whose digits, point and exponent normalise back to the number. *)
Lemma to_chars_decimal neg ds n :
  canonical (Finite neg ds n) →
  ∃ d ip fp oe,
    to_chars (Finite neg ds n) = decimal_text neg (d :: ip) fp (exp_text oe) ∧
    (d = d0 → ip = [] ∧ fp ≠ []) ∧
    mk_finite neg ((d :: ip) ++ fp) (Z.of_nat (length (d :: ip)) + default 0%Z oe) = Finite neg ds n ∧
    (∃ l ds', ds' ≠ [] ∧ decimal_text neg (d :: ip) fp (exp_text oe) = l ++ chars ds').
Proof.
  intros Hc. pose proof Hc as (Hh & Hl & Hne). destruct ds as [|d rest]; [done|].
  assert (Hd : d ≠ d0) by (intros ->; done).
  assert (to_chars (Finite neg (d :: rest) n) = sign_chars neg ++ finite_chars (d :: rest) n) as ->
    by (by destruct neg).
  unfold finite_chars. set (k := Z.of_nat (length (d :: rest))).
  case_decide as HA; [|case_decide as HB; [|case_decide as HC]].
  - (* digits and trailing zeros *)
    set (j := Z.to_nat (n - k)).
    exists d, (rest ++ replicate j d0), [], None. split_and!; [| done | |].
    + unfold decimal_text. simpl. by rewrite app_nil_r, <- chars_replicate, <- chars_app.
    + simpl default. rewrite app_nil_r.
      replace (Z.of_nat (length (d :: rest ++ replicate j d0)) + 0)%Z with (n + Z.of_nat 0)%Z
        by (unfold j, k in *; simpl in *; rewrite length_app, length_replicate; lia).
      exact (mk_finite_padded neg 0 (d :: rest) j n Hc).
    + exists (sign_chars neg), (d :: rest ++ replicate j d0). unfold decimal_text.
      by rewrite !app_nil_r.
  - (* a point inside the digits *)
    destruct (Z.to_nat n) as [|m] eqn:En; [lia|].
    assert (Hm : (m < length rest)%nat) by (unfold k in *; simpl in *; lia).
    assert (Hdrop : drop m rest ≠ []).
    { intros E. apply (f_equal length) in E. rewrite length_drop in E. simpl in E. lia. }
    exists d, (take m rest), (drop m rest), None. split_and!; [| done | |].
    + unfold decimal_text. simpl. by rewrite frac_text, app_nil_r.
    + simpl default. replace (Z.of_nat (length (d :: take m rest)) + 0)%Z with (n + Z.of_nat 0)%Z
        by (simpl; rewrite length_take; lia).
      rewrite <- (mk_finite_padded neg 0 (d :: rest) 0 n Hc). simpl.
      by rewrite app_nil_r, take_drop.
    + exists (sign_chars neg ++ chars (d :: take m rest) ++ ["."]), (drop m rest).
      split; [done|]. unfold decimal_text. rewrite frac_text by done.
      by rewrite !app_nil_r, <- !app_assoc.
  - (* 0.000ddd *)
    set (m := Z.to_nat (- n)).
    assert (Hfp : replicate m d0 ++ d :: rest ≠ []) by (by destruct m).
    exists d0, [], (replicate m d0 ++ d :: rest), None. split_and!; [| done | |].
    + unfold decimal_text. rewrite frac_text, app_nil_r, chars_app, chars_replicate by done.
      reflexivity.
    + simpl default. replace (Z.of_nat (length [d0]) + 0)%Z with (n + Z.of_nat (S m))%Z
        by (unfold m; simpl; lia).
      rewrite <- (mk_finite_padded neg (S m) (d :: rest) 0 n Hc). by rewrite app_nil_r.
    + exists (sign_chars neg ++ ["0"; "."]), (replicate m d0 ++ d :: rest).
      split; [done|]. unfold decimal_text. rewrite frac_text, app_nil_r by done.
      by rewrite <- app_assoc.
  - (* exponent form *)
    set (e := (n - 1)%Z).
    exists d, [], rest, (Some e). split_and!; [| done | |].
    + unfold decimal_text. by destruct rest.
    + simpl default. replace (Z.of_nat (length [d]) + e)%Z with (n + Z.of_nat 0)%Z
        by (unfold e; simpl; lia).
      rewrite <- (mk_finite_padded neg 0 (d :: rest) 0 n Hc). simpl. by rewrite app_nil_r.
    + exists (decimal_text neg [d] rest ["e"; if decide (e < 0)%Z then "-" else "+"]),
        (N_digits (Z.abs_N e)).
      split; [apply N_digits_nonempty|]. unfold decimal_text, exp_text, Z_chars.
      by rewrite <- !app_assoc.
Qed.

(** [Number(String(x))] is [x]: StringToNumber reads back what
    Number::toString prints, for every number in canonical form. *)
Lemma string_to_number_to_chars x : canonical x → string_to_number_chars (to_chars x) = x.
Proof.
  destruct x as [|[]| |neg ds n]; try reflexivity. intros Hc.
  destruct (to_chars_decimal neg ds n Hc) as (d & ip & fp & oe & Ht & Hd & Hmk & Hend).
  rewrite Ht, string_to_number_decimal with (e := default 0%Z oe); try done.
  - apply exp_text_exponent.
  - apply parse_exp_text.
Qed.

(** ** Lemmas: canonical forms *)

Lemma drop_leading_head ds n : head (drop_leading ds n).1 ≠ Some d0.
Proof. revert n. induction ds as [|[] ds IH]; intros n; simpl; try done. Qed.

Lemma drop_zeros_head l : head (drop_zeros l) ≠ Some d0.
Proof. induction l as [|[] l IH]; simpl; done. Qed.

Lemma drop_zeros_last l : drop_zeros l ≠ [] → last (drop_zeros l) = last l.
Proof.
  induction l as [|[] l IH]; simpl; intros Hne; try done.
  rewrite IH by done. destruct l; [done|]. by rewrite last_cons_cons.
Qed.

Lemma mk_finite_canonical neg ds n : canonical (mk_finite neg ds n).
Proof.
  unfold mk_finite. pose proof (drop_leading_head ds n) as Hh.
  destruct (drop_leading ds n) as [ds1 n1]. simpl in Hh.
  destruct (reverse (drop_zeros (reverse ds1))) as [|x xs] eqn:R; [done|].
  assert (drop_zeros (reverse ds1) ≠ []) as Hne by (intros E; rewrite E in R; done).
  split_and!; [| |done]; rewrite <- R.
  - by rewrite head_reverse, drop_zeros_last, last_reverse.
  - rewrite last_reverse. apply drop_zeros_head.
Qed.

Lemma of_Z_canonical z : canonical (of_Z z).
Proof. apply mk_finite_canonical. Qed.

(** Every number [Number(raw)] returns is in canonical form. *)
Lemma Number_canonical raw : canonical (Number raw).
Proof.
  unfold Number, string_to_number_chars.
  destruct (trim _) as [|c l]; [done|].
  destruct (parse_nondecimal _); [apply mk_finite_canonical|].
  destruct (split_sign _) as [neg r]. case_decide; [done|].
  destruct (parse_unsigned_decimal r) as [[ds n]|]; [apply mk_finite_canonical|done].
Qed.

(** [Number(String(x))] is [x] for a number in canonical form. *)
Lemma Number_to_string x : canonical x → Number (to_string x) = x.
Proof.
  unfold Number, to_string. rewrite String.list_ascii_of_string_of_list_ascii.
  apply string_to_number_to_chars.
Qed.
