(* ===== verification/JsValue.v ===== *)
(** * JavaScript values

    The values the client and the pages handle: what [JSON.parse] returns
    and what the pages build as records.  An object is its list of own
    properties in insertion order (the order [Object.entries] and
    [JSON.stringify] follow); the keys of this program are never
    array-index strings, for which JavaScript would order differently.

    Reading a property ([get_prop]) throws a TypeError on [null] and
    [undefined] and yields [undefined] for a missing key; [??] is
    [nullish]; [String(v)], which template literals apply, is [to_str];
    the text React renders for a JSX child is [react_text], which fails
    (React throws) on a plain object.  Exceptions are [exn]: the
    TypeError and SyntaxError of the language and the [ApiError] class of
    [api/client.ts]. *)

From S2P Require Import Prelude JsNum.

Inductive value :=
  | VUndefined
  | VNull
  | VBool (b : bool)
  | VNum (x : number)
  | VStr (s : string)
  | VArr (xs : list value)
  | VObj (ps : list (string * value)).

(** Induction on values, with the hypothesis on every element of an array
    and every property of an object. *)
Section value_ind.
Variable P : value → Prop.
Hypothesis HUndefined : P VUndefined.
Hypothesis HNull : P VNull.
Hypothesis HBool : ∀ b, P (VBool b).
Hypothesis HNum : ∀ x, P (VNum x).
Hypothesis HStr : ∀ s, P (VStr s).
Hypothesis HArr : ∀ xs, Forall P xs → P (VArr xs).
Hypothesis HObj : ∀ ps, Forall (λ kv, P kv.2) ps → P (VObj ps).

Fixpoint value_ind' (v : value) : P v :=
  match v with
  | VUndefined => HUndefined
  | VNull => HNull
  | VBool b => HBool b
  | VNum x => HNum x
  | VStr s => HStr s
  | VArr xs =>
      HArr xs ((fix go (xs : list value) : Forall P xs :=
                  match xs with
                  | [] => Forall_nil_2 _
                  | x :: xs' => Forall_cons_2 _ _ _ (value_ind' x) (go xs')
                  end) xs)
  | VObj ps =>
      HObj ps ((fix go (ps : list (string * value)) : Forall (λ kv, P kv.2) ps :=
                  match ps with
                  | [] => Forall_nil_2 _
                  | kv :: ps' => Forall_cons_2 _ _ _ (value_ind' kv.2) (go ps')
                  end) ps)
  end.
End value_ind.

(** Equality of values is decidable: a boolean test by structural
    recursion, and its reflection by [value_ind']. *)
Fixpoint value_eqb (v w : value) : bool :=
  match v, w with
  | VUndefined, VUndefined | VNull, VNull => true
  | VBool a, VBool b => bool_decide (a = b)
  | VNum x, VNum y => bool_decide (x = y)
  | VStr s, VStr t => bool_decide (s = t)
  | VArr xs, VArr ys =>
      (fix go (xs ys : list value) : bool :=
         match xs, ys with
         | [], [] => true
         | x :: xs', y :: ys' => value_eqb x y && go xs' ys'
         | _, _ => false
         end) xs ys
  | VObj ps, VObj qs =>
      (fix go (ps qs : list (string * value)) : bool :=
         match ps, qs with
         | [], [] => true
         | (k, x) :: ps', (l, y) :: qs' => bool_decide (k = l) && value_eqb x y && go ps' qs'
         | _, _ => false
         end) ps qs
  | _, _ => false
  end.

Lemma value_eqb_eq v w : value_eqb v w = true ↔ v = w.
Proof.
  revert w. induction v as [| | | | |xs IH|ps IH] using value_ind';
    intros [| |b'|y|t|ys|qs]; simpl; rewrite ?bool_decide_eq_true;
    try (split; [discriminate|congruence]); try (split; congruence).
  - revert ys. induction IH as [|x xs Hx Hxs IHxs]; intros [|y ys];
      simpl; try (split; [discriminate|congruence]); [done|].
    rewrite andb_true_iff, Hx, IHxs. naive_solver.
  - revert qs. induction IH as [|[k x] ps Hx Hps IHps];
      intros [|[l y] qs]; simpl; try (split; [discriminate|congruence]); [done|].
    rewrite !andb_true_iff, bool_decide_eq_true, Hx, IHps. naive_solver.
Qed.

#[export] Instance value_eq_dec : EqDecision value.
Proof.
  intros v w. destruct (value_eqb v w) eqn:E; [left; by apply value_eqb_eq|right].
  intros <-. assert (value_eqb v v = true) by by apply value_eqb_eq. congruence.
Defined.

(** ** Exceptions and computations that may throw *)

Inductive exn :=
  | ETypeError
  | ESyntaxError
  (** [new ApiError(status, message)] of [api/client.ts] *)
  | EApiError (status : number) (message : string).

#[export] Instance exn_eq_dec : EqDecision exn.
Proof. solve_decision. Defined.

Inductive js (A : Type) :=
  | Ok (a : A)
  | Throw (e : exn).
Arguments Ok {A} a.
Arguments Throw {A} e.

#[export] Instance js_ret : MRet js := λ A a, Ok a.
#[export] Instance js_bind : MBind js :=
  λ A B f m, match m with Ok a => f a | Throw e => Throw e end.

(** A computation on every element, the first exception stopping it. *)
Fixpoint js_mapM {A B} (f : A → js B) (xs : list A) : js (list B) :=
  match xs with
  | [] => Ok []
  | x :: xs' => y ← f x; ys ← js_mapM f xs'; Ok (y :: ys)
  end.

(** [arr.map(f)]: a TypeError when [arr] is not an array. *)
Definition js_map {A} (f : value → js A) (v : value) : js (list A) :=
  match v with
  | VArr xs => js_mapM f xs
  | _ => Throw ETypeError
  end.

(** [err instanceof ApiError ? err.message : fallback], the catch clause
    of every page. *)
Definition api_error_message (e : exn) (fallback : string) : string :=
  match e with
  | EApiError _ msg => msg
  | _ => fallback
  end.

(** ** Property access *)

Fixpoint index_prop {A} (i : nat) (k : string) (xs : list A) : option A :=
  match xs with
  | [] => None
  | x :: xs' =>
      if decide (k = to_string (of_N (N.of_nat i))) then Some x
      else index_prop (S i) k xs'
  end.

Definition length_value (n : nat) : value := VNum (of_N (N.of_nat n)).

(** [v[k]] for an own property [k]; primitives and objects have no own
    property besides those listed (the prototype's methods are never read
    by this program). *)
Definition get_prop (v : value) (k : string) : js value :=
  match v with
  | VUndefined | VNull => Throw ETypeError
  | VObj ps => Ok (default VUndefined (assoc_get k ps))
  | VArr xs =>
      if decide (k = "length"%string) then Ok (length_value (length xs))
      else Ok (default VUndefined (index_prop 0 k xs))
  | VStr s =>
      if decide (k = "length"%string) then Ok (length_value (String.length s))
      else Ok (default VUndefined
                 ((λ c, VStr (String.String c EmptyString)) <$>
                    index_prop 0 k (String.list_ascii_of_string s)))
  | VBool _ | VNum _ => Ok VUndefined
  end.

(** [a ?? b] *)
Definition nullish (a b : value) : value :=
  match a with
  | VUndefined | VNull => b
  | _ => a
  end.

(** Truthiness, as [if (error)] and [if (!data)] test it. *)
Definition truthy (v : value) : bool :=
  match v with
  | VUndefined | VNull => false
  | VBool b => b
  | VNum x => bool_decide (x ≠ Zero ∧ x ≠ NaN)
  | VStr s => bool_decide (s ≠ EmptyString)
  | VArr _ | VObj _ => true
  end.

(** ** [String(v)], as a template literal applies it (ToString) *)

Fixpoint to_str (v : value) : string :=
  match v with
  | VUndefined => "undefined"
  | VNull => "null"
  | VBool true => "true"
  | VBool false => "false"
  | VNum x => to_string x
  | VStr s => s
  | VArr xs =>
      (* Array.prototype.join(","), with null and undefined as "" *)
      String.concat ","
        ((λ x, match x with VUndefined | VNull => ""%string | _ => to_str x end) <$> xs)
  | VObj _ => "[object Object]"
  end%string.

(** The text React renders for a JSX child: strings and numbers as text,
    [null], [undefined] and booleans as nothing, arrays child by child;
    a plain object makes React throw. *)
Fixpoint react_text (v : value) : option string :=
  match v with
  | VUndefined | VNull | VBool _ => Some ""%string
  | VNum x => Some (to_string x)
  | VStr s => Some s
  | VArr xs =>
      foldr (λ x acc, s1 ← react_text x; s2 ← acc; Some (s1 +:+ s2)) (Some ""%string) xs
  | VObj _ => None
  end.

(** ** Lemmas *)

(** Reading a property throws exactly on [null] and [undefined]. *)
Lemma get_prop_ok v k :
  v ≠ VUndefined → v ≠ VNull → ∃ x, get_prop v k = Ok x.
Proof. intros Hu Hn. destruct v; simpl; try done; repeat case_decide; eauto. Qed.

Lemma js_mapM_fmap_ok {A B C} (f : B → js C) (g : A → B) (h : A → C) xs :
  (∀ x, f (g x) = Ok (h x)) → js_mapM f (g <$> xs) = Ok (h <$> xs).
Proof.
  intros H. induction xs as [|x xs IH]; [done|].
  rewrite !fmap_cons. cbn [js_mapM]. by rewrite H, IH.
Qed.

Lemma get_prop_nullish v k :
  v = VUndefined ∨ v = VNull → get_prop v k = Throw ETypeError.
Proof. by intros [-> | ->]. Qed.
