(* ===== verification/Json.v ===== *)
(** * JSON.stringify and JSON.parse

    [request] parses every response body with [response.json()]
    ([client.ts:29], [:37]) and the write operations send
    [JSON.stringify(payload)] ([client.ts:42-44]).  This file translates
    the two library functions on the values of [JsValue]: strings are
    UTF-8 byte strings, so a [\uXXXX] escape is read as the UTF-8 bytes of
    its code point.

    [stringify] follows SerializeJSONProperty: [undefined] is dropped from
    objects, written [null] in arrays, and makes the whole result
    [undefined] at top level; non-finite numbers are written [null].
    [parse] is a recursive-descent parser of ECMA-404 with a fuel bound;
    a repeated key keeps its first position and takes its last value, as
    [JSON.parse] creates properties in order. *)

From S2P Require Import Prelude JsNum JsValue.
From Stdlib Require Import Ascii.
Open Scope char_scope.

(** The double quote character. *)
Definition dquote : ascii := ascii_of_nat 34.

(** ** Printing *)

Definition hex_digit (n : nat) : ascii :=
  if decide (n < 10)%nat then ascii_of_nat (48 + n) else ascii_of_nat (87 + n).

(** QuoteJSONString, one byte at a time. *)
Definition quote_char (c : ascii) : list ascii :=
  let b := nat_of_ascii c in
  if decide (b = 8)%nat then ["\"; "b"]
  else if decide (b = 9)%nat then ["\"; "t"]
  else if decide (b = 10)%nat then ["\"; "n"]
  else if decide (b = 12)%nat then ["\"; "f"]
  else if decide (b = 13)%nat then ["\"; "r"]
  else if decide (b = 34)%nat then ["\"; dquote]
  else if decide (b = 92)%nat then ["\"; "\"]
  else if decide (b < 32)%nat then
    ["\"; "u"; "0"; "0"; hex_digit (b / 16); hex_digit (b mod 16)]
  else [c].

Definition quote (s : string) : list ascii :=
  [dquote] ++ mjoin (quote_char <$> String.list_ascii_of_string s) ++ [dquote].

Definition number_json (x : number) : list ascii :=
  match x with
  | NaN | Infinity _ => String.list_ascii_of_string "null"%string
  | _ => to_chars x
  end.

Fixpoint join_commas (items : list (list ascii)) : list ascii :=
  match items with
  | [] => []
  | [x] => x
  | x :: rest => x ++ [","] ++ join_commas rest
  end.

Fixpoint stringify_chars (v : value) : option (list ascii) :=
  match v with
  | VUndefined => None
  | VNull => Some (String.list_ascii_of_string "null"%string)
  | VBool true => Some (String.list_ascii_of_string "true"%string)
  | VBool false => Some (String.list_ascii_of_string "false"%string)
  | VNum x => Some (number_json x)
  | VStr s => Some (quote s)
  | VArr xs =>
      Some (["["] ++ join_commas
              ((λ x, default (String.list_ascii_of_string "null"%string) (stringify_chars x)) <$> xs)
            ++ ["]"])
  | VObj ps =>
      Some (["{"] ++ join_commas
              (omap (λ kv, (λ t, quote kv.1 ++ [":"] ++ t) <$> stringify_chars kv.2) ps)
            ++ ["}"])
  end.

(** [JSON.stringify(v)]; [None] is the [undefined] it returns. *)
Definition stringify (v : value) : option string :=
  String.string_of_list_ascii <$> stringify_chars v.

(** ** Parsing *)

Definition is_json_ws (c : ascii) : bool :=
  bool_decide (c = " " ∨ c = "009" ∨ c = "010" ∨ c = "013").

Fixpoint skip_ws (l : list ascii) : list ascii :=
  match l with
  | c :: r => if is_json_ws c then skip_ws r else l
  | [] => []
  end.

Definition hex4 (l : list ascii) : option (N * list ascii) :=
  match l with
  | a :: b :: c :: d :: r =>
      v ← digits_in_base 16 0 [a; b; c; d]; Some (v, r)
  | _ => None
  end.

(** The UTF-8 bytes of a code point (a lone surrogate gets the three bytes
    of its value). *)
Definition utf8 (cp : N) : list ascii :=
  let byte n := ascii_of_N n in
  if decide (cp < 128)%N then [byte cp]
  else if decide (cp < 2048)%N then
    [byte (192 + cp / 64)%N; byte (128 + cp mod 64)%N]
  else if decide (cp < 65536)%N then
    [byte (224 + cp / 4096)%N; byte (128 + (cp / 64) mod 64)%N; byte (128 + cp mod 64)%N]
  else
    [byte (240 + cp / 262144)%N; byte (128 + (cp / 4096) mod 64)%N;
     byte (128 + (cp / 64) mod 64)%N; byte (128 + cp mod 64)%N].

Definition simple_escape (e : ascii) : option ascii :=
  if decide (e = dquote) then Some dquote else
  match e with
  | "\" => Some "\" | "/" => Some "/"
  | "b" => Some "008" | "f" => Some "012" | "n" => Some "010"
  | "r" => Some "013" | "t" => Some "009"
  | _ => None
  end.

(** A [\u] escape, with a following low surrogate joined to a high one. *)
Definition unicode_escape (l : list ascii) : option (list ascii * list ascii) :=
  '(hi, r) ← hex4 l;
  if decide (55296 ≤ hi < 56320)%N then
    match r with
    | "\" :: "u" :: r' =>
        match hex4 r' with
        | Some (lo, r'') =>
            if decide (56320 ≤ lo < 57344)%N then
              Some (utf8 (65536 + (hi - 55296) * 1024 + (lo - 56320)), r'')
            else Some (utf8 hi, r)
        | None => Some (utf8 hi, r)
        end
    | _ => Some (utf8 hi, r)
    end
  else Some (utf8 hi, r).

(** The characters of a string literal after its opening quote, up to and
    without the closing quote; [fuel] bounds the characters read. *)
Fixpoint string_chars (fuel : nat) (l : list ascii) : option (list ascii * list ascii) :=
  match fuel with
  | O => None
  | S f =>
      match l with
      | [] => None
      | c :: r =>
          if decide (c = dquote) then Some ([], r)
          else if decide (c = "\") then
            match r with
            | e :: r1 =>
                match simple_escape e with
                | Some c' => '(cs, r') ← string_chars f r1; Some (c' :: cs, r')
                | None =>
                    if decide (e = "u") then
                      '(bs, r2) ← unicode_escape r1; '(cs, r') ← string_chars f r2;
                      Some (bs ++ cs, r')
                    else None
                end
            | [] => None
            end
          else if decide (nat_of_ascii c < 32)%nat then None
          else '(cs, r') ← string_chars f r; Some (c :: cs, r')
      end
  end.

Definition parse_string (l : list ascii) : option (string * list ascii) :=
  '(cs, r) ← string_chars (length l) l; Some (String.string_of_list_ascii cs, r).

(** The number grammar of ECMA-404,
    [-? (0 | [1-9][0-9]* ) (. [0-9]+)? ([eE] [+-]? [0-9]+)?], one part at a time. *)
Definition split_minus (l : list ascii) : bool * list ascii :=
  match l with
  | c :: r => if decide (c = "-") then (true, r) else (false, l)
  | [] => (false, l)
  end.

(** The integer part: digits, with no leading zero unless it is [0]. *)
Definition int_digits (l : list ascii) : option (list digit * list ascii) :=
  match span_digits l with
  | (d :: ds, r) => if decide (d = d0 ∧ ds ≠ []) then None else Some (d :: ds, r)
  | ([], _) => None
  end.

Definition frac_digits (l : list ascii) : option (list digit * list ascii) :=
  match l with
  | c :: r =>
      if decide (c = ".") then
        match span_digits r with
        | ([], _) => None
        | res => Some res
        end
      else Some ([], l)
  | [] => Some ([], l)
  end.

Definition exp_sign (l : list ascii) : bool * list ascii :=
  match l with
  | c :: r => if decide (c = "+") then (false, r) else if decide (c = "-") then (true, r) else (false, l)
  | [] => (false, l)
  end.

Definition exp_digits (l : list ascii) : option (Z * list ascii) :=
  match l with
  | c :: r =>
      if decide (c = "e" ∨ c = "E") then
        let '(eneg, r1) := exp_sign r in
        match span_digits r1 with
        | ([], _) => None
        | (ds, r2) => Some (if eneg then - digits_Z ds else digits_Z ds, r2)%Z
        end
      else Some (0%Z, l)
  | [] => Some (0%Z, l)
  end.

Definition parse_number (l : list ascii) : option (number * list ascii) :=
  let '(neg, l1) := split_minus l in
  '(ip, l2) ← int_digits l1;
  '(fp, l3) ← frac_digits l2;
  '(e, l4) ← exp_digits l3;
  Some (mk_finite neg (ip ++ fp) (Z.of_nat (length ip) + e)%Z, l4).

Fixpoint parse_value (fuel : nat) (l : list ascii) : option (value * list ascii) :=
  match fuel with
  | O => None
  | S f =>
      match skip_ws l with
      | "{" :: r =>
          match skip_ws r with
          | c :: r' =>
              if decide (c = "}") then Some (VObj [], r')
              else '(ps, r'') ← parse_members f [] (c :: r'); Some (VObj ps, r'')
          | [] => None
          end
      | "[" :: r =>
          match skip_ws r with
          | c :: r' =>
              if decide (c = "]") then Some (VArr [], r')
              else '(xs, r'') ← parse_elements f [] (c :: r'); Some (VArr xs, r'')
          | [] => None
          end
      | "n" :: "u" :: "l" :: "l" :: r => Some (VNull, r)
      | "t" :: "r" :: "u" :: "e" :: r => Some (VBool true, r)
      | "f" :: "a" :: "l" :: "s" :: "e" :: r => Some (VBool false, r)
      | c :: r =>
          if decide (c = dquote) then '(s, r') ← parse_string r; Some (VStr s, r')
          else '(x, r') ← parse_number (c :: r); Some (VNum x, r')
      | [] => None
      end
  end
with parse_elements (fuel : nat) (acc : list value) (l : list ascii)
    : option (list value * list ascii) :=
  match fuel with
  | O => None
  | S f =>
      '(v, r) ← parse_value f l;
      match skip_ws r with
      | "," :: r' => parse_elements f (acc ++ [v]) r'
      | "]" :: r' => Some (acc ++ [v], r')
      | _ => None
      end
  end
with parse_members (fuel : nat) (acc : list (string * value)) (l : list ascii)
    : option (list (string * value) * list ascii) :=
  match fuel with
  | O => None
  | S f =>
      match skip_ws l with
      | c :: r =>
          if negb (bool_decide (c = dquote)) then None else
          '(k, r1) ← parse_string r;
          match skip_ws r1 with
          | ":" :: r2 =>
              '(v, r3) ← parse_value f r2;
              let acc' := assoc_set k v acc in
              match skip_ws r3 with
              | "," :: r4 => parse_members f acc' r4
              | "}" :: r4 => Some (acc', r4)
              | _ => None
              end
          | _ => None
          end
      | _ => None
      end
  end.

(** [JSON.parse(text)]: a SyntaxError unless the whole text is one value. *)
Definition parse (text : string) : js value :=
  let l := String.list_ascii_of_string text in
  match parse_value (S (length l)) l with
  | Some (v, r) => if decide (skip_ws r = []) then Ok v else Throw ESyntaxError
  | None => Throw ESyntaxError
  end.

(** ** Lemmas *)

(** [JSON.parse] throws nothing but a SyntaxError. *)
Lemma parse_throw text e : parse text = Throw e → e = ESyntaxError.
Proof. unfold parse. repeat case_match; congruence. Qed.

(** ** Lemmas: reading back printed numbers *)

(** What may follow a value in a JSON text [stringify] writes. *)
Definition json_delim (rest : list ascii) : Prop :=
  match rest with [] => True | c :: _ => c = "," ∨ c = "]" ∨ c = "}" end.

Lemma json_delim_digits_end rest : json_delim rest → digits_end rest.
Proof. destruct rest as [|c r]; [done|]. by intros [-> | [-> | ->]]. Qed.

Lemma frac_digits_delim l : json_delim l → frac_digits l = Some ([], l).
Proof. destruct l as [|c r]; [done|]. by intros [-> | [-> | ->]]. Qed.

Lemma exp_digits_delim l : json_delim l → exp_digits l = Some (0%Z, l).
Proof. destruct l as [|c r]; [done|]. by intros [-> | [-> | ->]]. Qed.

Lemma split_minus_sign neg d ip Y :
  split_minus (sign_chars neg ++ chars (d :: ip) ++ Y) = (neg, chars (d :: ip) ++ Y).
Proof. destruct neg; [reflexivity|]. by destruct d. Qed.

Lemma int_digits_chars d ip X :
  (d = d0 → ip = []) → digits_end X → int_digits (chars (d :: ip) ++ X) = Some (d :: ip, X).
Proof.
  intros Hd HX. unfold int_digits. rewrite span_digits_prefix by done.
  rewrite decide_False; [done|]. intros [-> Hne]. by apply Hne, Hd.
Qed.

Lemma exp_digits_text oe rest :
  json_delim rest → exp_digits (exp_text oe ++ rest) = Some (default 0%Z oe, rest).
Proof.
  intros Hr. destruct oe as [e|]; [|by apply exp_digits_delim].
  unfold exp_text, Z_chars. pose proof (N_digits_nonempty (Z.abs_N e)) as Hne.
  assert (digits_Z (N_digits (Z.abs_N e)) = Z.abs e) as Hv
    by (unfold digits_Z; rewrite digits_N_of; apply N2Z.inj_abs_N).
  cbn -[span_digits chars digits_Z N_digits]. rewrite decide_True by (by left).
  destruct (decide (e < 0)%Z); cbn -[span_digits chars digits_Z N_digits]; simpl_decide;
    rewrite span_digits_prefix by (by apply json_delim_digits_end);
    destruct (N_digits (Z.abs_N e)); try done; f_equal; f_equal; lia.
Qed.

(** The JSON number grammar reads back a printed decimal text. *)
Lemma parse_number_decimal neg d ip fp oe rest :
  (d = d0 → ip = []) → json_delim rest →
  parse_number (decimal_text neg (d :: ip) fp (exp_text oe) ++ rest)
  = Some (mk_finite neg ((d :: ip) ++ fp) (Z.of_nat (length (d :: ip)) + default 0%Z oe)%Z, rest).
Proof.
  intros Hd Hr. unfold parse_number, decimal_text. rewrite <- !app_assoc, split_minus_sign.
  assert (Hfr : digits_end (match fp with [] => [] | _ => "." :: chars fp end ++ exp_text oe ++ rest)).
  { destruct fp; [|done]. destruct oe; [done|]. by apply json_delim_digits_end. }
  rewrite int_digits_chars by done. cbn [mbind option_bind].
  assert (frac_digits (match fp with [] => [] | _ => "." :: chars fp end ++ exp_text oe ++ rest)
          = Some (fp, exp_text oe ++ rest)) as ->.
  { destruct fp as [|f fp'].
    - destruct oe; [done|]. by apply frac_digits_delim.
    - cbn -[chars span_digits]. rewrite span_digits_prefix; [done|].
      destruct oe; [done|]. by apply json_delim_digits_end. }
  cbn [mbind option_bind]. by rewrite exp_digits_text.
Qed.


(** ** Lemmas: reading back quoted strings *)

(** One quoted character: the two-character escapes (backspace, tab,
    line feed, form feed, carriage return, quote, backslash), the [\u00XX]
    of the other control characters, and the characters written as they
    are. *)
Lemma string_chars_quote_char f c r :
  string_chars (S f) (quote_char c ++ r) = '(cs, r') ← string_chars f r; Some (c :: cs, r').
Proof.
  rewrite <- (ascii_nat_embedding c). pose proof (nat_ascii_bounded c) as Hb.
  revert Hb. generalize (nat_of_ascii c). clear c. intros b Hb.
  destruct (decide (b < 32 ∨ b = 34 ∨ b = 92)%nat) as [Hs|Hs].
  - destruct Hs as [Hs|[-> | ->]]; [|reflexivity|reflexivity].
    do 32 (destruct b as [|b]; [reflexivity|]). lia.
  - assert (Hn : nat_of_ascii (ascii_of_nat b) = b) by (apply nat_ascii_embedding; lia).
    unfold quote_char. rewrite Hn. repeat (rewrite decide_False by lia). simpl. rewrite Hn.
    repeat (rewrite decide_False by (first [lia | intros E; apply (f_equal nat_of_ascii) in E;
                                              rewrite Hn in E; vm_compute in E; lia])).
    done.
Qed.

Lemma string_chars_quoted l rest fuel :
  (length l < fuel)%nat →
  string_chars fuel (mjoin (quote_char <$> l) ++ dquote :: rest) = Some (l, rest).
Proof.
  revert fuel. induction l as [|c l IH]; intros [|f] Hf; try lia; [reflexivity|].
  change (mjoin (quote_char <$> c :: l)) with (quote_char c ++ mjoin (quote_char <$> l)).
  rewrite <- app_assoc, string_chars_quote_char, IH by (simpl in Hf; lia). done.
Qed.

Lemma quote_char_length c : (1 ≤ length (quote_char c))%nat.
Proof. unfold quote_char. repeat case_decide; simpl; lia. Qed.

Lemma quoted_length l : (length l ≤ length (mjoin (quote_char <$> l)))%nat.
Proof.
  induction l as [|c l IH]; [done|].
  change (mjoin (quote_char <$> c :: l)) with (quote_char c ++ mjoin (quote_char <$> l)).
  rewrite length_app. pose proof (quote_char_length c). simpl. lia.
Qed.

(** [JSON.parse] reads a string literal [stringify] wrote back as the string. *)
Lemma parse_string_quote s rest :
  parse_string (mjoin (quote_char <$> String.list_ascii_of_string s) ++ dquote :: rest)
  = Some (s, rest).
Proof.
  unfold parse_string. rewrite string_chars_quoted.
  - simpl. by rewrite String.string_of_list_ascii_of_string.
  - rewrite length_app. pose proof (quoted_length (String.list_ascii_of_string s)). simpl. lia.
Qed.

(** ** Values that [JSON.stringify] and [JSON.parse] carry unchanged

    No [undefined] anywhere (it is dropped from objects and written
    [null] in arrays), numbers finite (NaN and the infinities are written
    [null]) and in canonical form, and no repeated key in an object. *)

#[export] Instance canonical_dec x : Decision (canonical x).
Proof. destruct x; simpl; apply _. Defined.

Definition is_finite (x : number) : bool :=
  match x with Zero | Finite _ _ _ => true | _ => false end.

Fixpoint json_value (v : value) : bool :=
  match v with
  | VUndefined => false
  | VNull | VBool _ | VStr _ => true
  | VNum x => bool_decide (canonical x) && is_finite x
  | VArr xs =>
      (fix go (xs : list value) : bool :=
         match xs with [] => true | x :: xs' => json_value x && go xs' end) xs
  | VObj ps =>
      bool_decide (NoDup ps.*1) &&
      (fix go (ps : list (string * value)) : bool :=
         match ps with [] => true | (_, x) :: ps' => json_value x && go ps' end) ps
  end.

Lemma json_value_arr xs : json_value (VArr xs) = true ↔ Forall (λ x, json_value x = true) xs.
Proof.
  simpl. induction xs as [|x xs IH]; [split; [constructor|done]|].
  rewrite andb_true_iff, Forall_cons, IH. done.
Qed.

Lemma json_value_obj ps :
  json_value (VObj ps) = true ↔ NoDup ps.*1 ∧ Forall (λ kv, json_value kv.2 = true) ps.
Proof.
  simpl. rewrite andb_true_iff, bool_decide_eq_true. apply and_iff_compat_l.
  induction ps as [|[k x] ps IH]; [split; [constructor|done]|].
  rewrite andb_true_iff, Forall_cons, IH. done.
Qed.

Lemma stringify_json v : json_value v = true → ∃ t, stringify_chars v = Some t.
Proof. destruct v as [| |[]| | | |]; simpl; try done; eauto. Qed.

Lemma skip_ws_cons c r : is_json_ws c = false → skip_ws (c :: r) = c :: r.
Proof. simpl. by intros ->. Qed.

Lemma join_commas_cons t ts :
  join_commas (t :: ts) = t ++ match ts with [] => [] | _ => "," :: join_commas ts end.
Proof. destruct ts; simpl; by rewrite ?app_nil_r. Qed.

(** The first character of a printed number. *)
Lemma to_chars_head x :
  canonical x → is_finite x = true →
  ∃ c t, to_chars x = c :: t ∧ (c = "-" ∨ ∃ d, c = digit_char d).
Proof.
  intros Hc Hf. destruct x as [| | |neg ds n]; try done.
  - exists "0", []. split; [done|]. right. by exists d0.
  - destruct (to_chars_decimal neg ds n Hc) as (d & ip & fp & oe & -> & _).
    destruct neg; eexists _, _; split; [reflexivity| |reflexivity|]; eauto.
Qed.

Lemma parse_number_to_chars x rest :
  canonical x → is_finite x = true → json_delim rest → parse_number (to_chars x ++ rest) = Some (x, rest).
Proof.
  intros Hc Hf Hr. destruct x as [| | |neg ds n]; try done.
  - exact (parse_number_decimal false d0 [] [] None rest (λ _, eq_refl) Hr).
  - destruct (to_chars_decimal neg ds n Hc) as (d & ip & fp & oe & Ht & Hd & Hmk & _).
    rewrite Ht, parse_number_decimal; [by rewrite Hmk|naive_solver|done].
Qed.

(** The branches of [parse_value] on the first character of a value. *)
Lemma parse_value_num f c r :
  c = "-" ∨ (∃ d, c = digit_char d) →
  parse_value (S f) (c :: r) = '(x, r') ← parse_number (c :: r); Some (VNum x, r').
Proof. intros [-> | [[] ->]]; reflexivity. Qed.

Lemma parse_value_str f r : parse_value (S f) (dquote :: r) = '(s, r') ← parse_string r; Some (VStr s, r').
Proof. reflexivity. Qed.

Lemma parse_value_arr f r :
  parse_value (S f) ("[" :: r) =
    match skip_ws r with
    | c :: r' =>
        if decide (c = "]") then Some (VArr [], r')
        else '(xs, r'') ← parse_elements f [] (c :: r'); Some (VArr xs, r'')
    | [] => None
    end.
Proof. reflexivity. Qed.

Lemma parse_value_obj f r :
  parse_value (S f) ("{" :: r) =
    match skip_ws r with
    | c :: r' =>
        if decide (c = "}") then Some (VObj [], r')
        else '(ps, r'') ← parse_members f [] (c :: r'); Some (VObj ps, r'')
    | [] => None
    end.
Proof. reflexivity. Qed.

(** A printed value starts with a character that is not white space and
    does not close an array or an object. *)
Lemma print_head v t :
  json_value v = true → stringify_chars v = Some t →
  ∃ c t', t = c :: t' ∧ is_json_ws c = false ∧ c ≠ "]" ∧ c ≠ "}".
Proof.
  intros Hj Ht. destruct v as [| |[]|x| | |]; simpl in Ht; simplify_eq; try done;
    try (eexists _, _; split; [reflexivity|done]).
  apply andb_true_iff in Hj as [Hc Hf]. apply bool_decide_eq_true in Hc.
  unfold number_json. destruct (to_chars_head x Hc Hf) as (c & t' & Hx & Hcs).
  destruct x; try done; rewrite Hx; exists c, t'; (split; [done|]);
    destruct Hcs as [-> | [[] ->]]; done.
Qed.

(** A value is read back from its text followed by anything that may
    follow a value. *)
Definition reads_back (v : value) : Prop :=
  ∀ t fuel rest, stringify_chars v = Some t → (length t < fuel)%nat → json_delim rest →
    parse_value fuel (t ++ rest) = Some (v, rest).

Lemma parse_elements_print xs ts acc fuel rest :
  Forall reads_back xs → Forall2 (λ x t, stringify_chars x = Some t) xs ts → xs ≠ [] →
  (length (join_commas ts ++ ["]"]) < fuel)%nat → json_delim rest →
  parse_elements fuel acc (join_commas ts ++ "]" :: rest) = Some (acc ++ xs, rest).
Proof.
  intros Hrb H2. revert acc fuel Hrb.
  induction H2 as [|x t xs ts Ht H2 IH]; intros acc fuel Hrb Hne Hf Hr; [done|].
  apply Forall_cons in Hrb as [Hx Hrb]. destruct fuel as [|f]; [lia|].
  rewrite (join_commas_cons t ts) in *. rewrite length_app in Hf.
  destruct ts as [|t' ts'].
  - inversion H2; subst. rewrite app_nil_r in *. cbn [parse_elements].
    rewrite (Hx t f ("]" :: rest)) by (done || (simpl in Hf; lia) || (right; by left)).
    cbn [mbind option_bind]. by rewrite skip_ws_cons by reflexivity.
  - rewrite <- app_assoc. cbn [parse_elements app].
    rewrite (Hx t f _) by (done || (rewrite length_app in Hf; simpl in Hf; lia) || by left).
    cbn [mbind option_bind]. rewrite skip_ws_cons by reflexivity. cbn.
    rewrite IH; [by rewrite <- app_assoc|done|by inversion H2| |done].
    rewrite length_app in *. simpl in *. lia.
Qed.

(** The text [stringify] writes for one property. *)
Definition member_text (k : string) (t : list ascii) : list ascii := quote k ++ [":"] ++ t.

Lemma parse_member f acc k v t X :
  reads_back v → stringify_chars v = Some t → (length (member_text k t) < S f)%nat →
  json_delim X → k ∉ acc.*1 →
  parse_members (S f) acc (member_text k t ++ X) =
    match skip_ws X with
    | "," :: r4 => parse_members f (acc ++ [(k, v)]) r4
    | "}" :: r4 => Some (acc ++ [(k, v)], r4)
    | _ => None
    end.
Proof.
  intros Hv Ht Hf HX Hk. unfold member_text, quote. rewrite <- !app_assoc. cbn [app parse_members].
  rewrite skip_ws_cons by reflexivity. rewrite bool_decide_true by done. cbn [negb].
  rewrite parse_string_quote. cbn [mbind option_bind].
  rewrite skip_ws_cons by reflexivity. cbn.
  rewrite (Hv t f X Ht) by (done || (unfold member_text, quote in Hf; rewrite !length_app in Hf;
                                     simpl in Hf; lia)).
  cbn [mbind option_bind]. by rewrite assoc_set_new.
Qed.

Lemma parse_members_print ps ms acc fuel rest :
  Forall (λ kv, reads_back kv.2) ps →
  Forall2 (λ kv m, ∃ t, stringify_chars kv.2 = Some t ∧ m = member_text kv.1 t) ps ms →
  ps ≠ [] → NoDup (acc.*1 ++ ps.*1) →
  (length (join_commas ms ++ ["}"]) < fuel)%nat → json_delim rest →
  parse_members fuel acc (join_commas ms ++ "}" :: rest) = Some (acc ++ ps, rest).
Proof.
  intros Hrb H2. revert acc fuel Hrb.
  induction H2 as [|[k v] m ps ms (t & Ht & ->) H2 IH]; intros acc fuel Hrb Hne Hnd Hf Hr; [done|].
  apply Forall_cons in Hrb as [Hv Hrb]. destruct fuel as [|f]; [lia|].
  rewrite (join_commas_cons _ ms) in *. rewrite length_app in Hf. simpl in Hnd.
  assert (Hk : k ∉ acc.*1) by (apply NoDup_app in Hnd as (_ & Hd & _); intros Hin;
                               apply (Hd k Hin); by left).
  destruct ms as [|m' ms'].
  - inversion H2; subst. rewrite app_nil_r in *.
    rewrite (parse_member f acc k v t) by (done || (simpl in *; lia) || (right; by right)).
    by rewrite skip_ws_cons by reflexivity.
  - rewrite <- app_assoc. cbn [app].
    rewrite (parse_member f acc k v t) by (done || (rewrite !length_app in *; simpl in *; lia) || by left).
    rewrite skip_ws_cons by reflexivity. cbn.
    rewrite IH; [by rewrite <- app_assoc|done|by inversion H2| |rewrite length_app in *; simpl in *; lia|done].
    by rewrite fmap_app, <- app_assoc.
Qed.

Lemma number_json_finite x : is_finite x = true → number_json x = to_chars x.
Proof. by destruct x. Qed.

Lemma stringify_elements xs :
  Forall (λ x, json_value x = true) xs →
  Forall2 (λ x t, stringify_chars x = Some t) xs
    ((λ x, default (String.list_ascii_of_string "null"%string) (stringify_chars x)) <$> xs).
Proof.
  induction 1 as [|x xs Hx _ IH]; constructor; [|done].
  destruct (stringify_json x Hx) as [t Ht]. by rewrite Ht.
Qed.

Lemma stringify_members ps :
  Forall (λ kv, json_value kv.2 = true) ps →
  Forall2 (λ kv m, ∃ t, stringify_chars kv.2 = Some t ∧ m = member_text kv.1 t) ps
    (omap (λ kv, (λ t, quote kv.1 ++ [":"] ++ t) <$> stringify_chars kv.2) ps).
Proof.
  induction 1 as [|[k x] ps Hx _ IH]; [constructor|]. simpl in *.
  destruct (stringify_json x Hx) as [t Ht]. rewrite Ht. simpl. constructor; [|done]. by exists t.
Qed.

(** Every JSON value is read back from its text, whatever follows it. *)
Lemma json_reads_back v : json_value v = true → reads_back v.
Proof.
  induction v as [| |b|x|s|xs IH|ps IH] using value_ind';
    intros Hj t [|f] rest Ht Hf Hr; simpl in Ht; try lia; try discriminate;
    try (injection Ht as <-).
  - reflexivity.
  - by destruct b; injection Ht as <-.
  - apply andb_true_iff in Hj as [Hc Hfin]. apply bool_decide_eq_true in Hc.
    rewrite number_json_finite by done.
    destruct (to_chars_head x Hc Hfin) as (c & t' & Hx & Hcs). rewrite Hx. cbn [app].
    rewrite parse_value_num by done. change (c :: t' ++ rest) with ((c :: t') ++ rest).
    by rewrite <- Hx, parse_number_to_chars.
  - unfold quote. rewrite <- !app_assoc. cbn [app].
    by rewrite parse_value_str, parse_string_quote.
  - apply json_value_arr in Hj. pose proof (stringify_elements xs Hj) as H2.
    destruct xs as [|x xs']; [reflexivity|].
    set (ts := (λ x, default _ (stringify_chars x)) <$> x :: xs') in *.
    destruct (Forall2_cons_inv_l _ _ _ _ H2) as (t1 & ts' & Ht1 & H2' & Hts).
    destruct (print_head x t1) as (c & t1' & -> & Hws & Hc1 & _); [by inversion Hj|done|].
    cbn [app]. rewrite <- app_assoc. cbn [app]. rewrite parse_value_arr.
    assert (Hs : join_commas ts ++ "]" :: rest =
                 c :: t1' ++ match ts' with [] => [] | _ => "," :: join_commas ts' end ++ "]" :: rest).
    { rewrite Hts, join_commas_cons. by rewrite <- !app_assoc. }
    rewrite Hs, skip_ws_cons, decide_False by done. rewrite <- Hs.
    rewrite (parse_elements_print (x :: xs') ts); [done| | |done| |done].
    + apply Forall_forall. intros y Hy. rewrite Forall_forall in IH, Hj. by apply IH, Hj.
    + done.
    + cbn [length] in Hf. lia.
  - apply json_value_obj in Hj as [Hnd Hj]. pose proof (stringify_members ps Hj) as H2.
    destruct ps as [|[k x] ps']; [reflexivity|].
    set (ms := omap _ ((k, x) :: ps')) in *.
    cbn [app]. rewrite <- app_assoc. cbn [app]. rewrite parse_value_obj.
    destruct (Forall2_cons_inv_l _ _ _ _ H2) as (m1 & ms' & (t1 & Ht1 & Hm1) & H2' & Hms).
    assert (Hs : join_commas ms ++ "}" :: rest =
                 dquote :: mjoin (quote_char <$> String.list_ascii_of_string k) ++
                   ([dquote] ++ [":"] ++ t1) ++
                   match ms' with [] => [] | _ => "," :: join_commas ms' end ++ "}" :: rest).
    { rewrite Hms, join_commas_cons, Hm1. unfold member_text, quote. by rewrite <- !app_assoc. }
    rewrite Hs, skip_ws_cons, decide_False by done. rewrite <- Hs.
    rewrite (parse_members_print ((k, x) :: ps') ms); [done| | |done|done| |done].
    + apply Forall_forall. intros y Hy. rewrite Forall_forall in IH, Hj. by apply IH, Hj.
    + done.
    + cbn [length] in Hf. lia.
Qed.

(** [JSON.parse(JSON.stringify(v))] is [v] for every JSON value [v]; the
    fuel [1 + length text] of [parse] is enough. *)
Lemma parse_stringify v : json_value v = true → ∃ t, stringify v = Some t ∧ parse t = Ok v.
Proof.
  intros Hj. destruct (stringify_json v Hj) as [l Hl].
  exists (String.string_of_list_ascii l). unfold stringify. rewrite Hl. split; [done|].
  unfold parse. rewrite String.list_ascii_of_string_of_list_ascii.
  rewrite <- (app_nil_r l) at 2. rewrite (json_reads_back v Hj l _ [] Hl) by (simpl; lia || done).
  by rewrite decide_True.
Qed.

(** ** Numbers that are not finite

    [JSON.stringify] writes NaN and the infinities as [null]: a value is
    printed as its [nullify], in which they are [null], and read back as
    that. *)

Fixpoint nullify (v : value) : value :=
  match v with
  | VNum x => if is_finite x then VNum x else VNull
  | VArr xs => VArr (nullify <$> xs)
  | VObj ps => VObj ((λ kv, (kv.1, nullify kv.2)) <$> ps)
  | _ => v
  end.

Lemma stringify_nullify v : stringify_chars (nullify v) = stringify_chars v.
Proof.
  induction v as [| |b|x|s|xs IH|ps IH] using value_ind'; try done.
  - by destruct x.
  - cbn [nullify stringify_chars]. rewrite <- list_fmap_compose.
    erewrite (Forall_fmap_ext_1 _ _ xs); [done|].
    eapply Forall_impl; [exact IH|]. intros x Hx. simpl. by rewrite Hx.
  - cbn [nullify stringify_chars]. do 4 f_equal.
    induction IH as [|[k x] ps Hx _ IHps]; [done|].
    rewrite fmap_cons. cbn [omap list_omap]. rewrite IHps. cbn [fst snd] in *. by rewrite Hx.
Qed.

Lemma json_value_nullify_num x : canonical x → json_value (nullify (VNum x)) = true.
Proof.
  intros Hc. simpl. destruct (is_finite x) eqn:Hf; [|done].
  simpl. by rewrite bool_decide_true, Hf.
Qed.

(** A value whose [nullify] is a JSON value is printed as a text that
    parses to its [nullify]. *)
Lemma parse_stringify_nullify v :
  json_value (nullify v) = true → ∃ t, stringify v = Some t ∧ parse t = Ok (nullify v).
Proof.
  intros Hj. destruct (parse_stringify _ Hj) as (t & Ht & Hp). exists t. split; [|done].
  unfold stringify in *. by rewrite <- stringify_nullify.
Qed.
