(* ===== verification/Uri.v ===== *)
(** * encodeURIComponent

    [getAnalytics] puts the exercise name into the query string with
    [encodeURIComponent(exercise)] ([client.ts:46]).  On a UTF-8 byte
    string, the library function keeps the unreserved characters
    [A-Z a-z 0-9 - _ . ! ~ * ' ( )] and writes every other byte as [%XX]
    with upper-case hex digits.  [decode_component] is the reading a
    server applies to a query value ([decodeURIComponent] on text this
    function produced), and [query_params] the server's reading of a whole
    query string (split on [&], then at the first [=], [+] as a space,
    percent escapes decoded).  The text of a number and an encoded text
    hold no query delimiter, which is what makes [getAnalytics]'s query
    read back as its two parameters ([Client.getAnalytics_query]). *)

From S2P Require Import Prelude JsNum.
From Stdlib Require Import Ascii.
Open Scope char_scope.

Definition unreserved (c : ascii) : bool :=
  let b := nat_of_ascii c in
  bool_decide ((65 ≤ b ≤ 90)%nat ∨ (97 ≤ b ≤ 122)%nat ∨ (48 ≤ b ≤ 57)%nat
               ∨ c = "-" ∨ c = "_" ∨ c = "." ∨ c = "!" ∨ c = "~" ∨ c = "*"
               ∨ c = "'" ∨ c = "(" ∨ c = ")").

Definition hex_upper (n : nat) : ascii :=
  if decide (n < 10)%nat then ascii_of_nat (48 + n) else ascii_of_nat (55 + n).

Definition encode_char (c : ascii) : list ascii :=
  if unreserved c then [c]
  else let b := nat_of_ascii c in ["%"; hex_upper (b / 16); hex_upper (b mod 16)].

Definition encodeURIComponent (s : string) : string :=
  String.string_of_list_ascii (mjoin (encode_char <$> String.list_ascii_of_string s)).

Definition hex_value (c : ascii) : option nat :=
  let b := nat_of_ascii c in
  if decide (48 ≤ b ≤ 57)%nat then Some (b - 48)%nat
  else if decide (65 ≤ b ≤ 70)%nat then Some (b - 55)%nat
  else if decide (97 ≤ b ≤ 102)%nat then Some (b - 87)%nat
  else None.

Fixpoint decode_chars (l : list ascii) : option (list ascii) :=
  match l with
  | [] => Some []
  | c :: r =>
      if decide (c = "%") then
        match r with
        | h :: k :: r' =>
            hv ← hex_value h; kv ← hex_value k; rest ← decode_chars r';
            Some (ascii_of_nat (hv * 16 + kv) :: rest)
        | _ => None
        end
      else (c ::.) <$> decode_chars r
  end.

Definition decode_component (s : string) : option string :=
  String.string_of_list_ascii <$> decode_chars (String.list_ascii_of_string s).

(** ** Lemmas *)

Lemma hex_value_upper n : (n < 16)%nat → hex_value (hex_upper n) = Some n.
Proof. intros Hn. do 16 (destruct n as [|n]; [reflexivity|]). lia. Qed.

Lemma unreserved_not_percent c : unreserved c = true → c ≠ "%".
Proof. by intros H ->. Qed.

(** One character: its encoding is read back as the character. *)
Lemma decode_encode_char c rest :
  decode_chars (encode_char c ++ rest) = (c ::.) <$> decode_chars rest.
Proof.
  unfold encode_char. destruct (unreserved c) eqn:Hu.
  - simpl. by rewrite decide_False by (by apply unreserved_not_percent).
  - pose proof (nat_ascii_bounded c) as Hb.
    assert (nat_of_ascii c / 16 < 16)%nat by (apply Nat.Div0.div_lt_upper_bound; lia).
    assert (nat_of_ascii c mod 16 < 16)%nat by (apply Nat.mod_upper_bound; lia).
    cbn -[Nat.div Nat.modulo hex_upper hex_value]. rewrite !hex_value_upper by done.
    cbn -[Nat.div Nat.modulo]. destruct (decode_chars rest); [|done].
    by rewrite (Nat.mul_comm _ 16), <- Nat.div_mod_eq, ascii_nat_embedding.
Qed.

Lemma decode_encode_chars l : decode_chars (mjoin (encode_char <$> l)) = Some l.
Proof.
  induction l as [|c l IH]; [done|].
  change (mjoin (encode_char <$> c :: l)) with (encode_char c ++ mjoin (encode_char <$> l)).
  by rewrite decode_encode_char, IH.
Qed.

(** [decodeURIComponent] undoes [encodeURIComponent]. *)
Lemma decode_encode_component s : decode_component (encodeURIComponent s) = Some s.
Proof.
  unfold decode_component, encodeURIComponent.
  rewrite String.list_ascii_of_string_of_list_ascii, decode_encode_chars. simpl.
  by rewrite String.string_of_list_ascii_of_string.
Qed.

(** The characters that may appear in a query value without ending it or
    changing its meaning. *)
Definition query_safe (c : ascii) : bool := unreserved c || bool_decide (c = "%").

Lemma hex_upper_unreserved n : (n < 16)%nat → unreserved (hex_upper n) = true.
Proof. intros Hn. do 16 (destruct n as [|n]; [reflexivity|]). lia. Qed.

(** The encoding is made only of unreserved characters and [%]
    (followed by two hex digits). *)
Lemma encode_query_safe s :
  Forall (λ c, query_safe c = true) (String.list_ascii_of_string (encodeURIComponent s)).
Proof.
  unfold encodeURIComponent. rewrite String.list_ascii_of_string_of_list_ascii.
  apply Forall_join, Forall_fmap, Forall_forall. intros c _. unfold compose, encode_char. cbv beta.
  destruct (unreserved c) eqn:Hu; [constructor; [by unfold query_safe; rewrite Hu|done]|].
  pose proof (nat_ascii_bounded c).
  repeat constructor; unfold query_safe; rewrite ?hex_upper_unreserved; try done;
    [apply Nat.Div0.div_lt_upper_bound | apply Nat.mod_upper_bound]; lia.
Qed.

(** ** The server's reading of a query string

    The backend reads the query as [application/x-www-form-urlencoded]
    (Python's [urllib.parse.parse_qsl] with blank values kept, as
    Starlette calls it): the text after the first [?] is split on [&],
    empty pieces are skipped, each piece is split at its first [=], and
    name and value are decoded with [+] read as a space. *)

Definition qmark : ascii := "?".
Definition amp : ascii := "&".
Definition eq_sign : ascii := "=".
Definition plus_sign : ascii := "+".

Fixpoint break_at (sep : ascii) (l : list ascii) : list ascii * option (list ascii) :=
  match l with
  | [] => ([], None)
  | c :: r => if decide (c = sep) then ([], Some r) else let '(a, b) := break_at sep r in (c :: a, b)
  end.

Fixpoint split_on (sep : ascii) (l : list ascii) : list (list ascii) :=
  match l with
  | [] => [[]]
  | c :: r =>
      if decide (c = sep) then [] :: split_on sep r
      else match split_on sep r with w :: ws => (c :: w) :: ws | [] => [[c]] end
  end.

Definition form_char (c : ascii) : ascii := if decide (c = plus_sign) then " " else c.

Definition form_decode (l : list ascii) : option string :=
  String.string_of_list_ascii <$> decode_chars (form_char <$> l).

Definition parse_param (l : list ascii) : option (string * string) :=
  let '(k, v) := break_at eq_sign l in
  k' ← form_decode k; v' ← form_decode (default [] v); Some (k', v').

Definition query_params (u : string) : option (list (string * string)) :=
  match break_at qmark (String.list_ascii_of_string u) with
  | (_, Some q) => mapM parse_param (filter (λ w, w ≠ []) (split_on amp q))
  | (_, None) => Some []
  end.

(** ** Lemmas on the reading *)

Lemma break_at_sep sep l r : sep ∉ l → break_at sep (l ++ sep :: r) = (l, Some r).
Proof.
  induction l as [|c l IH]; simpl; intros Hn; [by rewrite decide_True|].
  rewrite decide_False by set_solver. rewrite IH by set_solver. done.
Qed.

Lemma split_on_sep sep l r : sep ∉ l → split_on sep (l ++ sep :: r) = l :: split_on sep r.
Proof.
  induction l as [|c l IH]; simpl; intros Hn; [by rewrite decide_True|].
  rewrite decide_False by set_solver. rewrite IH by set_solver. done.
Qed.

Lemma split_on_none sep l : sep ∉ l → split_on sep l = [l].
Proof.
  induction l as [|c l IH]; simpl; intros Hn; [done|].
  rewrite decide_False by set_solver. rewrite IH by set_solver. done.
Qed.

Lemma decode_chars_plain l : "%" ∉ l → decode_chars l = Some l.
Proof.
  induction l as [|c l IH]; simpl; intros Hn; [done|].
  rewrite decide_False by set_solver. rewrite IH by set_solver. done.
Qed.

Lemma form_chars_plain (l : list ascii) : plus_sign ∉ l → form_char <$> l = l.
Proof.
  induction l as [|c l IH]; intros Hn; [done|]. rewrite fmap_cons, IH by set_solver.
  unfold form_char. by rewrite decide_False by set_solver.
Qed.

(** A value with no [+] and no [%] is read as itself. *)
Lemma form_decode_plain l :
  plus_sign ∉ l → "%" ∉ l → form_decode l = Some (String.string_of_list_ascii l).
Proof. intros Hp Hc. unfold form_decode. by rewrite form_chars_plain, decode_chars_plain. Qed.

(** An encoded value is read back as the text encoded. *)
Lemma form_decode_encode s : form_decode (String.list_ascii_of_string (encodeURIComponent s)) = Some s.
Proof.
  unfold form_decode. rewrite form_chars_plain.
  - pose proof (decode_encode_component s) as H. unfold decode_component in H. done.
  - intros Hin. pose proof (encode_query_safe s) as Hq. rewrite Forall_forall in Hq.
    by apply Hq in Hin.
Qed.

Lemma query_safe_not c : query_safe c = true → c ∉ ["&"; "="; "?"; "+"].
Proof.
  intros Hq Hin. repeat (apply elem_of_cons in Hin as [->|Hin]; [done|]). by apply elem_of_nil in Hin.
Qed.

(** The characters of [Number.prototype.toString] are unreserved, but
    for the [+] of a positive exponent. *)
Lemma chars_unreserved ds : Forall (λ c, unreserved c = true) (chars ds).
Proof. apply Forall_fmap, Forall_forall. by intros [] _. Qed.

Lemma to_chars_safe x : Forall (λ c, unreserved c = true ∨ c = "+") (to_chars x).
Proof.
  assert (∀ ds, Forall (λ c, unreserved c = true ∨ c = "+") (chars ds)) as Hc.
  { intros ds. eapply Forall_impl; [apply chars_unreserved|]. by left. }
  assert (∀ n, Forall (λ c, unreserved c = true ∨ c = "+") (replicate n "0")) as Hz.
  { intros n. apply Forall_replicate. by left. }
  destruct x as [|[]| |neg ds n]; simpl; try (repeat constructor; by left).
  apply Forall_app; split; [destruct neg; repeat constructor; by left|].
  unfold finite_chars. repeat case_decide; destruct ds as [|d [|d' rest]];
    repeat first [apply Forall_nil_2 | apply Forall_app_2 | apply Hc | apply Hz
                 | apply Forall_cons_2; [first [by left | by right | by destruct d; left]|]].
Qed.

(** Hence neither text holds a delimiter of the query. *)
Lemma to_chars_not_delim u c : c ∈ [amp; eq_sign; "%"] → c ∉ to_chars u.
Proof.
  intros Hc Hin. pose proof (to_chars_safe u) as Hs. rewrite Forall_forall in Hs.
  apply Hs in Hin. repeat (apply elem_of_cons in Hc as [->|Hc]; [by destruct Hin|]).
  by apply elem_of_nil in Hc.
Qed.

Lemma encode_not_delim s c :
  c ∈ [amp; eq_sign; qmark; plus_sign] → c ∉ String.list_ascii_of_string (encodeURIComponent s).
Proof.
  intros Hc Hin. pose proof (encode_query_safe s) as Hs. rewrite Forall_forall in Hs.
  by apply Hs, query_safe_not in Hin.
Qed.

Lemma not_in_literal (c : ascii) (l : list ascii) : Forall (λ d, d ≠ c) l → c ∉ l.
Proof. intros Hl Hin. rewrite Forall_forall in Hl. by apply (Hl c). Qed.

(** A delimiter is not in a literal text of the code. *)
Ltac not_in_lit :=
  apply not_in_literal; cbn;
  repeat (apply Forall_cons_2; [unfold qmark, amp, eq_sign, plus_sign; discriminate|]);
  apply Forall_nil_2.
