(* ===== verification/Schema.v ===== *)
(** * The schema of [api/types.ts]

    One Module per type, named as in the source, holding the record [t]
    (TypeScript's [number] is a [JsNum.number], which may be NaN), its
    encoding [to_value] as the JavaScript object the code builds (the
    properties in the order of the type, which is the order of every
    object literal of the pages), and [of_value], the check that a value
    has the shape of the type.  The code never runs such a check (the
    response type is a cast, [client.ts:37]); [of_value] states what a
    well-formed payload is, and [of_to] that encoding is checked back. *)

From S2P Require Import Prelude JsNum JsValue.

(** ** Field readers *)

Definition as_num (v : value) : option number :=
  match v with VNum x => Some x | _ => None end.
Definition as_str (v : value) : option string :=
  match v with VStr s => Some s | _ => None end.
Definition as_bool (v : value) : option bool :=
  match v with VBool b => Some b | _ => None end.
Definition as_obj (v : value) : option (list (string * value)) :=
  match v with VObj ps => Some ps | _ => None end.
Definition as_arr (v : value) : option (list value) :=
  match v with VArr xs => Some xs | _ => None end.

Definition field {A} (read : value → option A) (ps : list (string * value)) (k : string)
    : option A :=
  assoc_get k ps ≫= read.

Abbreviation num_field := (field as_num).
Abbreviation str_field := (field as_str).
Abbreviation bool_field := (field as_bool).

Definition list_field {A} (read : value → option A) (ps : list (string * value)) (k : string)
    : option (list A) :=
  field as_arr ps k ≫= mapM read.

Lemma mapM_map_inv {A} (read : value → option A) (enc : A → value) (xs : list A) :
  (∀ x, read (enc x) = Some x) → mapM read (enc <$> xs) = Some xs.
Proof. intros H. apply mapM_Some_2. induction xs; simpl; constructor; auto. Qed.

(** A flat record is checked back by computation once it is destructed. *)

Ltac schema_roundtrip := match goal with x : _ |- _ => destruct x end; reflexivity.

Module UserProfile.
Record t := { user_id : number; age : number; bodyweight_kg : number;
              training_age_years : number; goal : string; mrv_baseline_sets : number }.
End UserProfile.

Module ProfileUpdate.
Record t := { age : number; bodyweight_kg : number; training_age_years : number;
              goal : string; mrv_baseline_sets : number }.

Definition to_value (p : t) : value :=
  VObj [("age", VNum p.(age)); ("bodyweight_kg", VNum p.(bodyweight_kg));
        ("training_age_years", VNum p.(training_age_years));
        ("goal", VStr p.(goal)); ("mrv_baseline_sets", VNum p.(mrv_baseline_sets))].
End ProfileUpdate.

Module ExerciseLog.
Record t := { exercise : string; sets : number; reps : number;
              load_kg : number; rir : number }.

Definition to_value (x : t) : value :=
  VObj [("exercise", VStr x.(exercise)); ("sets", VNum x.(sets));
        ("reps", VNum x.(reps)); ("load_kg", VNum x.(load_kg)); ("rir", VNum x.(rir))].

Definition of_value (v : value) : option t :=
  ps ← as_obj v;
  e ← str_field ps "exercise"; s ← num_field ps "sets"; r ← num_field ps "reps";
  l ← num_field ps "load_kg"; q ← num_field ps "rir";
  Some {| exercise := e; sets := s; reps := r; load_kg := l; rir := q |}.

(** The numeric fields. *)
Definition numbers (x : t) : list number := [x.(sets); x.(reps); x.(load_kg); x.(rir)].

Lemma exercise_log_of_to x : of_value (to_value x) = Some x.
Proof. schema_roundtrip. Qed.
#[export] Hint Rewrite exercise_log_of_to : gymyo.
End ExerciseLog.

Module SessionMetrics.
Record t := { date : string; sleep_hours : number; resting_hr : number;
              hrv_rmssd : number; soreness : number; motivation : number;
              rpe_session : number; duration_min : number }.

Definition to_props (m : t) : list (string * value) :=
  [("date", VStr m.(date)); ("sleep_hours", VNum m.(sleep_hours));
   ("resting_hr", VNum m.(resting_hr)); ("hrv_rmssd", VNum m.(hrv_rmssd));
   ("soreness", VNum m.(soreness)); ("motivation", VNum m.(motivation));
   ("rpe_session", VNum m.(rpe_session)); ("duration_min", VNum m.(duration_min))].

Definition to_value (m : t) : value := VObj (to_props m).

Definition of_value (v : value) : option t :=
  ps ← as_obj v;
  d ← str_field ps "date"; a ← num_field ps "sleep_hours";
  b ← num_field ps "resting_hr"; c ← num_field ps "hrv_rmssd";
  e ← num_field ps "soreness"; f ← num_field ps "motivation";
  g ← num_field ps "rpe_session"; h ← num_field ps "duration_min";
  Some {| date := d; sleep_hours := a; resting_hr := b; hrv_rmssd := c;
          soreness := e; motivation := f; rpe_session := g; duration_min := h |}.

(** The numeric fields. *)
Definition numbers (m : t) : list number :=
  [m.(sleep_hours); m.(resting_hr); m.(hrv_rmssd); m.(soreness); m.(motivation);
   m.(rpe_session); m.(duration_min)].

Lemma session_metrics_of_to m : of_value (to_value m) = Some m.
Proof. schema_roundtrip. Qed.
#[export] Hint Rewrite session_metrics_of_to : gymyo.
End SessionMetrics.

Module SessionInput.
Record t := { user_id : number; metrics : SessionMetrics.t;
              exercises : list ExerciseLog.t }.

Definition to_value (x : t) : value :=
  VObj [("user_id", VNum x.(user_id)); ("metrics", SessionMetrics.to_value x.(metrics));
        ("exercises", VArr (ExerciseLog.to_value <$> x.(exercises)))].

Definition of_value (v : value) : option t :=
  ps ← as_obj v;
  u ← num_field ps "user_id"; m ← field SessionMetrics.of_value ps "metrics";
  es ← list_field ExerciseLog.of_value ps "exercises";
  Some {| user_id := u; metrics := m; exercises := es |}.

(** The numbers of the session: the user, the metrics, the rows in order. *)
Definition numbers (x : t) : list number :=
  x.(user_id) :: SessionMetrics.numbers x.(metrics) ++ mjoin (ExerciseLog.numbers <$> x.(exercises)).

Lemma session_input_of_to x : of_value (to_value x) = Some x.
Proof.
  destruct x as [u [] es]. unfold of_value, to_value, list_field. simpl.
  rewrite mapM_map_inv by apply ExerciseLog.exercise_log_of_to. reflexivity.
Qed.
End SessionInput.

Module DailyMetricsUpdate.
Record t := { user_id : number; metrics : SessionMetrics.t }.

Definition to_value (x : t) : value :=
  VObj [("user_id", VNum x.(user_id)); ("metrics", SessionMetrics.to_value x.(metrics))].

Definition of_value (v : value) : option t :=
  ps ← as_obj v;
  u ← num_field ps "user_id"; m ← field SessionMetrics.of_value ps "metrics";
  Some {| user_id := u; metrics := m |}.

Definition numbers (x : t) : list number := x.(user_id) :: SessionMetrics.numbers x.(metrics).

Lemma daily_metrics_update_of_to x : of_value (to_value x) = Some x.
Proof. by destruct x as [u []]. Qed.
End DailyMetricsUpdate.

(** ** Response types *)

(** A value of [Record<string, string | number>]. *)
Inductive rationale_value := RStr (s : string) | RNum (x : number).

Definition rationale_to_value (r : rationale_value) : value :=
  match r with RStr s => VStr s | RNum x => VNum x end.

Module TrainingPrescription.
Record t := { target_date : string; exercise : string; sets : number; reps : number;
              load_kg : number; deload : bool; rationale : list (string * rationale_value) }.

Definition to_value (p : t) : value :=
  VObj [("target_date", VStr p.(target_date)); ("exercise", VStr p.(exercise));
        ("sets", VNum p.(sets)); ("reps", VNum p.(reps)); ("load_kg", VNum p.(load_kg));
        ("deload", VBool p.(deload));
        ("rationale", VObj (prod_map id rationale_to_value <$> p.(rationale)))].
End TrainingPrescription.

Module SessionSummary.
Record t := { date : string; exercise_count : number; tonnage : number; avg_rir : number }.

Definition to_value (x : t) : value :=
  VObj [("date", VStr x.(date)); ("exercise_count", VNum x.(exercise_count));
        ("tonnage", VNum x.(tonnage)); ("avg_rir", VNum x.(avg_rir))].
End SessionSummary.

Module DashboardResponse.
Record t := { next_workout : TrainingPrescription.t; latest_metrics : SessionMetrics.t;
              recent_sessions : list SessionSummary.t }.

Definition to_value (d : t) : value :=
  VObj [("next_workout", TrainingPrescription.to_value d.(next_workout));
        ("latest_metrics", SessionMetrics.to_value d.(latest_metrics));
        ("recent_sessions", VArr (SessionSummary.to_value <$> d.(recent_sessions)))].
End DashboardResponse.

Module WeeklyVolumePoint.
Record t := { week_start : string; muscle : string; volume : number }.

Definition to_value (p : t) : value :=
  VObj [("week_start", VStr p.(week_start)); ("muscle", VStr p.(muscle)); ("volume", VNum p.(volume))].
End WeeklyVolumePoint.

Module E1RMPoint.
Record t := { date : string; exercise : string; e1rm : number }.

Definition to_value (p : t) : value :=
  VObj [("date", VStr p.(date)); ("exercise", VStr p.(exercise)); ("e1rm", VNum p.(e1rm))].
End E1RMPoint.

Module AnalyticsResponse.
Record t := { sessions : number; fatigue_mean : number; stimulus_mean : number;
              readiness_mean : number; weekly_volume : list WeeklyVolumePoint.t;
              e1rm_trend : list E1RMPoint.t }.

Definition to_value (a : t) : value :=
  VObj [("sessions", VNum a.(sessions)); ("fatigue_mean", VNum a.(fatigue_mean));
        ("stimulus_mean", VNum a.(stimulus_mean)); ("readiness_mean", VNum a.(readiness_mean));
        ("weekly_volume", VArr (WeeklyVolumePoint.to_value <$> a.(weekly_volume)));
        ("e1rm_trend", VArr (E1RMPoint.to_value <$> a.(e1rm_trend)))].
End AnalyticsResponse.
