(* ===== verification/Wire.v ===== *)
(** * The request bodies on the wire

    The write operations send [JSON.stringify] of a record of [types.ts]
    ([client.ts:42-44]).  This file shows which records survive the trip:
    a record whose numbers are finite and in canonical form is a JSON
    value ([Json.json_value]), so the text sent parses back to the
    record's object and the schema check [of_value] reads the record back.
    A NaN or an infinity is sent as [null] ([Json.nullify]), and the
    schema check then refuses the record. *)

From S2P Require Import Prelude JsNum JsValue Json Schema.

(** A number that [JSON.stringify] writes as itself. *)
Definition json_number (x : number) : Prop := canonical x ∧ is_finite x = true.

Lemma json_numbers l :
  Forall canonical l → Forall (λ x, is_finite x = true) l → Forall json_number l.
Proof. intros Hc Hf. apply Forall_and. by split. Qed.

Lemma json_value_num x : json_number x → json_value (VNum x) = true.
Proof. intros [Hc Hf]. simpl. by rewrite bool_decide_true, Hf. Qed.

Lemma json_value_str s : json_value (VStr s) = true.
Proof. done. Qed.

(** An object literal of the code: distinct keys, JSON values. *)
Lemma json_value_literal ps :
  NoDup ps.*1 → Forall (λ kv, json_value kv.2 = true) ps → json_value (VObj ps) = true.
Proof. intros Hnd Hps. by apply json_value_obj. Qed.

Ltac json_fields :=
  repeat (apply Forall_cons_2; [first [apply json_value_str | apply json_value_num; done | idtac]|]);
  try apply Forall_nil_2.

Lemma json_exercise_log x :
  Forall json_number (ExerciseLog.numbers x) → json_value (ExerciseLog.to_value x) = true.
Proof.
  destruct x. unfold ExerciseLog.numbers, ExerciseLog.to_value. cbn -[json_value]. intros Hx.
  repeat (apply Forall_cons_1 in Hx as [? Hx]).
  apply json_value_literal; [repeat constructor; set_solver|]. json_fields.
Qed.

Lemma json_session_metrics m :
  Forall json_number (SessionMetrics.numbers m) → json_value (SessionMetrics.to_value m) = true.
Proof.
  destruct m. unfold SessionMetrics.numbers, SessionMetrics.to_value, SessionMetrics.to_props.
  cbn -[json_value]. intros Hm.
  repeat (apply Forall_cons_1 in Hm as [? Hm]).
  apply json_value_literal; [repeat constructor; set_solver|]. json_fields.
Qed.

Lemma json_session_input x :
  Forall json_number (SessionInput.numbers x) → json_value (SessionInput.to_value x) = true.
Proof.
  destruct x as [u m es]. unfold SessionInput.numbers. cbn [SessionInput.user_id
    SessionInput.metrics SessionInput.exercises]. intros Hx.
  apply Forall_cons_1 in Hx as [Hu Hx]. apply Forall_app in Hx as [Hm Hes].
  unfold SessionInput.to_value. cbn -[json_value].
  apply json_value_literal; [repeat constructor; set_solver|].
  repeat apply Forall_cons_2; try apply Forall_nil_2; cbn -[json_value].
  - by apply json_value_num.
  - by apply json_session_metrics.
  - assert (Hrows : Forall (λ row, Forall json_number (ExerciseLog.numbers row)) es).
    { clear Hu Hm. induction es as [|r es IH]; [constructor|].
      change (mjoin (ExerciseLog.numbers <$> r :: es))
        with (ExerciseLog.numbers r ++ mjoin (ExerciseLog.numbers <$> es)) in Hes.
      apply Forall_app in Hes as [? ?]. constructor; auto. }
    apply json_value_arr, Forall_fmap. eapply Forall_impl; [exact Hrows|].
    intros row Hr. by apply json_exercise_log.
Qed.

(** The server's reading of a body: [JSON.parse], then the schema check. *)
Definition read_body {A} (of_value : value → option A) (t : string) : option A :=
  match parse t with Ok v => of_value v | Throw _ => None end.

(** A session whose numbers are JSON numbers is read back exactly. *)
Lemma session_input_wire x :
  Forall json_number (SessionInput.numbers x) →
  ∃ t, stringify (SessionInput.to_value x) = Some t ∧ read_body SessionInput.of_value t = Some x.
Proof.
  intros Hx. destruct (parse_stringify _ (json_session_input x Hx)) as (t & Ht & Hp).
  exists t. split; [done|]. unfold read_body. rewrite Hp. apply SessionInput.session_input_of_to.
Qed.

Lemma json_daily_metrics_update x :
  Forall json_number (DailyMetricsUpdate.numbers x) → json_value (DailyMetricsUpdate.to_value x) = true.
Proof.
  destruct x as [u m]. unfold DailyMetricsUpdate.numbers. cbn [DailyMetricsUpdate.user_id
    DailyMetricsUpdate.metrics]. intros Hx. apply Forall_cons_1 in Hx as [Hu Hm].
  unfold DailyMetricsUpdate.to_value. cbn -[json_value].
  apply json_value_literal; [repeat constructor; set_solver|].
  repeat apply Forall_cons_2; try apply Forall_nil_2; cbn -[json_value].
  - by apply json_value_num.
  - by apply json_session_metrics.
Qed.

(** A daily metrics update whose numbers are JSON numbers is read back exactly. *)
Lemma daily_metrics_update_wire x :
  Forall json_number (DailyMetricsUpdate.numbers x) →
  ∃ t, stringify (DailyMetricsUpdate.to_value x) = Some t ∧
       read_body DailyMetricsUpdate.of_value t = Some x.
Proof.
  intros Hx. destruct (parse_stringify _ (json_daily_metrics_update x Hx)) as (t & Ht & Hp).
  exists t. split; [done|]. unfold read_body. rewrite Hp. apply DailyMetricsUpdate.daily_metrics_update_of_to.
Qed.

(** ** A record with a number that is not finite

    [JSON.stringify] sends NaN and the infinities as [null]; the server's
    schema check then refuses the body. *)

Lemma forallb_mjoin {A B} (f : B → bool) (g : A → list B) (xs : list A) :
  forallb f (mjoin (g <$> xs)) = forallb (λ x, forallb f (g x)) xs.
Proof.
  induction xs as [|x xs IH]; [done|].
  change (mjoin (g <$> x :: xs)) with (g x ++ mjoin (g <$> xs)). by rewrite forallb_app, IH.
Qed.

Lemma forallb_exists_false {A} (f : A → bool) l : Exists (λ x, f x = false) l → forallb f l = false.
Proof. induction 1 as [x l Hx|x l _ IH]; simpl; [by rewrite Hx|by rewrite IH, andb_false_r]. Qed.

Ltac destruct_finite :=
  repeat match goal with |- context [is_finite ?y] => destruct (is_finite y) end.

Lemma json_nullify_exercise_log r :
  Forall canonical (ExerciseLog.numbers r) → json_value (nullify (ExerciseLog.to_value r)) = true.
Proof.
  destruct r. unfold ExerciseLog.numbers, ExerciseLog.to_value. cbn [nullify fmap list_fmap fst snd].
  intros Hr. repeat (apply Forall_cons_1 in Hr as [? Hr]).
  apply json_value_literal; [repeat constructor; set_solver|].
  repeat (apply Forall_cons_2; [first [apply json_value_str | by apply json_value_nullify_num]|]).
  apply Forall_nil_2.
Qed.

Lemma json_nullify_session_metrics m :
  Forall canonical (SessionMetrics.numbers m) → json_value (nullify (SessionMetrics.to_value m)) = true.
Proof.
  destruct m. unfold SessionMetrics.numbers, SessionMetrics.to_value, SessionMetrics.to_props.
  cbn [nullify fmap list_fmap fst snd]. intros Hm. repeat (apply Forall_cons_1 in Hm as [? Hm]).
  apply json_value_literal; [repeat constructor; set_solver|].
  repeat (apply Forall_cons_2; [first [apply json_value_str | by apply json_value_nullify_num]|]).
  apply Forall_nil_2.
Qed.

Lemma json_nullify_session_input x :
  Forall canonical (SessionInput.numbers x) → json_value (nullify (SessionInput.to_value x)) = true.
Proof.
  destruct x as [u m es]. unfold SessionInput.numbers. cbn [SessionInput.user_id
    SessionInput.metrics SessionInput.exercises]. intros Hx.
  apply Forall_cons_1 in Hx as [Hu Hx]. apply Forall_app in Hx as [Hm Hes].
  unfold SessionInput.to_value. cbn [nullify fmap list_fmap fst snd].
  apply json_value_literal; [repeat constructor; set_solver|].
  apply Forall_cons_2; [by apply json_value_nullify_num|].
  apply Forall_cons_2; [by apply json_nullify_session_metrics|].
  apply Forall_cons_2; [|apply Forall_nil_2]. cbn [snd].
  apply json_value_arr. rewrite <- list_fmap_compose. apply Forall_fmap.
  induction es as [|r es IH]; [constructor|].
  change (mjoin (ExerciseLog.numbers <$> r :: es))
    with (ExerciseLog.numbers r ++ mjoin (ExerciseLog.numbers <$> es)) in Hes.
  apply Forall_app in Hes as [? ?]. constructor; [by apply json_nullify_exercise_log|auto].
Qed.

Lemma exercise_log_of_nullify r :
  ExerciseLog.of_value (nullify (ExerciseLog.to_value r))
  = if forallb is_finite (ExerciseLog.numbers r) then Some r else None.
Proof.
  destruct r. unfold ExerciseLog.to_value, ExerciseLog.numbers.
  cbn [nullify fmap list_fmap fst snd forallb]. destruct_finite; reflexivity.
Qed.

Lemma session_metrics_of_nullify m :
  SessionMetrics.of_value (nullify (SessionMetrics.to_value m))
  = if forallb is_finite (SessionMetrics.numbers m) then Some m else None.
Proof.
  destruct m. unfold SessionMetrics.to_value, SessionMetrics.to_props, SessionMetrics.numbers.
  cbn [nullify fmap list_fmap fst snd forallb]. destruct_finite; reflexivity.
Qed.

Lemma rows_of_nullify es :
  mapM ExerciseLog.of_value (nullify <$> (ExerciseLog.to_value <$> es))
  = if forallb (λ r, forallb is_finite (ExerciseLog.numbers r)) es then Some es else None.
Proof.
  induction es as [|r es IH]; [done|]. cbn [fmap list_fmap mapM forallb].
  rewrite exercise_log_of_nullify, IH.
  destruct (forallb is_finite (ExerciseLog.numbers r)), (forallb _ es); reflexivity.
Qed.

(** The schema check reads the printed session back exactly when all its
    numbers are finite, and refuses it otherwise. *)
Lemma session_input_of_nullify x :
  SessionInput.of_value (nullify (SessionInput.to_value x))
  = if forallb is_finite (SessionInput.numbers x) then Some x else None.
Proof.
  destruct x as [u m es].
  transitivity ((if is_finite u then Some u else None) ≫= λ u',
    SessionMetrics.of_value (nullify (SessionMetrics.to_value m)) ≫= λ m',
    mapM ExerciseLog.of_value (nullify <$> (ExerciseLog.to_value <$> es)) ≫= λ es',
    Some {| SessionInput.user_id := u'; SessionInput.metrics := m'; SessionInput.exercises := es' |}).
  { unfold SessionInput.to_value. cbn [nullify fmap list_fmap fst snd SessionInput.user_id
      SessionInput.metrics SessionInput.exercises].
    destruct (is_finite u); reflexivity. }
  rewrite session_metrics_of_nullify, rows_of_nullify.
  unfold SessionInput.numbers. cbn [SessionInput.user_id SessionInput.metrics SessionInput.exercises forallb].
  rewrite forallb_app, forallb_mjoin.
  destruct (is_finite u), (forallb is_finite _), (forallb _ es); reflexivity.
Qed.

(** A session with a number that is not finite is sent as a text that
    [JSON.parse] reads with [null] in its place, which the schema refuses. *)
Lemma session_input_wire_rejected x :
  Forall canonical (SessionInput.numbers x) →
  Exists (λ y, is_finite y = false) (SessionInput.numbers x) →
  ∃ t, stringify (SessionInput.to_value x) = Some t ∧ read_body SessionInput.of_value t = None.
Proof.
  intros Hc Hn. destruct (parse_stringify_nullify _ (json_nullify_session_input x Hc)) as (t & Ht & Hp).
  exists t. split; [done|]. unfold read_body. rewrite Hp, session_input_of_nullify.
  by rewrite forallb_exists_false.
Qed.
