(* ===== verification/Client.v ===== *)
(** * The API client, [api/client.ts]

    [request(path, init)] is split at its first [await]:
    - [fetch_args path init] is what it passes to [fetch] (lines 21-24):
      the URL [/api + path] and the init object
      [{ headers: { "Content-Type": ..., ...(init?.headers ?? {}) }, ...init }];
    - [handle_response] is the rest (lines 26-37), run on what [fetch]
      settles with: a network failure rejects [fetch] itself with a
      TypeError; a response that is not [ok] becomes an [ApiError]
      carrying the status and the body's [detail] (the status text when the
      body is not JSON, is [null], or has no [detail]); an [ok] response
      resolves to the parsed body, unchecked.
    The seven methods of [api] (lines 40-48) are the [fetch] arguments they
    build; they all share [handle_response], since the type argument of
    [request] is a cast. *)

From S2P Require Import Prelude JsNum JsValue Json Uri.

(** The members of a [RequestInit] the code passes: present or absent. *)
Record RequestInit := {
  ri_method : option string;
  ri_headers : option (list (string * string));
  ri_body : option string
}.

(** The arguments of one [fetch] call. *)
Record FetchCall := {
  url : string;
  method : string;
  headers : list (string * string);
  body : option string
}.

Definition json_content_type : string * string := ("Content-Type", "application/json").

(** [{ "Content-Type": "application/json", ...extra }] *)
Definition merge_headers (extra : list (string * string)) : list (string * string) :=
  spread [json_content_type] extra.

(** Lines 21-24.  The spread [...init] comes after [headers], so a
    [headers] member of [init] replaces the merged object. *)
Definition fetch_args (path : string) (init : option RequestInit) : FetchCall :=
  let merged := merge_headers (default [] (init ≫= ri_headers)) in
  {| url := "/api" +:+ path;
     method := default "GET" (init ≫= ri_method);
     headers := default merged (init ≫= ri_headers);
     body := init ≫= ri_body |}.

(** What [fetch] settles with. *)
Record Response := {
  status : Z;
  statusText : string;
  text : string
}.

Definition ok (r : Response) : bool := bool_decide (200 ≤ status r ≤ 299)%Z.

Inductive fetch_result :=
  | NetworkError
  | Responded (r : Response).

(** Lines 27-33: the [detail] the error carries. *)
Definition error_detail (r : Response) : value :=
  match parse (text r) with
  | Ok body =>
      match get_prop body "detail" with
      | Ok d => nullish d (VStr (statusText r))
      | Throw _ => VStr (statusText r)
      end
  | Throw _ => VStr (statusText r)
  end.

(** Lines 26-37.  [new ApiError(status, detail)] stores [String(detail)]
    as its message ([super(message)], line 15). *)
Definition handle_response (fr : fetch_result) : js value :=
  match fr with
  | NetworkError => Throw ETypeError
  | Responded r =>
      if ok r then parse (text r)
      else Throw (EApiError (of_Z (status r)) (to_str (error_detail r)))
  end.

(** ** The operations of [api] (lines 40-48) *)

Definition get_init : option RequestInit := None.

Definition write_init (m : string) (payload : value) : option RequestInit :=
  Some {| ri_method := Some m; ri_headers := None; ri_body := stringify payload |}.

Definition getProfile : FetchCall := fetch_args "/profile" get_init.

Definition updateProfile (payload : value) : FetchCall :=
  fetch_args "/profile" (write_init "PUT" payload).

Definition logSession (payload : value) : FetchCall :=
  fetch_args "/log-session" (write_init "POST" payload).

Definition updateMetrics (payload : value) : FetchCall :=
  fetch_args "/update-metrics" (write_init "POST" payload).

Definition getNextWorkout (userId : number) : FetchCall :=
  fetch_args ("/next-workout?user_id=" +:+ to_string userId) get_init.

Definition getAnalytics (userId : number) (exercise : string) : FetchCall :=
  fetch_args ("/analytics?user_id=" +:+ to_string userId +:+ "&exercise="
              +:+ encodeURIComponent exercise) get_init.

Definition getDashboard (userId : number) : FetchCall :=
  fetch_args ("/dashboard?user_id=" +:+ to_string userId) get_init.

(** ** Theorems *)

Lemma ok_false_iff r : ok r = false ↔ ¬ (200 ≤ status r ≤ 299)%Z.
Proof. unfold ok. by rewrite bool_decide_eq_false. Qed.

(** C1: a non-2xx response whose body is a JSON object with a string
    [detail] is rejected with an [ApiError] whose message is exactly that
    [detail], and whose status is the response's. *)
Theorem request_error_detail r ps d :
  ok r = false →
  parse (text r) = Ok (VObj ps) →
  assoc_get "detail" ps = Some (VStr d) →
  handle_response (Responded r) = Throw (EApiError (of_Z (status r)) d).
Proof. intros Hok Hp Hd. simpl. rewrite Hok. unfold error_detail. by rewrite Hp; simpl; rewrite Hd. Qed.

(** The URL of [getAnalytics], as a list of characters. *)
Lemma getAnalytics_url_chars u e :
  String.list_ascii_of_string (url (getAnalytics u e)) =
  String.list_ascii_of_string "/api/analytics" ++ qmark ::
    (String.list_ascii_of_string "user_id" ++ eq_sign :: to_chars u) ++ amp ::
    (String.list_ascii_of_string "exercise" ++ eq_sign :: String.list_ascii_of_string (encodeURIComponent e)).
Proof.
  unfold getAnalytics, fetch_args, to_string. cbn [url]. rewrite !list_ascii_of_string_app.
  rewrite String.list_ascii_of_string_of_list_ascii. simpl. by rewrite <- ?app_assoc.
Qed.

(** C28: JSON carries every JSON value unchanged in both directions: the
    body a write operation sends, [JSON.stringify(payload)], parses back
    to the payload, and a 2xx response with that text resolves to it
    ([response.json()], line 37). *)
Theorem json_transport path m payload r :
  json_value payload = true →
  ∃ t, body (fetch_args path (write_init m payload)) = Some t ∧ parse t = Ok payload ∧
       (ok r = true → text r = t → handle_response (Responded r) = Ok payload).
Proof.
  intros Hj. destruct (parse_stringify payload Hj) as (t & Ht & Hp).
  exists t. split_and!; [by simpl; rewrite Ht|done|]. intros Hok <-. simpl. by rewrite Hok.
Qed.

(** C24: the query string of [getAnalytics] carries exactly two
    parameters whatever the exercise name holds: read the way the server
    reads a query (split on [&], then at the first [=], [+] as a space,
    percent escapes decoded), it gives [user_id] with the user's number
    and [exercise] with the name as typed, so a name with [&], [=], [+],
    [%] or spaces neither injects a parameter nor changes on the way.  The
    one hypothesis excludes user ids printed with an exponent sign
    ([1e+21] and above). *)
Theorem getAnalytics_query u e :
  plus_sign ∉ to_chars u →
  query_params (url (getAnalytics u e)) = Some [("user_id", to_string u); ("exercise", e)].
Proof.
  intros Hu. unfold query_params. rewrite getAnalytics_url_chars.
  rewrite break_at_sep by not_in_lit.
  rewrite split_on_sep by (rewrite elem_of_app, elem_of_cons;
    intros [Hin|[Hin|Hin]]; [by revert Hin; not_in_lit|done|
                              by apply (to_chars_not_delim u amp); [set_solver|]]).
  rewrite split_on_none by (rewrite elem_of_app, elem_of_cons;
    intros [Hin|[Hin|Hin]]; [by revert Hin; not_in_lit|done|
                              by apply (encode_not_delim e amp); [set_solver|]]).
  cbn [filter list_filter]. rewrite !decide_True by (intros Hnil; discriminate Hnil).
  cbn [mapM]. unfold parse_param at 1 2.
  rewrite !break_at_sep by not_in_lit.
  cbn [default id]. rewrite form_decode_encode, (form_decode_plain (to_chars u)); [reflexivity|exact Hu|].
  apply (to_chars_not_delim u (Ascii.ascii_of_nat 37)). set_solver.
Qed.

(** ** Witnesses *)

(** A 404 whose body is [{"detail":"no data"}] (the text is written with
    [stringify], since the body holds quotes). *)
Definition no_data_body : value := VObj [("detail", VStr "no data")].

Definition no_data_response : Response :=
  {| status := 404; statusText := "Not Found"; text := default "" (stringify no_data_body) |}.

Lemma request_error_detail_witness :
  handle_response (Responded no_data_response) = Throw (EApiError (of_Z 404) "no data").
Proof.
  refine (request_error_detail no_data_response [("detail", VStr "no data")] "no data" _ _ _);
    vm_compute; reflexivity.
Defined.

(** An exercise name with a query delimiter, a plus sign and spaces. *)
Lemma getAnalytics_query_witness :
  query_params (url (getAnalytics (of_Z 1) "Bench & Press=1+1"))
  = Some [("user_id", "1"); ("exercise", "Bench & Press=1+1")].
Proof. apply (getAnalytics_query (of_Z 1) "Bench & Press=1+1"). vm_compute. set_solver. Defined.
(** A profile update travels unchanged. *)
Definition profile_payload : value :=
  VObj [("age", VNum (of_Z 31)); ("bodyweight_kg", VNum (Number "81.5")); ("goal", VStr "strength")].

Lemma json_transport_witness :
  ∃ t, body (fetch_args "/profile" (write_init "PUT" profile_payload)) = Some t ∧
       parse t = Ok profile_payload ∧
       (ok no_data_response = true → text no_data_response = t →
        handle_response (Responded no_data_response) = Ok profile_payload).
Proof. apply json_transport. vm_compute. reflexivity. Defined.
