(* ===== verification/Page.v ===== *)
(** * The page controllers' event loop

    Every page of [src/web/src/pages] is a React component: state in
    [useState] hooks, handlers that update it and may call the API, and
    continuations ([.then], [.catch], the code after [await]) that run
    when a call settles.  A [PageSpec] is that description of one page:
    - [init]: the state of the first render;
    - [mount]: the API calls its [useEffect(..., [])] issues on mount;
    - [enabled s a]: the control of user action [a] is rendered in state
      [s] (the user can only act on what is on screen);
    - [act s a]: the handler's new state and the calls it issues;
    - [settle t r s]: the continuation of a call of kind [t] on its
      outcome [r] ([handle_response] of what [fetch] gave).

    [config] adds the calls in flight, in issue order.  A step is a user
    action on a rendered control, or the settling of any call in flight
    with any response: the network may answer in any order, which is the
    interleaving the pages do not guard against.  [exec] is the step as a
    function of an [event], [step] the relation, and [run] a sequence of
    events; a config is [reachable] from the mounted page. *)

From S2P Require Import Prelude JsValue Client.

Record PageSpec := {
  St : Type;
  Act : Type;
  Tag : Type;
  init : St;
  mount : list (Tag * FetchCall);
  enabled : St → Act → bool;
  act : St → Act → St * list (Tag * FetchCall);
  settle : Tag → js value → St → St
}.

Section Runtime.
Context (P : PageSpec).

Record config := { cur : St P; pending : list (Tag P * FetchCall) }.

Definition start : config := {| cur := init P; pending := mount P |}.

Inductive event :=
  | User (a : Act P)
  | Settle (i : nat) (fr : fetch_result).

Definition exec (c : config) (e : event) : option config :=
  match e with
  | User a =>
      if enabled P (cur c) a then
        let '(s', calls) := act P (cur c) a in
        Some {| cur := s'; pending := pending c ++ calls |}
      else None
  | Settle i fr =>
      '(t, _) ← pending c !! i;
      Some {| cur := settle P t (handle_response fr) (cur c);
              pending := delete i (pending c) |}
  end.

Inductive step : config → config → Prop :=
  | step_user c a s' calls :
      enabled P (cur c) a = true →
      act P (cur c) a = (s', calls) →
      step c {| cur := s'; pending := pending c ++ calls |}
  | step_settle c i t call fr :
      pending c !! i = Some (t, call) →
      step c {| cur := settle P t (handle_response fr) (cur c);
                pending := delete i (pending c) |}.

Lemma exec_step c e c' : exec c e = Some c' → step c c'.
Proof.
  destruct e as [a|i fr]; simpl.
  - destruct (enabled P (cur c) a) eqn:He; [|done].
    destruct (act P (cur c) a) as [s' calls] eqn:Ha. intros [= <-]. by econstructor.
  - destruct (pending c !! i) as [[t call]|] eqn:Hi; simpl; [|done].
    intros [= <-]. by econstructor.
Qed.

Lemma step_exec c c' : step c c' → ∃ e, exec c e = Some c'.
Proof.
  intros [c0 a s' calls He Ha|c0 i t call fr Hi].
  - exists (User a). simpl. by rewrite He, Ha.
  - exists (Settle i fr). simpl. by rewrite Hi.
Qed.

Fixpoint run (c : config) (es : list event) : option config :=
  match es with
  | [] => Some c
  | e :: es' => c' ← exec c e; run c' es'
  end.

Inductive reachable : config → Prop :=
  | reach_start : reachable start
  | reach_step c c' : reachable c → step c c' → reachable c'.

Lemma run_reachable c es c' : reachable c → run c es = Some c' → reachable c'.
Proof.
  revert c. induction es as [|e es IH]; simpl; intros c Hc Hrun; [by simplify_eq|].
  destruct (exec c e) as [c1|] eqn:He; [|done].
  eapply IH; [|done]. eapply reach_step; [done|]. by eapply exec_step.
Qed.

(** An invariant of the state that holds initially and is kept by every
    handler and every continuation holds in every reachable config. *)
Lemma reachable_invariant (I : St P → Prop) :
  I (init P) →
  (∀ s a, enabled P s a = true → I s → I (act P s a).1) →
  (∀ s t r, I s → I (settle P t r s)) →
  ∀ c, reachable c → I (cur c).
Proof.
  intros Hinit Hact Hsettle c Hc. induction Hc as [|c c' Hc IH Hs]; [done|].
  destruct Hs as [c0 a s' calls He Ha|c0 i t call fr Hi]; simpl; [|by apply Hsettle].
  specialize (Hact _ _ He IH). by rewrite Ha in Hact.
Qed.
End Runtime.

Arguments start {P}.
Arguments User {P} & a.
Arguments Settle {P} & i fr.
