(* ===== verification/Forms.v ===== *)
(** * The draft forms of the log-session and metrics pages

    The metrics draft of [LogSessionPage.tsx] and [MetricsPage.tsx] is a
    JavaScript object edited generically: the form has one input per entry
    of [Object.entries(metrics)] (typed [date] for the key [date], [number]
    otherwise), and an edit of key [k] with raw text [raw] writes
    [{ ...prev, [k]: k === "date" ? raw : Number(raw) }]
    ([LogSessionPage.tsx:48-59], [MetricsPage.tsx:34-45]).  The typed view
    of that edit is [set_metric] on [SessionMetrics.t]; [edit_metric_refines]
    shows the generic edit implements it on every field.

    The exercise rows of [LogSessionPage.tsx] are typed records; an edit
    of row [index] applies [{ ...row, ...patch }] through
    [prev.map((row, i) => i === index ? ... : row)] (lines 29-31, 66-70),
    and "Add Exercise" appends a default row (line 73). *)

From S2P Require Import Prelude JsNum JsValue Schema.

(** ** The metrics form *)

(** [defaultMetrics()] ([LogSessionPage.tsx:8-20]) and the initial state
    of [MetricsPage.tsx:9-18]: [today] is [new Date().toISOString().slice(0, 10)]. *)
Definition defaultMetrics (today : string) : SessionMetrics.t :=
  {| SessionMetrics.date := today; SessionMetrics.sleep_hours := of_Z 7;
     SessionMetrics.resting_hr := of_Z 55; SessionMetrics.hrv_rmssd := of_Z 55;
     SessionMetrics.soreness := of_Z 3; SessionMetrics.motivation := of_Z 7;
     SessionMetrics.rpe_session := of_Z 7; SessionMetrics.duration_min := of_Z 60 |}.

(** One rendered input: its label (the key), its [type] and its value. *)
Record Input := { in_key : string; in_type : string; in_value : value }.

Definition input_type (key : string) : string :=
  if decide (key = "date") then "date" else "number".

Definition form_inputs (metrics : list (string * value)) : list Input :=
  (λ kv, {| in_key := kv.1; in_type := input_type kv.1; in_value := kv.2 |}) <$> metrics.

(** The value an edit stores: the raw text for [date], [Number(raw)] otherwise. *)
Definition coerce (key raw : string) : value :=
  if decide (key = "date") then VStr raw else VNum (Number raw).

Definition edit_metric (key raw : string) (prev : list (string * value)) : list (string * value) :=
  assoc_set key (coerce key raw) prev.

Definition metric_fields : list string :=
  ["date"; "sleep_hours"; "resting_hr"; "hrv_rmssd"; "soreness"; "motivation";
   "rpe_session"; "duration_min"].

(** The typed edit: field [key] of the record takes the coerced value. *)
Definition set_metric (m : SessionMetrics.t) (key raw : string) : SessionMetrics.t :=
  let x := Number raw in
  let '{| SessionMetrics.date := d; SessionMetrics.sleep_hours := a;
          SessionMetrics.resting_hr := b; SessionMetrics.hrv_rmssd := c;
          SessionMetrics.soreness := e; SessionMetrics.motivation := f;
          SessionMetrics.rpe_session := g; SessionMetrics.duration_min := h |} := m in
  let mk d a b c e f g h :=
    {| SessionMetrics.date := d; SessionMetrics.sleep_hours := a;
       SessionMetrics.resting_hr := b; SessionMetrics.hrv_rmssd := c;
       SessionMetrics.soreness := e; SessionMetrics.motivation := f;
       SessionMetrics.rpe_session := g; SessionMetrics.duration_min := h |} in
  if decide (key = "date") then mk raw a b c e f g h
  else if decide (key = "sleep_hours") then mk d x b c e f g h
  else if decide (key = "resting_hr") then mk d a x c e f g h
  else if decide (key = "hrv_rmssd") then mk d a b x e f g h
  else if decide (key = "soreness") then mk d a b c x f g h
  else if decide (key = "motivation") then mk d a b c e x g h
  else if decide (key = "rpe_session") then mk d a b c e f x h
  else if decide (key = "duration_min") then mk d a b c e f g x
  else m.

(** ** The exercise rows *)

Definition initialExercises : list ExerciseLog.t :=
  [{| ExerciseLog.exercise := "Squat"; ExerciseLog.sets := of_Z 4; ExerciseLog.reps := of_Z 5;
      ExerciseLog.load_kg := of_Z 100; ExerciseLog.rir := of_Z 2 |}].

Definition newExercise : ExerciseLog.t :=
  {| ExerciseLog.exercise := ""; ExerciseLog.sets := of_Z 3; ExerciseLog.reps := of_Z 8;
     ExerciseLog.load_kg := of_Z 40; ExerciseLog.rir := of_Z 2 |}.

(** The five inputs of a row, in the order of lines 66-70. *)
Inductive ExerciseField := FExercise | FSets | FReps | FLoad | FRir.

(** [{ ...row, ...patch }] with the one-property patch of the input. *)
Definition patch (f : ExerciseField) (raw : string) (row : ExerciseLog.t) : ExerciseLog.t :=
  let x := Number raw in
  let '{| ExerciseLog.exercise := e; ExerciseLog.sets := s; ExerciseLog.reps := r;
          ExerciseLog.load_kg := l; ExerciseLog.rir := q |} := row in
  let mk e s r l q :=
    {| ExerciseLog.exercise := e; ExerciseLog.sets := s; ExerciseLog.reps := r;
       ExerciseLog.load_kg := l; ExerciseLog.rir := q |} in
  match f with
  | FExercise => mk raw s r l q
  | FSets => mk e x r l q
  | FReps => mk e s x l q
  | FLoad => mk e s r x q
  | FRir => mk e s r l x
  end.

(** [updateExercise(index, patch)] *)
Definition updateExercise (index : nat) (f : ExerciseField) (raw : string)
    (prev : list ExerciseLog.t) : list ExerciseLog.t :=
  map_at index (patch f raw) prev.

Definition addExercise (prev : list ExerciseLog.t) : list ExerciseLog.t :=
  prev ++ [newExercise].

(** ** Theorems *)

(** The JavaScript object of a row and the one-property patch an input
    passes to [updateExercise]. *)
Definition ExerciseLog_props (row : ExerciseLog.t) : list (string * value) :=
  match ExerciseLog.to_value row with VObj ps => ps | _ => [] end.

Definition patch_props (f : ExerciseField) (raw : string) : list (string * value) :=
  match f with
  | FExercise => [("exercise", VStr raw)]
  | FSets => [("sets", VNum (Number raw))]
  | FReps => [("reps", VNum (Number raw))]
  | FLoad => [("load_kg", VNum (Number raw))]
  | FRir => [("rir", VNum (Number raw))]
  end.

(** The typed [patch] is the object spread [{ ...row, ...patch }]. *)
Lemma patch_spread f raw row :
  ExerciseLog.to_value (patch f raw row) = VObj (spread (ExerciseLog_props row) (patch_props f raw)).
Proof. by destruct row, f. Qed.

(** C2: editing row [index] of a list of rows leaves the length and every
    other row unchanged and applies the patch to row [index]; out of range
    it changes nothing. *)
Theorem updateExercise_only_row index f raw (prev : list ExerciseLog.t) :
  length (updateExercise index f raw prev) = length prev ∧
  updateExercise index f raw prev !! index = patch f raw <$> prev !! index ∧
  (∀ j, j ≠ index → updateExercise index f raw prev !! j = prev !! j).
Proof.
  unfold updateExercise. rewrite map_at_alter. split_and!.
  - apply length_alter.
  - apply list_lookup_alter_eq.
  - intros j Hj. by apply list_lookup_alter_ne.
Qed.

(** C3: "Add Exercise" appends exactly one row, the declared default, and
    keeps the rows before it. *)
Theorem addExercise_appends (prev : list ExerciseLog.t) :
  length (addExercise prev) = S (length prev) ∧
  addExercise prev !! length prev = Some newExercise ∧
  (∀ j, j < length prev → addExercise prev !! j = prev !! j).
Proof.
  unfold addExercise. split_and!.
  - rewrite length_app. simpl. lia.
  - apply lookup_snoc_length.
  - intros j Hj. by apply lookup_app_l.
Qed.

Lemma elem_of_metric_fields key :
  key ∈ metric_fields →
  key = "date" ∨ key = "sleep_hours" ∨ key = "resting_hr" ∨ key = "hrv_rmssd" ∨
  key = "soreness" ∨ key = "motivation" ∨ key = "rpe_session" ∨ key = "duration_min".
Proof. unfold metric_fields. rewrite !elem_of_cons, elem_of_nil. tauto. Qed.

Lemma edit_metric_set_metric m key raw :
  key ∈ metric_fields →
  edit_metric key raw (SessionMetrics.to_props m) = SessionMetrics.to_props (set_metric m key raw).
Proof.
  intros Hk. apply elem_of_metric_fields in Hk.
  destruct m; repeat destruct Hk as [->|Hk]; subst; reflexivity.
Qed.

(** C5: the generic edit of the draft object implements the typed edit:
    for every field, writing [{ ...prev, [key]: coerce(raw) }] into the
    object of [m] gives the object of [set_metric m key raw], so the draft
    keeps the schema's fields and order, [date] receives the raw string
    and every other field [Number(raw)]. *)
Theorem edit_metric_refines m key raw :
  key ∈ metric_fields →
  edit_metric key raw (SessionMetrics.to_props m) = SessionMetrics.to_props (set_metric m key raw).
Proof. apply edit_metric_set_metric. Qed.

(** The draft keeps the schema's shape under an edit of any rendered key. *)
Lemma edit_metric_shape m key raw :
  key ∈ (SessionMetrics.to_props m).*1 →
  edit_metric key raw (SessionMetrics.to_props m) = SessionMetrics.to_props (set_metric m key raw).
Proof. intros Hk. apply edit_metric_set_metric. by destruct m. Qed.

(** Every numeric field holds a number in canonical form, as [Number]
    and the literals of the code produce. *)
Definition metrics_canonical (m : SessionMetrics.t) : Prop :=
  Forall canonical (SessionMetrics.numbers m).

Lemma defaultMetrics_canonical today : metrics_canonical (defaultMetrics today).
Proof. repeat apply Forall_cons_2; [apply of_Z_canonical..|apply Forall_nil_2]. Qed.

(** The numbers of a metrics draft, in the order of its properties. *)
Definition metrics_numbers (ps : list (string * value)) : list number :=
  omap (λ kv, match kv.2 with VNum x => Some x | _ => None end) ps.

Lemma metrics_numbers_props m : metrics_numbers (SessionMetrics.to_props m) = SessionMetrics.numbers m.
Proof. by destruct m. Qed.

Lemma set_metric_canonical m key raw : metrics_canonical m → metrics_canonical (set_metric m key raw).
Proof.
  pose proof (Number_canonical raw) as Hx.
  destruct m. unfold metrics_canonical, SessionMetrics.numbers, set_metric. cbn -[Number].
  intros Hm. repeat (apply Forall_cons_1 in Hm as [? Hm]).
  repeat case_decide; repeat apply Forall_cons_2; try apply Forall_nil_2; done.
Qed.

(** Every row's numbers are in canonical form. *)
Definition rows_canonical (rows : list ExerciseLog.t) : Prop :=
  Forall (λ row, Forall canonical (ExerciseLog.numbers row)) rows.

Lemma initialExercises_canonical : rows_canonical initialExercises.
Proof. repeat apply Forall_cons_2; try apply Forall_nil_2; apply of_Z_canonical. Qed.

Lemma patch_canonical f raw row :
  Forall canonical (ExerciseLog.numbers row) → Forall canonical (ExerciseLog.numbers (patch f raw row)).
Proof.
  pose proof (Number_canonical raw) as Hx.
  destruct row, f; unfold ExerciseLog.numbers; cbn -[Number]; intros Hr;
    repeat (apply Forall_cons_1 in Hr as [? Hr]);
    repeat apply Forall_cons_2; try apply Forall_nil_2; done.
Qed.

Lemma updateExercise_canonical index f raw rows :
  rows_canonical rows → rows_canonical (updateExercise index f raw rows).
Proof.
  intros Hr. unfold updateExercise. rewrite map_at_alter.
  apply Forall_alter; [done|]. intros row _ Hrow. by apply patch_canonical.
Qed.

Lemma addExercise_canonical rows : rows_canonical rows → rows_canonical (addExercise rows).
Proof.
  intros Hr. apply Forall_app_2; [done|]. apply Forall_singleton.
  repeat apply Forall_cons_2; try apply Forall_nil_2; apply of_Z_canonical.
Qed.

(** What an input displays, [String(value)], read back by its [onChange],
    is the value it displays. *)
Lemma coerce_displayed m key v :
  metrics_canonical m → assoc_get key (SessionMetrics.to_props m) = Some v → coerce key (to_str v) = v.
Proof.
  destruct m. unfold metrics_canonical, SessionMetrics.numbers. cbn -[Number to_string].
  intros Hm Hget.
  repeat (apply Forall_cons_1 in Hm as [? Hm]).
  unfold coerce. repeat case_decide; simplify_eq; try done; cbn -[Number to_string];
    by rewrite Number_to_string.
Qed.

(** ** Witnesses *)

Lemma edit_metric_refines_witness :
  edit_metric "sleep_hours" "8.5" (SessionMetrics.to_props (defaultMetrics "2026-11-09"))
  = SessionMetrics.to_props (set_metric (defaultMetrics "2026-11-09") "sleep_hours" "8.5").
Proof. apply edit_metric_refines. unfold metric_fields. set_solver. Defined.
