(* ===== verification/LogSession.v ===== *)
(** * The log-session page, [pages/LogSessionPage.tsx]

    State (lines 23-27): the metrics draft (a JavaScript object, edited
    generically), the exercise rows, and the message.  Actions: edit a
    metric (line 56), edit a field of a row (lines 66-70), add a row
    (line 73), submit (lines 33-42).  Submit builds
    [{ user_id: USER_ID, metrics, exercises }] from the current draft and
    calls [api.logSession]; its continuation sets the message to
    [Session logged with ID ${response.session_id}] or, in the [catch], to
    the [ApiError]'s message or ["Failed to log session"].  Reading
    [response.session_id] on a [null] body throws inside the [try], so the
    [catch] handles it too.  Nothing is reset and nothing guards a second
    submit while the first is in flight. *)

From S2P Require Import Prelude JsNum JsValue Json Schema Wire Client Page Forms.

Module LogSessionPage.

Definition USER_ID : number := of_Z 1.

Record state := {
  metrics : list (string * value);
  exercises : list ExerciseLog.t;
  message : string
}.

Inductive action :=
  | EditMetric (key raw : string)
  | EditExercise (index : nat) (f : ExerciseField) (raw : string)
  | AddExercise
  | Submit.

(** The one kind of call: [api.logSession]. *)
Inductive tag := LogCall.

Definition initial (today : string) : state :=
  {| metrics := SessionMetrics.to_props (defaultMetrics today);
     exercises := initialExercises; message := "" |}.

(** [{ user_id: USER_ID, metrics, exercises }], line 35. *)
Definition payload (s : state) : value :=
  VObj [("user_id", VNum USER_ID); ("metrics", VObj (metrics s));
        ("exercises", VArr (ExerciseLog.to_value <$> exercises s))].

(** A control is on screen: a metric input for every key of the draft, a
    row of inputs for every row, the two buttons always. *)
Definition rendered (s : state) (a : action) : bool :=
  match a with
  | EditMetric key _ => bool_decide (key ∈ (metrics s).*1)
  | EditExercise index _ _ => bool_decide (index < length (exercises s))
  | AddExercise | Submit => true
  end.

Definition handle (s : state) (a : action) : state * list (tag * FetchCall) :=
  match a with
  | EditMetric key raw =>
      ({| metrics := edit_metric key raw (metrics s); exercises := exercises s;
          message := message s |}, [])
  | EditExercise index f raw =>
      ({| metrics := metrics s; exercises := updateExercise index f raw (exercises s);
          message := message s |}, [])
  | AddExercise =>
      ({| metrics := metrics s; exercises := addExercise (exercises s);
          message := message s |}, [])
  | Submit => (s, [(LogCall, logSession (payload s))])
  end.

(** Lines 37-41: the message once [await api.logSession] settles. *)
Definition submit_message (r : js value) : string :=
  match r ≫= λ response, get_prop response "session_id" with
  | Ok id => "Session logged with ID " +:+ to_str id
  | Throw e => api_error_message e "Failed to log session"
  end.

Definition continuation (t : tag) (r : js value) (s : state) : state :=
  {| metrics := metrics s; exercises := exercises s; message := submit_message r |}.

Definition page (today : string) : PageSpec :=
  {| St := state; Act := action; Tag := tag;
     init := initial today; mount := [];
     enabled := rendered; act := handle; settle := continuation |}.

(** ** Theorems *)

(** The draft invariant: the metrics draft is the object of a
    [SessionMetrics] record whose numbers are in canonical form, and so are
    the numbers of every row. *)
Lemma draft_invariant today c :
  reachable (page today) c →
  ∃ m, metrics (cur _ c) = SessionMetrics.to_props m ∧ metrics_canonical m ∧
       rows_canonical (exercises (cur _ c)).
Proof.
  apply (reachable_invariant (page today)
    (λ s, ∃ m, metrics s = SessionMetrics.to_props m ∧ metrics_canonical m ∧
               rows_canonical (exercises s))).
  - exists (defaultMetrics today).
    split_and!; [done|apply defaultMetrics_canonical|apply initialExercises_canonical].
  - intros s a Hen (m & Hm & Hc & Hr). destruct a as [key raw|index f raw| |]; simpl in *.
    + apply bool_decide_eq_true in Hen. rewrite Hm in Hen |- *.
      exists (set_metric m key raw).
      split_and!; [by apply edit_metric_shape|by apply set_metric_canonical|done].
    + exists m. split_and!; [done|done|by apply updateExercise_canonical].
    + exists m. split_and!; [done|done|by apply addExercise_canonical].
    + eauto.
  - intros s t r Hs. exact Hs.
Qed.

(** C6: in every reachable state the metrics draft is the object of some
    [SessionMetrics] record: the generic edits never add, drop or reorder a
    field, nor store a string in a numeric field. *)
Theorem metrics_draft_shape today c :
  reachable (page today) c → ∃ m, metrics (cur _ c) = SessionMetrics.to_props m.
Proof.
  apply (reachable_invariant (page today) (λ s, ∃ m, metrics s = SessionMetrics.to_props m)).
  - by exists (defaultMetrics today).
  - intros s a Hen [m Hm]. destruct a as [key raw| | |]; simpl in *; eauto.
    apply bool_decide_eq_true in Hen. rewrite Hm in Hen |- *.
    exists (set_metric m key raw). by apply edit_metric_shape.
  - intros s t r [m Hm]. by exists m.
Qed.

(** No step removes a row: an edit keeps the number of rows, "Add
    Exercise" adds one, and the continuation of a submit keeps them. *)
Lemma step_rows_length today (c c' : config (page today)) :
  step _ c c' → length (exercises (cur _ c)) ≤ length (exercises (cur _ c')).
Proof.
  destruct 1 as [c a s' calls _ Ha|c i t call fr _]; [|done].
  destruct a; simpl in Ha; simplify_eq/=; [done| |unfold addExercise; rewrite length_app; simpl; lia|done].
  unfold updateExercise. by rewrite map_at_alter, length_alter.
Qed.

(** C4: the page holds at least one exercise row in every reachable
    state (the one row it seeds, [LogSessionPage.tsx:24-26]), and no step
    ever removes a row: there is no way to delete a row, and submitting
    does not reset them. *)
Theorem rows_nonempty_grow today c :
  reachable (page today) c →
  exercises (cur _ c) ≠ [] ∧
  ∀ c', step _ c c' → length (exercises (cur _ c)) ≤ length (exercises (cur _ c')).
Proof.
  intros Hc. split; [|apply step_rows_length].
  induction Hc as [|c c' _ IH Hs]; [done|].
  apply step_rows_length in Hs. intros Hnil. rewrite Hnil in Hs. simpl in Hs.
  destruct (exercises (cur _ c)); [done|simpl in Hs; lia].
Qed.

(** The payload of a well-shaped draft is the [SessionInput] of the draft. *)
Lemma payload_session_input s m :
  metrics s = SessionMetrics.to_props m →
  payload s = SessionInput.to_value
    {| SessionInput.user_id := USER_ID; SessionInput.metrics := m;
       SessionInput.exercises := exercises s |}.
Proof. intros Hm. unfold payload. by rewrite Hm. Qed.

(** C7: in every reachable state, "Submit" issues exactly one call: a
    [POST] to [/api/log-session] with the JSON content type, whose body is
    [JSON.stringify] of the [SessionInput] made of [USER_ID], the metrics
    draft and the rows as they are at that moment, and it changes no
    state. *)
Theorem submit_call today c :
  reachable (page today) c →
  ∃ m, metrics (cur _ c) = SessionMetrics.to_props m ∧
    handle (cur _ c) Submit =
    (cur _ c, [(LogCall,
      {| url := "/api/log-session"; method := "POST"; headers := [json_content_type];
         body := stringify (SessionInput.to_value
           {| SessionInput.user_id := USER_ID; SessionInput.metrics := m;
              SessionInput.exercises := exercises (cur _ c) |}) |})]).
Proof.
  intros Hc. destruct (draft_invariant today c Hc) as (m & Hm & _ & _).
  exists m. split; [done|]. simpl. by rewrite <- (payload_session_input _ _ Hm).
Qed.

(** C8: the message once the call settles: on a 2xx response whose body
    is an object it is [Session logged with ID <session_id>]; on a 2xx
    response whose body is [null] or not JSON it is ["Failed to log
    session"] (the session was logged, but reading [session_id] or
    parsing threw inside the [try]); on a non-2xx response it is the
    [ApiError]'s message; on a network failure it is ["Failed to log
    session"].  The draft is left as it was in every case. *)
Theorem submit_settles r s :
  let s' := continuation LogCall (handle_response r) s in
  metrics s' = metrics s ∧ exercises s' = exercises s ∧
  match r with
  | NetworkError => message s' = "Failed to log session"
  | Responded resp =>
      if ok resp then
        match parse (text resp) with
        | Ok (VObj ps) =>
            message s' = "Session logged with ID " +:+ to_str (default VUndefined (assoc_get "session_id" ps))
        | Ok VUndefined | Ok VNull | Throw _ => message s' = "Failed to log session"
        | Ok _ => ∃ x, message s' = "Session logged with ID " +:+ x
        end
      else message s' = to_str (error_detail resp)
  end.
Proof.
  split_and!; [done|done|]. cbn [continuation message]. unfold submit_message.
  destruct r as [|resp]; [done|]. cbn [handle_response].
  destruct (ok resp); [|done].
  destruct (parse (text resp)) as [v|e] eqn:Hp; cbn [mbind js_bind];
    [|by apply parse_throw in Hp as ->].
  destruct (decide (v = VUndefined ∨ v = VNull)) as [Hn|Hn].
  { rewrite get_prop_nullish by done. by destruct Hn as [-> | ->]. }
  destruct (get_prop_ok v "session_id") as [x Hx]; [naive_solver|naive_solver|].
  rewrite Hx. destruct v; simpl in Hx; simplify_eq; naive_solver.
Qed.

(** C9: submissions are not guarded.  From any state, two submits in a
    row put two [logSession] calls in flight; when the second settles
    first, the message left on screen is the one of the first submission,
    whatever the second's outcome. *)
Theorem resubmit_reverse_order today (c : config (page today)) r1 r2 :
  (run (page today) c
     [@User (page today) Submit; @User (page today) Submit;
      @Settle (page today) (S (length (pending _ c))) r2;
      @Settle (page today) (length (pending _ c)) r1]
   ≫= λ c', Some (message (cur (page today) c'), length (pending _ c')))
  = Some (submit_message (handle_response r1), length (pending _ c)).
Proof.
  destruct c as [s calls].
  destruct (lookup_snoc2 (A := tag * FetchCall) calls (LogCall, logSession (payload s))
    (LogCall, logSession (payload s))) as (H1 & H2 & H3).
  cbn -[delete handle_response]. rewrite H2. cbn -[delete handle_response].
  rewrite H3, lookup_snoc_length. cbn -[delete handle_response].
  by rewrite delete_snoc.
Qed.

(** C27: typing back into a metric input the text it displays
    ([String(value)], the [value] attribute) leaves the draft unchanged in
    every reachable state: the date is stored as typed and
    [Number(String(x))] is [x] for every number the page stores. *)
Theorem redisplay_edit_noop today c key v :
  reachable (page today) c → assoc_get key (metrics (cur _ c)) = Some v →
  handle (cur _ c) (EditMetric key (to_str v)) = (cur _ c, []).
Proof.
  intros Hc Hget. destruct (draft_invariant today c Hc) as (m & Hm & Hcan & _).
  simpl. unfold edit_metric. rewrite Hm in Hget |- *.
  rewrite (coerce_displayed m key v Hcan Hget), assoc_set_get_id by done.
  rewrite <- Hm. by destruct (cur _ c).
Qed.

(** The numbers of the draft: the numeric metrics and the rows' numbers. *)
Definition draft_numbers (s : state) : list number :=
  metrics_numbers (metrics s) ++ mjoin (ExerciseLog.numbers <$> exercises s).

Lemma rows_numbers_forall P rows :
  Forall P (mjoin (ExerciseLog.numbers <$> rows)) ↔ Forall (λ row, Forall P (ExerciseLog.numbers row)) rows.
Proof.
  induction rows as [|r rows IH]; [split; constructor|].
  change (mjoin (ExerciseLog.numbers <$> r :: rows))
    with (ExerciseLog.numbers r ++ mjoin (ExerciseLog.numbers <$> rows)).
  by rewrite Forall_app, IH, Forall_cons.
Qed.

(** C29: what the server receives is the draft: in every reachable state
    whose numbers are finite, "Submit" POSTs a text that [JSON.parse] and
    the schema check of [SessionInput] read back as exactly the session
    made of [USER_ID], the metrics draft and the rows on screen. *)
Theorem submit_wire today c :
  reachable (page today) c → Forall (λ x, is_finite x = true) (draft_numbers (cur _ c)) →
  ∃ x t, handle (cur _ c) Submit = (cur _ c, [(LogCall, logSession (SessionInput.to_value x))]) ∧
    body (logSession (SessionInput.to_value x)) = Some t ∧
    read_body SessionInput.of_value t = Some x ∧
    SessionInput.user_id x = USER_ID ∧
    SessionMetrics.to_props (SessionInput.metrics x) = metrics (cur _ c) ∧
    SessionInput.exercises x = exercises (cur _ c).
Proof.
  intros Hc Hfin. destruct (draft_invariant today c Hc) as (m & Hm & Hcan & Hrows).
  set (x := {| SessionInput.user_id := USER_ID; SessionInput.metrics := m;
               SessionInput.exercises := exercises (cur _ c) |}).
  destruct (session_input_wire x) as (t & Ht & Hread).
  { unfold draft_numbers in Hfin. rewrite Hm, metrics_numbers_props in Hfin.
    apply Forall_app in Hfin as [Hfm Hfr].
    unfold SessionInput.numbers. cbn [SessionInput.user_id SessionInput.metrics SessionInput.exercises x].
    apply Forall_cons_2; [split; [apply of_Z_canonical|done]|].
    apply Forall_app_2; [by apply json_numbers|].
    apply rows_numbers_forall. apply rows_numbers_forall in Hfr.
    eapply Forall_impl; [apply Forall_and; split; [exact Hrows|exact Hfr]|].
    intros row [H1 H2]. by apply json_numbers. }
  exists x, t. split_and!; [|by simpl; rewrite Ht|done|done|done|done].
  cbn [handle]. unfold x. by rewrite <- (payload_session_input _ _ Hm).
Qed.

(** C10: a draft number that is not finite (a metric or row field whose
    text [Number()] reads as NaN) is sent all the same: "Submit" POSTs
    the draft, [JSON.stringify] writes [null] in place of the number, and
    the server's schema check refuses the body (the page then shows the
    [ApiError]'s message, C8). *)
Theorem submit_nonfinite_rejected today c :
  reachable (page today) c →
  Exists (λ y, is_finite y = false) (draft_numbers (cur _ c)) →
  ∃ t, handle (cur _ c) Submit = (cur _ c, [(LogCall, logSession (payload (cur _ c)))]) ∧
    body (logSession (payload (cur _ c))) = Some t ∧ read_body SessionInput.of_value t = None.
Proof.
  intros Hc Hn. destruct (draft_invariant today c Hc) as (m & Hm & Hcan & Hrows).
  rewrite (payload_session_input _ _ Hm).
  set (x := {| SessionInput.user_id := USER_ID; SessionInput.metrics := m;
               SessionInput.exercises := exercises (cur _ c) |}).
  destruct (session_input_wire_rejected x) as (t & Ht & Hread).
  - unfold SessionInput.numbers. cbn [SessionInput.user_id SessionInput.metrics SessionInput.exercises x].
    apply Forall_cons_2; [apply of_Z_canonical|]. apply Forall_app_2; [done|].
    by apply rows_numbers_forall.
  - unfold draft_numbers in Hn. rewrite Hm, metrics_numbers_props in Hn.
    unfold SessionInput.numbers. cbn [SessionInput.user_id SessionInput.metrics SessionInput.exercises x].
    by apply Exists_cons_tl.
  - exists t. split_and!; [|by simpl; rewrite Ht|done].
    cbn [handle]. by rewrite (payload_session_input _ _ Hm).
Qed.

(** ** Witnesses *)

Definition today0 : string := "2026-11-09".

Definition user (a : action) : event (page today0) := User a.

(** The page after editing the sleep metric and the load of the first row. *)
Definition edits0 : list (event (page today0)) :=
  [user (EditMetric "sleep_hours" "8"); user (EditExercise 0 FLoad "102.5")].

Definition edited0 : config (page today0) := default start (run (page today0) start edits0).

Lemma metrics_draft_shape_witness :
  ∃ m, metrics (cur _ edited0) = SessionMetrics.to_props m.
Proof.
  apply (metrics_draft_shape today0 edited0).
  apply (run_reachable _ start edits0); [apply reach_start|]. reflexivity.
Defined.

Lemma submit_call_witness :
  ∃ m, metrics (cur _ edited0) = SessionMetrics.to_props m ∧
    handle (cur _ edited0) Submit =
    (cur _ edited0, [(LogCall,
      {| url := "/api/log-session"; method := "POST"; headers := [json_content_type];
         body := stringify (SessionInput.to_value
           {| SessionInput.user_id := USER_ID; SessionInput.metrics := m;
              SessionInput.exercises := exercises (cur _ edited0) |}) |})]).
Proof.
  apply (submit_call today0 edited0).
  apply (run_reachable _ start edits0); [apply reach_start|]. reflexivity.
Defined.

Lemma rows_nonempty_grow_witness :
  exercises (cur _ edited0) ≠ [] ∧
  ∀ c', step _ edited0 c' → length (exercises (cur _ edited0)) ≤ length (exercises (cur _ c')).
Proof.
  apply (rows_nonempty_grow today0 edited0).
  apply (run_reachable _ start edits0); [apply reach_start|]. reflexivity.
Defined.

(** The sleep input was typed as ["7.50"]; it displays ["7.5"], and typing
    that back changes nothing. *)
Definition typed0 : config (page today0) :=
  default start (run (page today0) start [user (EditMetric "sleep_hours" "7.50")]).

Lemma redisplay_edit_noop_witness :
  handle (cur _ typed0) (EditMetric "sleep_hours" (to_str (VNum (Number "7.50")))) = (cur _ typed0, []).
Proof.
  apply (redisplay_edit_noop today0 typed0 "sleep_hours" (VNum (Number "7.50"))); [|reflexivity].
  apply (run_reachable _ start [user (EditMetric "sleep_hours" "7.50")]); [apply reach_start|].
  reflexivity.
Defined.

(** The body sent after the two edits is read back as the session of the draft. *)
Lemma submit_wire_witness :
  ∃ x t, body (logSession (SessionInput.to_value x)) = Some t ∧
    read_body SessionInput.of_value t = Some x ∧
    SessionInput.exercises x = exercises (cur _ edited0).
Proof.
  destruct (submit_wire today0 edited0) as (x & t & _ & Hb & Hr & _ & _ & He).
  - apply (run_reachable _ start edits0); [apply reach_start|]. reflexivity.
  - vm_compute. repeat constructor.
  - exists x, t. by split_and!.
Defined.

(** The soreness typed as [abc]: [Number] reads NaN. *)
Definition typed_nan : config (page today0) :=
  default start (run (page today0) start [user (EditMetric "soreness" "abc")]).

Lemma submit_nonfinite_rejected_witness :
  ∃ t, body (logSession (payload (cur _ typed_nan))) = Some t ∧
       read_body SessionInput.of_value t = None.
Proof.
  destruct (submit_nonfinite_rejected today0 typed_nan) as (t & _ & Hb & Hr).
  - apply (run_reachable _ start [user (EditMetric "soreness" "abc")]); [apply reach_start|].
    reflexivity.
  - apply (bool_decide_unpack _). vm_compute. exact I.
  - exists t. by split.
Defined.

End LogSessionPage.
