(* ===== verification/Metrics.v ===== *)
(** * The metrics page, [pages/MetricsPage.tsx]

    State (lines 9-19): the metrics draft, a JavaScript object edited
    generically like the log-session page's (lines 34-45), and the
    message.  Submit (lines 21-30) sends [{ user_id: USER_ID, metrics }]
    with [api.updateMetrics] and shows [${result.status} for
    ${result.date}], or the [ApiError]'s message, or ["Failed to update
    metrics"]. *)

From S2P Require Import Prelude JsNum JsValue Json Schema Wire Client Page Forms.

Module MetricsPage.

Definition USER_ID : number := of_Z 1.

Record state := {
  metrics : list (string * value);
  message : string
}.

Inductive action :=
  | EditMetric (key raw : string)
  | Submit.

Inductive tag := UpdateCall.

(** The literal of lines 9-18, with [today] the [toISOString().slice(0, 10)]
    of line 10. *)
Definition initialMetrics (today : string) : SessionMetrics.t :=
  {| SessionMetrics.date := today; SessionMetrics.sleep_hours := of_Z 7;
     SessionMetrics.resting_hr := of_Z 55; SessionMetrics.hrv_rmssd := of_Z 55;
     SessionMetrics.soreness := of_Z 3; SessionMetrics.motivation := of_Z 7;
     SessionMetrics.rpe_session := of_Z 7; SessionMetrics.duration_min := of_Z 60 |}.

Definition initial (today : string) : state :=
  {| metrics := SessionMetrics.to_props (initialMetrics today); message := "" |}.

(** [{ user_id: USER_ID, metrics }], line 23. *)
Definition payload (s : state) : value :=
  VObj [("user_id", VNum USER_ID); ("metrics", VObj (metrics s))].

Definition rendered (s : state) (a : action) : bool :=
  match a with
  | EditMetric key _ => bool_decide (key ∈ (metrics s).*1)
  | Submit => true
  end.

Definition handle (s : state) (a : action) : state * list (tag * FetchCall) :=
  match a with
  | EditMetric key raw => ({| metrics := edit_metric key raw (metrics s); message := message s |}, [])
  | Submit => (s, [(UpdateCall, updateMetrics (payload s))])
  end.

(** Lines 25-29. *)
Definition submit_message (r : js value) : string :=
  match r ≫= λ result, st ← get_prop result "status"; d ← get_prop result "date"; Ok (st, d) with
  | Ok (st, d) => to_str st +:+ " for " +:+ to_str d
  | Throw e => api_error_message e "Failed to update metrics"
  end.

Definition continuation (t : tag) (r : js value) (s : state) : state :=
  {| metrics := metrics s; message := submit_message r |}.

Definition page (today : string) : PageSpec :=
  {| St := state; Act := action; Tag := tag;
     init := initial today; mount := [];
     enabled := rendered; act := handle; settle := continuation |}.

(** ** Theorems *)

Lemma initialMetrics_canonical today : metrics_canonical (initialMetrics today).
Proof. repeat apply Forall_cons_2; [apply of_Z_canonical..|apply Forall_nil_2]. Qed.

(** The draft invariant: the draft is the object of a [SessionMetrics]
    record whose numbers are in canonical form. *)
Lemma metrics_draft_invariant today c :
  reachable (page today) c →
  ∃ m, metrics (cur _ c) = SessionMetrics.to_props m ∧ metrics_canonical m.
Proof.
  apply (reachable_invariant (page today)
    (λ s, ∃ m, metrics s = SessionMetrics.to_props m ∧ metrics_canonical m)).
  - exists (initialMetrics today). split; [done|apply initialMetrics_canonical].
  - intros s [key raw|] Hen (m & Hm & Hc); simpl in *; [|eauto].
    apply bool_decide_eq_true in Hen. rewrite Hm in Hen |- *.
    exists (set_metric m key raw). split; [by apply edit_metric_shape|by apply set_metric_canonical].
  - intros s t r Hs. exact Hs.
Qed.

(** C11: in every reachable state of the metrics page the draft is the
    object of a [SessionMetrics] record, and "Update Metrics" sends it as
    the [metrics] of a [DailyMetricsUpdate] with [USER_ID], by [POST] to
    [/api/update-metrics]. *)
Theorem metrics_submit_call today c :
  reachable (page today) c →
  ∃ m, metrics (cur _ c) = SessionMetrics.to_props m ∧
    handle (cur _ c) Submit =
    (cur _ c, [(UpdateCall,
      {| url := "/api/update-metrics"; method := "POST"; headers := [json_content_type];
         body := stringify (DailyMetricsUpdate.to_value
           {| DailyMetricsUpdate.user_id := USER_ID; DailyMetricsUpdate.metrics := m |}) |})]).
Proof.
  intros Hc. destruct (metrics_draft_invariant today c Hc) as (m & Hm & _).
  exists m. split; [done|]. simpl. unfold payload. by rewrite Hm.
Qed.

(** C12: the message once the call settles: [<status> for <date>] read
    from a 2xx object body, the [ApiError]'s message on a non-2xx
    response, ["Failed to update metrics"] on a network failure or a
    [null] or non-JSON 2xx body; the draft is kept. *)
Theorem metrics_submit_settles r s :
  let s' := continuation UpdateCall (handle_response r) s in
  metrics s' = metrics s ∧
  match r with
  | NetworkError => message s' = "Failed to update metrics"
  | Responded resp =>
      if ok resp then
        match parse (text resp) with
        | Ok (VObj ps) =>
            message s' = to_str (default VUndefined (assoc_get "status" ps)) +:+ " for "
                         +:+ to_str (default VUndefined (assoc_get "date" ps))
        | Ok VUndefined | Ok VNull | Throw _ => message s' = "Failed to update metrics"
        | Ok _ => ∃ x y, message s' = x +:+ " for " +:+ y
        end
      else message s' = to_str (error_detail resp)
  end.
Proof.
  simpl. split; [done|]. unfold submit_message.
  destruct r as [|resp]; [done|]. cbn [handle_response].
  destruct (ok resp); [|done].
  destruct (parse (text resp)) as [v|e] eqn:Hp; cbn [mbind js_bind];
    [|by apply parse_throw in Hp as ->].
  destruct (decide (v = VUndefined ∨ v = VNull)) as [Hn|Hn].
  { rewrite get_prop_nullish by done. by destruct Hn as [-> | ->]. }
  destruct (get_prop_ok v "status") as [x Hx]; [naive_solver|naive_solver|].
  destruct (get_prop_ok v "date") as [y Hy]; [naive_solver|naive_solver|].
  rewrite Hx, Hy. destruct v; simpl in Hx, Hy; simplify_eq; naive_solver.
Qed.

(** C30: what the server receives is the draft: in every reachable state
    whose numbers are finite, "Update Metrics" POSTs a text that
    [JSON.parse] and the schema check of [DailyMetricsUpdate] read back as
    exactly [USER_ID] and the metrics on screen. *)
Theorem metrics_submit_wire today c :
  reachable (page today) c → Forall (λ x, is_finite x = true) (metrics_numbers (metrics (cur _ c))) →
  ∃ x t, handle (cur _ c) Submit = (cur _ c, [(UpdateCall, updateMetrics (DailyMetricsUpdate.to_value x))]) ∧
    body (updateMetrics (DailyMetricsUpdate.to_value x)) = Some t ∧
    read_body DailyMetricsUpdate.of_value t = Some x ∧
    DailyMetricsUpdate.user_id x = USER_ID ∧
    SessionMetrics.to_props (DailyMetricsUpdate.metrics x) = metrics (cur _ c).
Proof.
  intros Hc Hfin. destruct (metrics_draft_invariant today c Hc) as (m & Hm & Hcan).
  rewrite Hm, metrics_numbers_props in Hfin.
  set (x := {| DailyMetricsUpdate.user_id := USER_ID; DailyMetricsUpdate.metrics := m |}).
  destruct (daily_metrics_update_wire x) as (t & Ht & Hread).
  { apply Forall_cons_2; [split; [apply of_Z_canonical|done]|by apply json_numbers]. }
  exists x, t. split_and!; [|by simpl; rewrite Ht|done|done|done].
  cbn [handle]. unfold payload, x. by rewrite Hm.
Qed.

(** ** Witnesses *)

Definition today0 : string := "2026-11-09".

Definition user (a : action) : event (page today0) := User a.

Definition edits0 : list (event (page today0)) :=
  [user (EditMetric "soreness" "5"); user (EditMetric "date" "2026-11-08")].

Definition edited0 : config (page today0) := default start (run (page today0) start edits0).

Lemma metrics_submit_call_witness :
  ∃ m, metrics (cur _ edited0) = SessionMetrics.to_props m ∧
    handle (cur _ edited0) Submit =
    (cur _ edited0, [(UpdateCall,
      {| url := "/api/update-metrics"; method := "POST"; headers := [json_content_type];
         body := stringify (DailyMetricsUpdate.to_value
           {| DailyMetricsUpdate.user_id := USER_ID; DailyMetricsUpdate.metrics := m |}) |})]).
Proof.
  apply (metrics_submit_call today0 edited0).
  apply (run_reachable _ start edits0); [apply reach_start|]. reflexivity.
Defined.

(** The body sent after the two edits is read back as the draft. *)
Lemma metrics_submit_wire_witness :
  ∃ x t, body (updateMetrics (DailyMetricsUpdate.to_value x)) = Some t ∧
    read_body DailyMetricsUpdate.of_value t = Some x ∧
    SessionMetrics.to_props (DailyMetricsUpdate.metrics x) = metrics (cur _ edited0).
Proof.
  destruct (metrics_submit_wire today0 edited0) as (x & t & _ & Hb & Hr & _ & He).
  - apply (run_reachable _ start edits0); [apply reach_start|]. reflexivity.
  - vm_compute. repeat constructor.
  - exists x, t. by split_and!.
Defined.

End MetricsPage.
