(* ===== verification/Profile.v ===== *)
(** * The profile page, [pages/ProfilePage.tsx]

    State (lines 15-16): the profile draft, initialised from the literal
    [initial] (lines 6-12), and the message.  On mount (lines 18-31) the
    page calls [api.getProfile]; its [.then] replaces the whole draft with
    the five fields read from the payload, and its [.catch] (which also
    receives a TypeError thrown by the [.then] callback) sets the message.
    Each input writes one field with [{ ...prev, field: value }] (lines
    47-63), [Number(raw)] except for [goal].  Submit (lines 33-41) sends the
    draft with [api.updateProfile] and shows ["Profile saved"], the
    [ApiError]'s message, or ["Failed to save profile"]. *)

From S2P Require Import Prelude JsNum JsValue Json Schema Client Page.

Module ProfilePage.

Record state := {
  profile : list (string * value);
  message : string
}.

(** The five inputs, in the order of the form. *)
Inductive field := Age | Bodyweight | TrainingAge | Goal | MrvBaseline.

Definition field_key (f : field) : string :=
  match f with
  | Age => "age" | Bodyweight => "bodyweight_kg" | TrainingAge => "training_age_years"
  | Goal => "goal" | MrvBaseline => "mrv_baseline_sets"
  end.

Definition profile_fields : list string :=
  ["age"; "bodyweight_kg"; "training_age_years"; "goal"; "mrv_baseline_sets"].

Inductive action :=
  | Edit (f : field) (raw : string)
  | Submit.

Inductive tag := LoadCall | SaveCall.

(** [initial], lines 6-12. *)
Definition initialProfile : ProfileUpdate.t :=
  {| ProfileUpdate.age := of_Z 30; ProfileUpdate.bodyweight_kg := of_Z 80;
     ProfileUpdate.training_age_years := of_Z 2; ProfileUpdate.goal := "hypertrophy";
     ProfileUpdate.mrv_baseline_sets := of_Z 14 |}.

Definition initial : state :=
  {| profile := match ProfileUpdate.to_value initialProfile with VObj ps => ps | _ => [] end;
     message := "" |}.

(** The [onChange] of each input, lines 47-63. *)
Definition edit (f : field) (raw : string) (prev : list (string * value)) : list (string * value) :=
  assoc_set (field_key f) (match f with Goal => VStr raw | _ => VNum (Number raw) end) prev.

Definition handle (s : state) (a : action) : state * list (tag * FetchCall) :=
  match a with
  | Edit f raw => ({| profile := edit f raw (profile s); message := message s |}, [])
  | Submit => (s, [(SaveCall, updateProfile (VObj (profile s)))])
  end.

(** The draft the [.then] of lines 21-29 builds from the payload. *)
Definition load_profile (payload : value) : js (list (string * value)) :=
  a ← get_prop payload "age"; b ← get_prop payload "bodyweight_kg";
  c ← get_prop payload "training_age_years"; g ← get_prop payload "goal";
  m ← get_prop payload "mrv_baseline_sets";
  Ok [("age", a); ("bodyweight_kg", b); ("training_age_years", c); ("goal", g);
      ("mrv_baseline_sets", m)].

Definition continuation (t : tag) (r : js value) (s : state) : state :=
  match t with
  | LoadCall =>
      match r ≫= load_profile with
      | Ok ps => {| profile := ps; message := message s |}
      | Throw e => {| profile := profile s; message := api_error_message e "Failed to load profile" |}
      end
  | SaveCall =>
      match r with
      | Ok _ => {| profile := profile s; message := "Profile saved" |}
      | Throw e => {| profile := profile s; message := api_error_message e "Failed to save profile" |}
      end
  end.

Definition page : PageSpec :=
  {| St := state; Act := action; Tag := tag;
     init := initial; mount := [(LoadCall, getProfile)];
     enabled := λ _ _, true; act := handle; settle := continuation |}.

(** ** Theorems *)

Lemma load_profile_keys v ps : load_profile v = Ok ps → ps.*1 = profile_fields.
Proof.
  unfold load_profile.
  repeat match goal with |- context [get_prop v ?k] => destruct (get_prop v k) end;
    by intros [= <-].
Qed.

Lemma edit_keys f raw ps : ps.*1 = profile_fields → (edit f raw ps).*1 = profile_fields.
Proof. intros H. unfold edit. rewrite assoc_set_keys; [done|]. rewrite H. destruct f; set_solver. Qed.

(** C13: in every reachable state the profile draft has exactly the five
    fields of [ProfileUpdate], in order, whatever the server sent and
    whatever was typed; so the [PUT] body never carries [user_id]. *)
Theorem profile_draft_keys c :
  reachable page c → (profile (cur _ c)).*1 = profile_fields.
Proof.
  apply (reachable_invariant page (λ s, (profile s).*1 = profile_fields)); [done| |].
  - intros s [f raw|] _ Hs; simpl; [by apply edit_keys|done].
  - intros s [] r Hs; simpl.
    + destruct (r ≫= load_profile) as [ps|] eqn:E; [|done].
      destruct r; simpl in E; [by eapply load_profile_keys|done].
    + by destruct r.
Qed.

(** C14: the load on mount replaces the whole draft: when [getProfile]
    settles with an object, the draft becomes the payload's five fields
    whatever was typed before, so edits made while the call was in flight
    are lost. *)
Theorem profile_load_discards_edits s1 s2 v :
  v ≠ VUndefined → v ≠ VNull →
  profile (continuation LoadCall (Ok v) s1) = profile (continuation LoadCall (Ok v) s2) ∧
  load_profile v = Ok (profile (continuation LoadCall (Ok v) s1)).
Proof.
  intros Hu Hn. simpl. unfold load_profile.
  repeat match goal with
         | |- context [get_prop v ?k] => destruct (get_prop_ok v k Hu Hn) as [? ->]
         end; done.
Qed.

(** C15: the message once the save settles: ["Profile saved"] for a 2xx
    response with a JSON body, ["Failed to save profile"] for a network
    failure and for a 2xx response whose body is not JSON (such as an empty
    [204 No Content]), and the [ApiError]'s message otherwise. *)
Theorem profile_save_settles r s :
  let s' := continuation SaveCall (handle_response r) s in
  profile s' = profile s ∧
  message s' =
    match r with
    | NetworkError => "Failed to save profile"
    | Responded resp =>
        if ok resp then
          match parse (text resp) with
          | Ok _ => "Profile saved"
          | Throw _ => "Failed to save profile"
          end
        else to_str (error_detail resp)
    end.
Proof.
  simpl. destruct r as [|resp]; simpl; [done|].
  destruct (ok resp); simpl; [|done].
  destruct (parse (text resp)) eqn:Hp; simpl; [done|]. by apply parse_throw in Hp as ->.
Qed.

(** ** Witnesses *)

Definition user (a : action) : event page := User a.
Definition settle_ev (i : nat) (fr : fetch_result) : event page := Settle i fr.

Definition server_profile : value :=
  VObj [("user_id", VNum (of_Z 1)); ("age", VNum (of_Z 41)); ("bodyweight_kg", VNum (of_Z 92));
        ("training_age_years", VNum (of_Z 5)); ("goal", VStr "strength");
        ("mrv_baseline_sets", VNum (of_Z 18))].

Definition profile_response : Response :=
  {| status := 200; statusText := "OK"; text := default "" (stringify server_profile) |}.

(** The user types an age before the load settles; the load wins. *)
Definition edits0 : list (event page) :=
  [user (Edit Age "31"); settle_ev 0 (Responded profile_response)].

Definition edited0 : config page := default start (run page start edits0).

Lemma profile_draft_keys_witness : (profile (cur _ edited0)).*1 = profile_fields.
Proof.
  apply profile_draft_keys.
  apply (run_reachable _ start edits0); [apply reach_start|]. reflexivity.
Defined.

Lemma profile_load_discards_edits_witness :
  profile (continuation LoadCall (Ok server_profile) (cur _ (default start (run page start [user (Edit Age "31")]))))
  = profile (continuation LoadCall (Ok server_profile) initial).
Proof. apply (profile_load_discards_edits _ _ server_profile); discriminate. Defined.

End ProfilePage.
