(* ===== verification/Dashboard.v ===== *)
(** * The dashboard page, [pages/DashboardPage.tsx]

    State (lines 9-10): [data] (initially [null]) and [error] (initially
    [""]).  On mount (lines 12-19) one call of [api.getDashboard(USER_ID)]:
    [.then(setData)] stores the payload as it is, [.catch] stores the
    [ApiError]'s message or ["Failed to load dashboard"].  There is no user
    action.  The view (lines 21-77) is the error text when [error] is a
    non-empty string, the loading text when [data] is falsy, and otherwise
    the next workout, the latest metrics and one row per recent session;
    reading a field of a missing object throws during render, and so does
    a plain object given to JSX as a child. *)

From S2P Require Import Prelude JsNum JsValue Json Schema Client Page.

Module DashboardPage.

Definition USER_ID : number := of_Z 1.

Record state := { data : value; error : string }.

Inductive tag := LoadCall.

Definition initial : state := {| data := VNull; error := "" |}.

Definition continuation (t : tag) (r : js value) (s : state) : state :=
  match r with
  | Ok payload => {| data := payload; error := error s |}
  | Throw e => {| data := data s; error := api_error_message e "Failed to load dashboard" |}
  end.

Definition page : PageSpec :=
  {| St := state; Act := Empty_set; Tag := tag;
     init := initial; mount := [(LoadCall, getDashboard USER_ID)];
     enabled := λ _ _, false; act := λ s a, (s, []); settle := continuation |}.

(** ** The view *)

(** The text of a JSX child; an object makes React throw. *)
Definition jsx (v : value) : js string :=
  match react_text v with Some t => Ok t | None => Throw ETypeError end.

Inductive view :=
  | ErrorText (msg : string)
  | LoadingText
  | Loaded (next_workout : list string) (latest : list string) (rows : list (list string))
  | RenderError.

(** Lines 31-37. *)
Definition next_workout_view (d : value) : js (list string) :=
  nw ← get_prop d "next_workout";
  td ← get_prop nw "target_date"; ex ← get_prop nw "exercise";
  st ← get_prop nw "sets"; rp ← get_prop nw "reps"; ld ← get_prop nw "load_kg";
  td' ← jsx td; ex' ← jsx ex; st' ← jsx st; rp' ← jsx rp; ld' ← jsx ld;
  Ok [td'; ex'; st' +:+ " sets × " +:+ rp' +:+ " reps @ " +:+ ld' +:+ " kg"].

(** Lines 40-49. *)
Definition latest_view (d : value) : js (list string) :=
  lm ← get_prop d "latest_metrics";
  a ← get_prop lm "date"; b ← get_prop lm "sleep_hours"; c ← get_prop lm "resting_hr";
  e ← get_prop lm "hrv_rmssd"; f ← get_prop lm "soreness";
  a' ← jsx a; b' ← jsx b; c' ← jsx c; e' ← jsx e; f' ← jsx f;
  Ok ["Date: " +:+ a'; "Sleep: " +:+ b' +:+ "h"; "Resting HR: " +:+ c'; "HRV: " +:+ e';
      "Soreness: " +:+ f' +:+ "/10"].

(** Lines 64-71: one row per session. *)
Definition session_row (session : value) : js (list string) :=
  a ← get_prop session "date"; b ← get_prop session "exercise_count";
  c ← get_prop session "tonnage"; e ← get_prop session "avg_rir";
  a' ← jsx a; b' ← jsx b; c' ← jsx c; e' ← jsx e; Ok [a'; b'; c'; e'].

Definition render (s : state) : view :=
  if decide (error s ≠ "") then ErrorText (error s)
  else if negb (truthy (data s)) then LoadingText
  else match next_workout_view (data s), latest_view (data s),
             get_prop (data s) "recent_sessions" ≫= js_map session_row with
       | Ok nw, Ok lm, Ok rows => Loaded nw lm rows
       | _, _, _ => RenderError
       end.

(** ** Theorems *)

Definition summary_row (x : SessionSummary.t) : list string :=
  [SessionSummary.date x; to_string (SessionSummary.exercise_count x);
   to_string (SessionSummary.tonnage x); to_string (SessionSummary.avg_rir x)].

Lemma session_rows xs :
  js_mapM session_row (SessionSummary.to_value <$> xs) = Ok (summary_row <$> xs).
Proof. apply js_mapM_fmap_ok. by intros []. Qed.

Lemma recent_sessions_prop d :
  get_prop (DashboardResponse.to_value d) "recent_sessions"
  = Ok (VArr (SessionSummary.to_value <$> DashboardResponse.recent_sessions d)).
Proof. by destruct d. Qed.

(** C16: a payload of the [DashboardResponse] type is rendered as the
    prescription's date, exercise and [<sets> sets × <reps> reps @ <load> kg],
    the five latest metrics, and one row per recent session. *)
Theorem dashboard_renders d :
  render {| data := DashboardResponse.to_value d; error := "" |} =
  let nw := DashboardResponse.next_workout d in
  let lm := DashboardResponse.latest_metrics d in
  Loaded
    [TrainingPrescription.target_date nw; TrainingPrescription.exercise nw;
     to_string (TrainingPrescription.sets nw) +:+ " sets × " +:+
     to_string (TrainingPrescription.reps nw) +:+ " reps @ " +:+
     to_string (TrainingPrescription.load_kg nw) +:+ " kg"]
    ["Date: " +:+ SessionMetrics.date lm; "Sleep: " +:+ to_string (SessionMetrics.sleep_hours lm) +:+ "h";
     "Resting HR: " +:+ to_string (SessionMetrics.resting_hr lm);
     "HRV: " +:+ to_string (SessionMetrics.hrv_rmssd lm);
     "Soreness: " +:+ to_string (SessionMetrics.soreness lm) +:+ "/10"]
    (summary_row <$> DashboardResponse.recent_sessions d).
Proof.
  unfold render. cbn [data error]. rewrite recent_sessions_prop. cbn [mbind js_bind js_map].
  rewrite session_rows. by destruct d as [[] [] xs].
Qed.

(** C17: the dashboard is a read-then-display state machine: a reachable
    configuration is either the mounted page with its one [getDashboard]
    call in flight, or the page after that call settled, with no call in
    flight and nothing left to happen. *)
Theorem dashboard_states c :
  reachable page c →
  (cur _ c = initial ∧ pending _ c = [(LoadCall, getDashboard USER_ID)]) ∨
  (pending _ c = [] ∧ ∃ r, cur _ c = continuation LoadCall (handle_response r) initial).
Proof.
  induction 1 as [|c c' Hc IH Hs]; [by left|].
  destruct Hs as [c0 [] |c0 i t call fr Hi]; simpl.
  destruct IH as [[Hcur Hp]|[Hp _]]; [|by rewrite Hp, lookup_nil in Hi].
  rewrite Hp in Hi. destruct i as [|i]; simplify_eq/=; try by rewrite lookup_nil in Hi.
  right. rewrite Hp, Hcur. split; [done|]. by exists fr.
Qed.

(** C18: when the dashboard call fails with a non-2xx response whose
    message is empty (an empty status text, as HTTP/2 responses have, and
    no JSON [detail]), [error] stays [""] and the page shows
    "Loading dashboard..." for good instead of an error. *)
Theorem dashboard_empty_error_loads_forever r :
  ok r = false → to_str (error_detail r) = "" →
  render (continuation LoadCall (handle_response (Responded r)) initial) = LoadingText.
Proof. intros Hok He. unfold handle_response. rewrite Hok. simpl. by rewrite He. Qed.

(** ** Witnesses *)

(** An HTTP/2 gateway error: empty status text, HTML body. *)
Definition h2_gateway_error : Response :=
  {| status := 502; statusText := ""; text := "<html>Bad Gateway</html>" |}.

Lemma dashboard_empty_error_loads_forever_witness :
  render (continuation LoadCall (handle_response (Responded h2_gateway_error)) initial) = LoadingText.
Proof. apply dashboard_empty_error_loads_forever; vm_compute; reflexivity. Defined.

Lemma dashboard_states_witness :
  pending _ (default start (run page start [Settle 0 (Responded h2_gateway_error)])) = [].
Proof.
  destruct (dashboard_states (default start (run page start [Settle 0 (Responded h2_gateway_error)])))
    as [[_ H]|[H _]]; [| |done].
  - apply (run_reachable _ start [Settle 0 (Responded h2_gateway_error)]); [apply reach_start|].
    reflexivity.
  - discriminate H.
Defined.

(** Scenario A of the specification. *)
Example dashboard_scenario_A :
  render {| data := DashboardResponse.to_value
              {| DashboardResponse.next_workout :=
                   {| TrainingPrescription.target_date := "2026-11-10";
                      TrainingPrescription.exercise := "Squat";
                      TrainingPrescription.sets := of_Z 4; TrainingPrescription.reps := of_Z 5;
                      TrainingPrescription.load_kg := of_Z 100;
                      TrainingPrescription.deload := false;
                      TrainingPrescription.rationale := [] |};
                 DashboardResponse.latest_metrics := {|
                   SessionMetrics.date := "2026-11-09"; SessionMetrics.sleep_hours := of_Z 7;
                   SessionMetrics.resting_hr := of_Z 55; SessionMetrics.hrv_rmssd := of_Z 55;
                   SessionMetrics.soreness := of_Z 3; SessionMetrics.motivation := of_Z 7;
                   SessionMetrics.rpe_session := of_Z 7; SessionMetrics.duration_min := of_Z 60 |};
                 DashboardResponse.recent_sessions := [] |};
            error := "" |}
  = Loaded ["2026-11-10"; "Squat"; "4 sets × 5 reps @ 100 kg"]
           ["Date: 2026-11-09"; "Sleep: 7h"; "Resting HR: 55"; "HRV: 55"; "Soreness: 3/10"] [].
Proof. vm_compute. reflexivity. Qed.

End DashboardPage.
