(* ===== verification/Analytics.v ===== *)
(** * The analytics page, [pages/AnalyticsPage.tsx]

    State (lines 10-12): the exercise filter (initially ["Squat"]), the
    payload [data] (initially [null]) and [error] (initially [""]).
    [load] (lines 14-24) calls [api.getAnalytics(USER_ID, exercise)] with
    the filter of the render it belongs to: on mount ([useEffect(load, [])],
    line 26) that is ["Squat"], on "Refresh" (line 47) the current filter.
    Its [.then] stores the payload and clears [error]; its [.catch] stores
    the [ApiError]'s message or ["Failed to load analytics"].

    [weeklyData] (lines 28-35, a [useMemo]) is computed on every render,
    before the error and loading tests, and maps the weekly volume points
    to [{ week, muscle, volume }]; it throws when [data] is truthy but has
    no array [weekly_volume].  The view (lines 37-83) is the error text,
    the loading text, or the filter input, the "Refresh" button and the two
    charts; the controls exist only in that last view.  The charts
    themselves (recharts) are not modelled: [Loaded] carries the data
    handed to them. *)

From S2P Require Import Prelude JsNum JsValue Json Uri Schema Client Page.

Module AnalyticsPage.

Definition USER_ID : number := of_Z 1.

Record state := {
  exercise : string;
  data : value;
  error : string
}.

Inductive action :=
  | EditExercise (raw : string)
  | Refresh.

Inductive tag := LoadCall.

Definition initial : state := {| exercise := "Squat"; data := VNull; error := "" |}.

(** [load] of a render whose filter is [ex]. *)
Definition load (ex : string) : list (tag * FetchCall) := [(LoadCall, getAnalytics USER_ID ex)].

(** Lines 30-34: one bar per weekly volume point. *)
Definition weekly_point (point : value) : js value :=
  w ← get_prop point "week_start"; m ← get_prop point "muscle"; v ← get_prop point "volume";
  Ok (VObj [("week", w); ("muscle", m); ("volume", v)]).

(** Lines 28-35. *)
Definition weeklyData (d : value) : js (list value) :=
  if negb (truthy d) then Ok []
  else get_prop d "weekly_volume" ≫= js_map weekly_point.

Inductive view :=
  | ErrorText (msg : string)
  | LoadingText
  (** The filter input, the button, the bars and the e1RM series. *)
  | Loaded (exercise : string) (bars : list value) (trend : value)
  | RenderError.

(** Lines 28-83: [weeklyData] first, then [if (error)], [if (!data)]. *)
Definition render (s : state) : view :=
  match weeklyData (data s) with
  | Throw _ => RenderError
  | Ok bars =>
      if decide (error s ≠ "") then ErrorText (error s)
      else if negb (truthy (data s)) then LoadingText
      else match get_prop (data s) "e1rm_trend" with
           | Ok trend => Loaded (exercise s) bars trend
           | Throw _ => RenderError
           end
  end.

(** The input and the button are on screen only in the loaded view. *)
Definition rendered (s : state) (a : action) : bool :=
  match render s with Loaded _ _ _ => true | _ => false end.

(** Line 45 ([setExercise]) and line 47 ([onClick={load}]). *)
Definition handle (s : state) (a : action) : state * list (tag * FetchCall) :=
  match a with
  | EditExercise raw => ({| exercise := raw; data := data s; error := error s |}, [])
  | Refresh => (s, load (exercise s))
  end.

(** Lines 17-23. *)
Definition continuation (t : tag) (r : js value) (s : state) : state :=
  match r with
  | Ok payload => {| exercise := exercise s; data := payload; error := "" |}
  | Throw e =>
      {| exercise := exercise s; data := data s;
         error := api_error_message e "Failed to load analytics" |}
  end.

Definition page : PageSpec :=
  {| St := state; Act := action; Tag := tag;
     init := initial; mount := load (exercise initial);
     enabled := rendered; act := handle; settle := continuation |}.

(** ** Lemmas *)

Lemma render_error s :
  error s ≠ "" → render s = RenderError ∨ render s = ErrorText (error s).
Proof. intros He. unfold render. case_match; [|by left]. rewrite decide_True by done. by right. Qed.

(** The loaded view does not depend on the filter but to show it. *)
Lemma rendered_exercise s x a a' :
  rendered {| exercise := x; data := data s; error := error s |} a = rendered s a'.
Proof. unfold rendered, render. simpl. repeat case_match; done. Qed.

Lemma rendered_any s a a' : rendered s a = rendered s a'.
Proof. done. Qed.

(** ** Theorems *)

(** C19: the error view is terminal: once [error] is set, neither the
    filter input nor "Refresh" is on screen, and when no call is in
    flight the page can never change again; the user's only way out is to
    navigate away and back. *)
Theorem analytics_error_terminal (c : config page) :
  error (cur _ c) ≠ "" →
  (∀ a, rendered (cur _ c) a = false) ∧
  (pending _ c = [] → ∀ c', ¬ step page c c').
Proof.
  intros He. assert (Hr : ∀ a, rendered (cur _ c) a = false).
  { intros a. unfold rendered. by destruct (render_error _ He) as [-> | ->]. }
  split; [done|]. intros Hp c' Hs.
  destruct Hs as [c0 a s' calls Hen _|c0 i t call fr Hi].
  - by rewrite Hr in Hen.
  - by rewrite Hp, lookup_nil in Hi.
Qed.

(** C20: a failed load replaces the page with the error text: on a
    non-2xx response the page shows the [ApiError]'s message (the body's
    [detail], else the status text), whatever it showed before. *)
Theorem analytics_load_error r s bars :
  ok r = false → to_str (error_detail r) ≠ "" → weeklyData (data s) = Ok bars →
  render (continuation LoadCall (handle_response (Responded r)) s) = ErrorText (to_str (error_detail r)).
Proof.
  intros Hok Hne Hw. unfold handle_response. rewrite Hok. unfold render. simpl.
  rewrite Hw. by rewrite decide_True.
Qed.

(** C21: "Refresh" issues one [GET] for the filter as it is when clicked,
    and changes nothing on screen (the stale data stays until the answer);
    the URL ends with the [exercise] parameter, which decodes back to the
    filter exactly. *)
Theorem analytics_refresh_call s :
  ∃ q, handle s Refresh =
    (s, [(LoadCall, {| url := "/api/analytics?user_id=1&exercise=" +:+ q; method := "GET";
                       headers := [json_content_type]; body := None |})]) ∧
    decode_component q = Some (exercise s).
Proof. exists (encodeURIComponent (exercise s)). split; [done|]. apply decode_encode_component. Qed.

(** C22: responses are not matched to requests: after a refresh for the
    filter shown, an edit of the filter to [b] and a second refresh, if
    the second answer arrives first and the first answer last, the page
    shows the first filter's data under the filter [b]. *)
Theorem analytics_stale_refresh (c : config page) b r1 r2 p1 p2 :
  rendered (cur _ c) Refresh = true →
  handle_response r1 = Ok p1 → handle_response r2 = Ok p2 →
  run page c [@User page Refresh; @User page (EditExercise b); @User page Refresh;
              @Settle page (S (length (pending _ c))) r2; @Settle page (length (pending _ c)) r1]
  = Some (Build_config page {| exercise := b; data := p1; error := "" |} (pending _ c)).
Proof.
  destruct c as [s calls]. cbn [cur pending]. intros Hen H1 H2.
  destruct (lookup_snoc2 (A := Tag page * FetchCall) calls (LoadCall, getAnalytics USER_ID (exercise s))
    (LoadCall, getAnalytics USER_ID b)) as (Ha & Hb & Hd).
  cbn [run exec page enabled act cur pending handle mbind option_bind load]. rewrite Hen.
  cbn [mbind option_bind cur pending]. rewrite (rendered_any s _ Refresh), Hen.
  cbn [mbind option_bind cur pending]. rewrite (rendered_exercise s b _ Refresh), Hen.
  cbn [mbind option_bind cur pending exercise]. unfold load. rewrite app_nil_r. rewrite_list Hb.
  cbn [mbind option_bind cur pending]. rewrite_list Hd.
  rewrite lookup_snoc_length. cbn [mbind option_bind cur pending settle page continuation].
  by rewrite delete_snoc, H2, H1.
Qed.

(** One bar of the chart, as [weeklyData] builds it from a point. *)
Definition weekly_bar (p : WeeklyVolumePoint.t) : value :=
  VObj [("week", VStr (WeeklyVolumePoint.week_start p)); ("muscle", VStr (WeeklyVolumePoint.muscle p));
        ("volume", VNum (WeeklyVolumePoint.volume p))].

Lemma weekly_bars xs :
  js_mapM weekly_point (WeeklyVolumePoint.to_value <$> xs) = Ok (weekly_bar <$> xs).
Proof. apply js_mapM_fmap_ok. by intros []. Qed.

Lemma weekly_volume_prop a :
  get_prop (AnalyticsResponse.to_value a) "weekly_volume"
  = Ok (VArr (WeeklyVolumePoint.to_value <$> AnalyticsResponse.weekly_volume a)).
Proof. by destruct a. Qed.

(** C23: a payload of the [AnalyticsResponse] type is rendered with the
    filter, one bar [{ week, muscle, volume }] per weekly volume point in
    the server's order, and the e1RM series as sent. *)
Theorem analytics_renders x a :
  render {| exercise := x; data := AnalyticsResponse.to_value a; error := "" |} =
  Loaded x (weekly_bar <$> AnalyticsResponse.weekly_volume a)
    (VArr (E1RMPoint.to_value <$> AnalyticsResponse.e1rm_trend a)).
Proof.
  unfold render, weeklyData. cbn [data error exercise]. rewrite weekly_volume_prop.
  cbn [mbind js_bind js_map]. rewrite weekly_bars. by destruct a.
Qed.

(** ** Witnesses *)

Definition settle_ev (i : nat) (fr : fetch_result) : event page := Settle i fr.

(** Scenario C of the specification: the mount call fails with a 404 whose
    body is [{"detail":"no data"}]. *)
Definition scenario_C : config page :=
  default start (run page start [settle_ev 0 (Responded no_data_response)]).

Example scenario_C_url :
  pending page start = [(LoadCall, {| url := "/api/analytics?user_id=1&exercise=Squat"; method := "GET";
                                   headers := [json_content_type]; body := None |})].
Proof. reflexivity. Qed.

Lemma analytics_load_error_witness :
  render (continuation LoadCall (handle_response (Responded no_data_response)) initial)
  = ErrorText "no data".
Proof. refine (eq_trans (analytics_load_error no_data_response initial [] _ _ _) _); vm_compute; done. Defined.

Lemma analytics_error_terminal_witness : rendered (cur page scenario_C) Refresh = false.
Proof.
  assert (Herr : error (cur _ scenario_C) = "no data") by reflexivity.
  apply (analytics_error_terminal scenario_C). by rewrite Herr.
Defined.

Definition sample_response : AnalyticsResponse.t :=
  {| AnalyticsResponse.sessions := of_Z 3; AnalyticsResponse.fatigue_mean := of_Z 2;
     AnalyticsResponse.stimulus_mean := of_Z 4; AnalyticsResponse.readiness_mean := of_Z 5;
     AnalyticsResponse.weekly_volume :=
       [{| WeeklyVolumePoint.week_start := "2026-11-02"; WeeklyVolumePoint.muscle := "quads";
           WeeklyVolumePoint.volume := of_Z 12 |}];
     AnalyticsResponse.e1rm_trend := [] |}.

Definition ok_response (v : value) : fetch_result :=
  Responded {| status := 200; statusText := "OK"; text := default "" (stringify v) |}.

Definition squat_data : value := AnalyticsResponse.to_value sample_response.
Definition bench_data : value :=
  AnalyticsResponse.to_value {| AnalyticsResponse.sessions := of_Z 1; AnalyticsResponse.fatigue_mean := of_Z 1;
     AnalyticsResponse.stimulus_mean := of_Z 1; AnalyticsResponse.readiness_mean := of_Z 1;
     AnalyticsResponse.weekly_volume := []; AnalyticsResponse.e1rm_trend := [] |}.

Definition loaded_squat : config page :=
  Build_config page {| exercise := "Squat"; data := squat_data; error := "" |} [].

Lemma analytics_stale_refresh_witness :
  run page loaded_squat
    [@User page Refresh; @User page (EditExercise "Bench"); @User page Refresh;
     @Settle page 1 (ok_response bench_data); @Settle page 0 (ok_response squat_data)]
  = Some (Build_config page {| exercise := "Bench"; data := squat_data; error := "" |} []).
Proof.
  apply (analytics_stale_refresh loaded_squat "Bench" (ok_response squat_data) (ok_response bench_data)
    squat_data bench_data);
    vm_compute; reflexivity.
Defined.

End AnalyticsPage.
