(* ===== verification/Shell.v ===== *)
(** * The shell: [App.tsx] and [components/Layout.tsx]

    [App] (lines 10-23) is one layout route at ["/"] whose children are
    the five pages and a catch-all [<Navigate to="/" replace />].  The
    router ([react-router-dom], a library the shell only calls) matches a
    child path case-insensitively and ignores trailing slashes; [route] is
    that matching on this route table.  [Layout] (lines 11-40) renders the
    five [links] (lines 3-9) and marks a link active when
    [location.pathname === href] (line 25), an exact string comparison.

    The application state [app] is the location and the one page mounted
    there.  Opening a URL (typed in the address bar, or a reload) loads the
    application afresh ([navigate]).  A navigation inside the application
    (a [Link] click, the history buttons) re-renders the [Routes]: React
    keeps the page mounted, with its state and the calls it has in
    flight, when the matched route is the one already shown (the page's
    own link, or another spelling of its path), and otherwise unmounts it
    and mounts the routed page afresh, which issues its mount calls again;
    an unknown path renders the catch-all [<Navigate>] first, so the page
    shown is unmounted and the dashboard mounted afresh ([follow]). *)

From S2P Require Import Prelude JsNum JsValue Client Page LogSession Metrics Profile Dashboard Analytics.
From Stdlib Require Ascii.

Module Shell.

Inductive screen := SDashboard | SLogSession | SMetrics | SAnalytics | SProfile.

#[export] Instance screen_eq_dec : EqDecision screen.
Proof. solve_decision. Defined.

(** Lines 3-9. *)
Definition links : list (string * string) :=
  [("/", "Dashboard"); ("/log-session", "Log Session"); ("/metrics", "Metrics");
   ("/analytics", "Analytics"); ("/profile", "Profile")].

(** The child routes of lines 14-18, by their path under ["/"]. *)
Definition routes : list (string * screen) :=
  [("", SDashboard); ("log-session", SLogSession); ("metrics", SMetrics);
   ("analytics", SAnalytics); ("profile", SProfile)].

(** ** The router's matching *)

Definition to_lower (c : Ascii.ascii) : Ascii.ascii :=
  let n := Ascii.nat_of_ascii c in
  if decide (65 ≤ n ≤ 90)%nat then Ascii.ascii_of_nat (n + 32) else c.

Definition slash : Ascii.ascii := Ascii.ascii_of_nat 47.

Fixpoint drop_slashes (l : list Ascii.ascii) : list Ascii.ascii :=
  match l with
  | c :: l' => if decide (c = slash) then drop_slashes l' else l
  | [] => []
  end.

(** The pathname without its trailing slashes and its leading one, lower-cased. *)
Definition route_key (pathname : string) : string :=
  let l := String.list_ascii_of_string pathname in
  let l := reverse (drop_slashes (reverse l)) in
  let l := match l with c :: l' => if decide (c = slash) then l' else l | [] => [] end in
  String.string_of_list_ascii (to_lower <$> l).

Definition route (pathname : string) : option screen :=
  assoc_get (route_key pathname) routes.

(** The href of each screen's link. *)
Definition screen_href (s : screen) : string :=
  match s with
  | SDashboard => "/" | SLogSession => "/log-session" | SMetrics => "/metrics"
  | SAnalytics => "/analytics" | SProfile => "/profile"
  end.

(** ** [Layout] *)

(** Line 25: the class of a link. *)
Definition link_class (pathname href : string) : string :=
  "rounded px-3 py-1 text-sm " +:+
  (if decide (pathname = href) then "bg-blue-500 text-white" else "bg-slate-800 text-slate-300").

(** Lines 21-32: the rendered navigation, each link with its class. *)
Definition nav (pathname : string) : list (string * string * string) :=
  (λ '(href, label), (href, label, link_class pathname href)) <$> links.

Definition active_hrefs (pathname : string) : list string :=
  filter (λ href, pathname = href) links.*1.

(** ** The application: the location and the page mounted there *)

Section App.
Variable today : string.

Inductive mounted :=
  | MDashboard (c : config DashboardPage.page)
  | MLogSession (c : config (LogSessionPage.page today))
  | MMetrics (c : config (MetricsPage.page today))
  | MAnalytics (c : config AnalyticsPage.page)
  | MProfile (c : config ProfilePage.page).

(** The page of a screen, freshly mounted (lines 14-18). *)
Definition mount_screen (s : screen) : mounted :=
  match s with
  | SDashboard => MDashboard start
  | SLogSession => MLogSession start
  | SMetrics => MMetrics start
  | SAnalytics => MAnalytics start
  | SProfile => MProfile start
  end.

Definition screen_of (m : mounted) : screen :=
  match m with
  | MDashboard _ => SDashboard | MLogSession _ => SLogSession | MMetrics _ => SMetrics
  | MAnalytics _ => SAnalytics | MProfile _ => SProfile
  end.

Record app := { location : string; view : mounted }.

(** Lines 12-21: the routed page; the catch-all [<Navigate to="/" replace />]
    replaces an unknown location by ["/"], which is the dashboard. *)
Definition navigate (path : string) : app :=
  match route path with
  | Some s => {| location := path; view := mount_screen s |}
  | None => {| location := "/"; view := mount_screen SDashboard |}
  end.

(** A navigation inside the application: the element of the matched
    route is kept when it is the one shown, and replaced otherwise. *)
Definition follow (a : app) (path : string) : app :=
  match route path with
  | Some s =>
      if decide (s = screen_of (view a)) then {| location := path; view := view a |}
      else {| location := path; view := mount_screen s |}
  | None => navigate path
  end.

(** A navigation inside the application, a URL opened afresh, or a step
    of the mounted page, which keeps the location. *)
Inductive app_step : app → app → Prop :=
  | app_follow a path : app_step a (follow a path)
  | app_navigate a path : app_step a (navigate path)
  | app_dashboard a c c' : view a = MDashboard c → step _ c c' →
      app_step a {| location := location a; view := MDashboard c' |}
  | app_log_session a c c' : view a = MLogSession c → step _ c c' →
      app_step a {| location := location a; view := MLogSession c' |}
  | app_metrics a c c' : view a = MMetrics c → step _ c c' →
      app_step a {| location := location a; view := MMetrics c' |}
  | app_analytics a c c' : view a = MAnalytics c → step _ c c' →
      app_step a {| location := location a; view := MAnalytics c' |}
  | app_profile a c c' : view a = MProfile c → step _ c c' →
      app_step a {| location := location a; view := MProfile c' |}.

(** The application opened at any URL, then any sequence of steps. *)
Inductive app_reachable : app → Prop :=
  | app_open path : app_reachable (navigate path)
  | app_reach_step a a' : app_reachable a → app_step a a' → app_reachable a'.


End App.

Arguments location {today} _.
Arguments view {today} _.

(** ** Lemmas *)

Lemma route_href s : route (screen_href s) = Some s.
Proof. by destruct s. Qed.

Lemma screen_href_links s : screen_href s ∈ links.*1.
Proof. destruct s; simpl; set_solver. Qed.

Lemma active_hrefs_single p h : h ∈ links.*1 → active_hrefs p = [h] ↔ p = h.
Proof.
  intros Hh. split.
  - intros Ha. assert (h ∈ active_hrefs p) as Hin by (rewrite Ha; set_solver).
    by apply list_elem_of_filter in Hin as [-> _].
  - intros ->. simpl in Hh. repeat (apply elem_of_cons in Hh as [->|Hh]; [reflexivity|]).
    by apply elem_of_nil in Hh.
Qed.

Lemma navigate_routes today path :
  route (location (navigate today path)) = Some (screen_of today (view (navigate today path))).
Proof. unfold navigate. destruct (route path) as [s|] eqn:E; simpl; [by destruct s|done]. Qed.

Lemma href_route h s : h ∈ links.*1 → route h = Some s → h = screen_href s.
Proof.
  intros Hh. simpl in Hh.
  repeat (apply elem_of_cons in Hh as [->|Hh]; [by intros [= <-]|]). by apply elem_of_nil in Hh.
Qed.

Lemma active_hrefs_nil p s : route p = Some s → p ≠ screen_href s → active_hrefs p = [].
Proof.
  intros Hr Hne. destruct (active_hrefs p) as [|h hs] eqn:E; [done|].
  assert (h ∈ active_hrefs p) as Hin by (rewrite E; set_solver).
  apply list_elem_of_filter in Hin as [-> Hh]. by apply href_route in Hr.
Qed.

Lemma reachable_location_routes today a :
  app_reachable today a → route (location a) = Some (screen_of today (view a)).
Proof.
  induction 1 as [path|a a' _ IH Hs]; [apply navigate_routes|].
  destruct Hs as [a path|a path|a c c' Hv _|a c c' Hv _|a c c' Hv _|a c c' Hv _|a c c' Hv _];
    [|apply navigate_routes|..]; [|simpl; by rewrite IH, Hv..].
  unfold follow. destruct (route path) as [s|] eqn:Hr; [|apply navigate_routes].
  case_decide as Hs; simpl; [by rewrite Hr, Hs|by rewrite Hr; destruct s].
Qed.

(** A navigation to the page shown keeps it mounted: its state and its
    calls in flight are kept and nothing is fetched again. *)
Lemma follow_same_screen today a path :
  route path = Some (screen_of today (view a)) →
  view (follow today a path) = view a ∧ location (follow today a path) = path.
Proof. intros Hr. unfold follow. rewrite Hr. by rewrite decide_True. Qed.

(** A navigation to another page mounts that page afresh. *)
Lemma follow_other_screen today a path s :
  route path = Some s → s ≠ screen_of today (view a) →
  view (follow today a path) = mount_screen today s.
Proof. intros Hr Hne. unfold follow. rewrite Hr. by rewrite decide_False. Qed.

(** ** Theorems *)

(** C25: in every state of the application the location routes to the
    page shown (the catch-all never leaves an unknown location behind),
    and the navigation highlights exactly that page's link when the
    location is spelled as its [href], and no link at all otherwise. *)
Theorem shell_location_and_highlight today a :
  app_reachable today a →
  let s := screen_of today (view a) in
  route (location a) = Some s ∧
  (location a = screen_href s → active_hrefs (location a) = [screen_href s]) ∧
  (location a ≠ screen_href s → active_hrefs (location a) = []).
Proof.
  intros Ha. pose proof (reachable_location_routes today a Ha) as Hr. split_and!; [done| |].
  - intros Heq. by apply active_hrefs_single; [apply screen_href_links|].
  - by apply active_hrefs_nil.
Qed.




(** ** Witnesses *)

Lemma shell_location_and_highlight_witness :
  active_hrefs (location (navigate "2026-11-09" "/analytics")) = ["/analytics"].
Proof.
  apply (shell_location_and_highlight "2026-11-09" _ (app_open _ "/analytics")). reflexivity.
Defined.


End Shell.
